(** * NotesVault: the browser-side authentication service and upload handler

    A shallow embedding of [src/scripts/auth.js] (class [AuthService]) and of
    the form handler of [src/scripts/upload.js], with the properties of the
    specification proved about it.

    Conventions of the embedding.
    - A JavaScript string is a [string]: a sequence of code units, here
      restricted to the range 0..255 (Latin-1).  On that range [trim],
      [toLowerCase], the regular expressions, [TextEncoder.encode] and [btoa]
      are modelled exactly.
    - [localStorage] holds JSON text; a slot is either absent, holds a value of
      the expected shape, or holds text on which the reading code throws
      (see [Slot]).
    - Readings of the platform that differ from call to call ([Date.now],
      [crypto.getRandomValues], [Math.random], [toISOString]) are explicit
      inputs, bundled in [Ambient].
    - Every function is a computation [Js A] over the [World]: it returns a
      value or throws, and leaves a new world.  An [async] function is the
      computation of a call that is awaited before the next call starts;
      [Await] splits [register] at its awaits, for two calls in flight. *)

From Stdlib Require Import String Ascii List ZArith NArith Bool Lia DecimalString.
Import ListNotations.
Local Open Scope string_scope.

(* ================================================================== *)
(** * JavaScript strings *)

Module JsString.

Definition code (c : ascii) : N := N_of_ascii c.

(** [\s] and the characters removed by [trim], on the range 0..255:
    TAB, LF, VT, FF, CR, SPACE and NBSP. *)
Definition isWhiteSpace (c : ascii) : bool :=
  let n := code c in
  ((9 <=? n) && (n <=? 13) || (n =? 32) || (n =? 160))%N.

(** The characters [.] does not match: LF and CR. *)
Definition isLineTerminator (c : ascii) : bool :=
  let n := code c in ((n =? 10) || (n =? 13))%N.

Definition isLower (c : ascii) : bool :=
  let n := code c in ((97 <=? n) && (n <=? 122))%N.

Definition isUpper (c : ascii) : bool :=
  let n := code c in ((65 <=? n) && (n <=? 90))%N.

Definition isDigit (c : ascii) : bool :=
  let n := code c in ((48 <=? n) && (n <=? 57))%N.

Fixpoint trimStart (s : string) : string :=
  match s with
  | EmptyString => EmptyString
  | String c r => if isWhiteSpace c then trimStart r else s
  end.

Fixpoint trimEnd (s : string) : string :=
  match s with
  | EmptyString => EmptyString
  | String c r =>
      match trimEnd r with
      | EmptyString => if isWhiteSpace c then EmptyString else String c EmptyString
      | r' => String c r'
      end
  end.

Definition trim (s : string) : string := trimEnd (trimStart s).

(** The global replacement of [sanitizeInput]: every less-than sign,
    greater-than sign, apostrophe and double quote (codes 60, 62, 39
    and 34) is deleted. *)
Definition isMarkup (c : ascii) : bool :=
  let n := code c in ((n =? 60) || (n =? 62) || (n =? 39) || (n =? 34))%N.

Fixpoint stripMarkup (s : string) : string :=
  match s with
  | EmptyString => EmptyString
  | String c r => if isMarkup c then stripMarkup r else String c (stripMarkup r)
  end.

(** [toLowerCase] of one code unit below 256: A-Z and the upper-case
    letters of Latin-1 (192..222 without the sign 215) move up by 32. *)
Definition lowerChar (c : ascii) : ascii :=
  let n := code c in
  if (isUpper c || (192 <=? n) && (n <=? 222) && negb (n =? 215))%N
  then ascii_of_N (n + 32) else c.

Fixpoint toLowerCase (s : string) : string :=
  match s with
  | EmptyString => EmptyString
  | String c r => String (lowerChar c) (toLowerCase r)
  end.

Fixpoint endsWith (s : string) (c : ascii) : bool :=
  match s with
  | EmptyString => false
  | String d EmptyString => Ascii.eqb d c
  | String _ r => endsWith r c
  end.

Fixpoint drop (n : nat) (s : string) : string :=
  match n, s with
  | O, _ => s
  | S n', String _ r => drop n' r
  | S _, EmptyString => EmptyString
  end.

(** [s.slice(-k)]: the last [k] code units, or all of [s] when it is shorter. *)
Definition sliceLast (k : nat) (s : string) : string :=
  drop (String.length s - k) s.

(** A string is falsy exactly when it is empty. *)
Definition truthy (s : string) : bool :=
  match s with EmptyString => false | _ => true end.

(** [Number.prototype.toString] of an integer. *)
Definition ofInteger (z : Z) : string := NilZero.string_of_int (Z.to_int z).

End JsString.

(* ================================================================== *)
(** * Platform functions: TextEncoder, btoa, SHA-256 *)

Module Platform.
Import JsString.
Local Open Scope N_scope.

(** [new TextEncoder().encode(s)]: UTF-8; a code unit below 128 is one
    byte, one in 128..255 two bytes. *)
Fixpoint encode (s : string) : list N :=
  match s with
  | EmptyString => []
  | String c r =>
      let n := code c in
      if n <? 128 then n :: encode r
      else N.lor 192 (N.shiftr n 6) :: N.lor 128 (N.land n 63) :: encode r
  end.

(** [String.fromCharCode(...bytes)] *)
Fixpoint fromCharCode (l : list N) : string :=
  match l with
  | [] => EmptyString
  | n :: r => String (ascii_of_N n) (fromCharCode r)
  end.

Definition alphabet : string :=
  "ABCDEFGHIJKLMNOPQRSTUVWXYZabcdefghijklmnopqrstuvwxyz0123456789+/".

Definition sextet (n : N) : ascii :=
  match String.get (N.to_nat n) alphabet with
  | Some c => c
  | None => "="%char
  end.

(** [btoa]: Base64 with padding, three bytes to four characters. *)
Fixpoint btoaBytes (l : list N) : string :=
  match l with
  | [] => EmptyString
  | [a] =>
      String (sextet (N.shiftr a 2))
        (String (sextet (N.shiftl (N.land a 3) 4)) "==")
  | [a; b] =>
      String (sextet (N.shiftr a 2))
        (String (sextet (N.lor (N.shiftl (N.land a 3) 4) (N.shiftr b 4)))
           (String (sextet (N.shiftl (N.land b 15) 2)) "="))
  | a :: b :: c :: r =>
      String (sextet (N.shiftr a 2))
        (String (sextet (N.lor (N.shiftl (N.land a 3) 4) (N.shiftr b 4)))
           (String (sextet (N.lor (N.shiftl (N.land b 15) 2) (N.shiftr c 6)))
              (String (sextet (N.land c 63)) (btoaBytes r))))
  end.

Definition btoa (s : string) : string :=
  btoaBytes (map code (list_ascii_of_string s)).

(** ** SHA-256 (FIPS 180-4) on bytes; a word is an [N] below 2^32. *)

Definition w32 (x : N) : N := N.land x 0xFFFFFFFF.
Definition add32 (x y : N) : N := w32 (x + y).
Definition rotr (k x : N) : N :=
  N.lor (N.shiftr x k) (w32 (N.shiftl x (32 - k))).
Definition not32 (x : N) : N := N.lxor x 0xFFFFFFFF.

Definition Ch (x y z : N) : N := N.lxor (N.land x y) (N.land (not32 x) z).
Definition Maj (x y z : N) : N :=
  N.lxor (N.lxor (N.land x y) (N.land x z)) (N.land y z).
Definition Sigma0 (x : N) : N := N.lxor (N.lxor (rotr 2 x) (rotr 13 x)) (rotr 22 x).
Definition Sigma1 (x : N) : N := N.lxor (N.lxor (rotr 6 x) (rotr 11 x)) (rotr 25 x).
Definition sigma0 (x : N) : N := N.lxor (N.lxor (rotr 7 x) (rotr 18 x)) (N.shiftr x 3).
Definition sigma1 (x : N) : N := N.lxor (N.lxor (rotr 17 x) (rotr 19 x)) (N.shiftr x 10).

(** The first 64 primes. *)
Definition primes : list N :=
  [ 2; 3; 5; 7; 11; 13; 17; 19; 23; 29; 31; 37; 41; 43; 47; 53; 59; 61; 67; 71;
    73; 79; 83; 89; 97; 101; 103; 107; 109; 113; 127; 131; 137; 139; 149; 151;
    157; 163; 167; 173; 179; 181; 191; 193; 197; 199; 211; 223; 227; 229; 233;
    239; 241; 251; 257; 263; 269; 271; 277; 281; 283; 293; 307; 311 ].

(** The integer cube root, bit by bit from bit [k - 1] down. *)
Fixpoint cubeRoot (k : nat) (x r : N) : N :=
  match k with
  | O => r
  | S k' =>
      let c := N.lor r (N.shiftl 1 (N.of_nat k')) in
      if c * c * c <=? x then cubeRoot k' x c else cubeRoot k' x r
  end.

(** The round constants: the first 32 bits of the fractional parts of the
    cube roots of the first 64 primes. *)
Definition K256 : list N :=
  map (fun p => w32 (cubeRoot 40 (N.shiftl p 96) 0)) primes.

(** The initial hash value: the first 32 bits of the fractional parts of
    the square roots of the first 8 primes. *)
Definition H256 : list N :=
  map (fun p => w32 (N.sqrt (N.shiftl p 64))) (firstn 8 primes).

(** Big-endian bytes of a number, [k] of them. *)
Fixpoint bigEndian (k : nat) (x : N) : list N :=
  match k with
  | O => []
  | S k' => N.land (N.shiftr x (8 * N.of_nat k')) 255 :: bigEndian k' x
  end.

(** The message, the byte 0x80, zero bytes up to 56 modulo 64, and the
    length in bits on eight bytes. *)
Definition pad (msg : list N) : list N :=
  let len := N.of_nat (List.length msg) in
  let zeros := (64 + 55 - len mod 64) mod 64 in
  msg ++ 0x80 :: repeat 0 (N.to_nat zeros) ++ bigEndian 8 (8 * len).

Fixpoint words (bytes : list N) : list N :=
  match bytes with
  | a :: b :: c :: d :: r =>
      N.lor (N.lor (N.shiftl a 24) (N.shiftl b 16)) (N.lor (N.shiftl c 8) d)
      :: words r
  | _ => []
  end.

(** The message schedule: [w] holds W(0)..W(t-1); [k] more words are added. *)
Fixpoint schedule (k : nat) (w : list N) : list N :=
  match k with
  | O => w
  | S k' =>
      let t := List.length w in
      let at_ i := nth (t - i) w 0 in
      schedule k'
        (w ++ [add32 (add32 (sigma1 (at_ 2%nat)) (at_ 7%nat))
                     (add32 (sigma0 (at_ 15%nat)) (at_ 16%nat))])
  end.

Definition round (st : list N) (kw : N * N) : list N :=
  match st with
  | [a; b; c; d; e; f; g; h] =>
      let t1 := add32 (add32 (add32 h (Sigma1 e)) (add32 (Ch e f g) (fst kw))) (snd kw) in
      let t2 := add32 (Sigma0 a) (Maj a b c) in
      [add32 t1 t2; a; b; c; add32 d t1; e; f; g]
  | _ => st
  end.

Fixpoint add32s (x y : list N) : list N :=
  match x, y with
  | a :: x', b :: y' => add32 a b :: add32s x' y'
  | _, _ => []
  end.

Definition compress (h : list N) (block : list N) : list N :=
  let w := schedule 48 (words block) in
  add32s h (fold_left round (combine K256 w) h).

(** The blocks of 64 bytes, [n] of them. *)
Fixpoint blocks (n : nat) (bytes : list N) : list (list N) :=
  match n with
  | O => []
  | S n' => firstn 64 bytes :: blocks n' (skipn 64 bytes)
  end.

Definition sha256 (msg : list N) : list N :=
  let p := pad msg in
  let h := fold_left compress (blocks (List.length p / 64) p) H256 in
  flat_map (bigEndian 4) h.

(** The bytes in hexadecimal, to compare digests with published ones. *)
Definition hexDigit (d : N) : ascii :=
  match String.get (N.to_nat d) "0123456789abcdef" with
  | Some c => c
  | None => "?"%char
  end.

Fixpoint hex (l : list N) : string :=
  match l with
  | [] => EmptyString
  | b :: r => String (hexDigit (N.shiftr b 4)) (String (hexDigit (N.land b 15)) (hex r))
  end.

End Platform.

(* ================================================================== *)
(** * Data model *)

Module Notes.
Record t := make { lectures : list string; pyqs : list string }.
Definition empty : t := {| lectures := []; pyqs := [] |}.
End Notes.

(** A record of the [notesvault_users] array.  The fields written only by
    some operations are optional. *)
Module User.
Record t := make {
  id : string;
  name : string;
  email : string;
  passwordHash : string;
  salt : string;
  createdAt : string;
  college : string;
  branch : string;
  year : string;
  notes : option Notes.t;
  updatedAt : option string;
  tempPassword : option string;
  mustChangePassword : option bool
}.
End User.

(** The [notesvault_session] object. *)
Module Session.
Record t := make {
  userId : string;
  email : string;
  name : string;
  loginTime : Z;
  remember : bool;
  lastActivity : option Z
}.
End Session.

(** The object [getCurrentUser] returns. *)
Module CurrentUser.
Record t := make {
  id : string;
  name : string;
  email : string;
  college : string;
  branch : string;
  year : string;
  createdAt : string;
  notes : option Notes.t
}.
End CurrentUser.

(** The [user] field of a successful login result. *)
Module LoginUser.
Record t := make {
  id : string;
  name : string;
  email : string;
  college : string;
  branch : string;
  year : string
}.
End LoginUser.

(** The result object of the asynchronous operations: [success] and
    [message], and the optional [user] (login) and [tempPassword]
    (resetPassword). *)
Module Result.
Record t := make {
  success : bool;
  message : string;
  user : option LoginUser.t;
  tempPassword : option string
}.
Definition failure (msg : string) : t :=
  {| success := false; message := msg; user := None; tempPassword := None |}.
Definition ok (msg : string) : t :=
  {| success := true; message := msg; user := None; tempPassword := None |}.
End Result.

(** The argument of [register]. *)
Module UserData.
Record t := make { name : string; email : string; password : string }.
End UserData.

(** The argument of [updateProfile]: a field is [None] when it is
    [undefined] in the object. *)
Module ProfileData.
Record t := make {
  name : option string;
  college : option string;
  branch : option string;
  year : option string
}.
End ProfileData.

(** A key of [localStorage]: no item, the JSON text of a value of the
    expected shape, or a text that makes the reading code throw. *)
Inductive Slot (A : Type) : Type :=
| Absent
| Holds (a : A)
| Unreadable.
Arguments Absent {A}.
Arguments Holds {A} a.
Arguments Unreadable {A}.

(** What the page has shown, in order. *)
Inductive Ui : Type :=
| Alert (text : string)
| SuccessBanner (title : string)
| FormReset
| PreviewCleared.

Record World := mkWorld {
  users : Slot (list User.t);       (* localStorage notesvault_users *)
  session : Slot Session.t;         (* localStorage notesvault_session *)
  pathname : string;                (* window.location.pathname *)
  href : option string;             (* a value assigned to window.location.href *)
  page : list Ui
}.

Definition withUsers (us : Slot (list User.t)) (w : World) : World :=
  {| users := us; session := session w; pathname := pathname w;
     href := href w; page := page w |}.
Definition withSession (s : Slot Session.t) (w : World) : World :=
  {| users := users w; session := s; pathname := pathname w;
     href := href w; page := page w |}.
Definition withHref (h : string) (w : World) : World :=
  {| users := users w; session := session w; pathname := pathname w;
     href := Some h; page := page w |}.
Definition withUi (e : Ui) (w : World) : World :=
  {| users := users w; session := session w; pathname := pathname w;
     href := href w; page := page w ++ [e] |}.

(** The user collection as stored: empty when there is no readable item. *)
Definition collection (w : World) : list User.t :=
  match users w with
  | Holds us => us
  | _ => []
  end.

(** The readings of the platform one operation makes. *)
Record Ambient := mkAmbient {
  dateNow : Z;                 (* Date.now() *)
  dateNowAgain : Z;            (* a second Date.now() in the same operation *)
  toISOString : string;        (* new Date().toISOString() *)
  randomValues : list N;       (* crypto.getRandomValues(new Uint8Array(16)) *)
  mathRandom36 : string;       (* Math.random().toString(36) *)
  objectURL : string           (* URL.createObjectURL(file) *)
}.

(* ================================================================== *)
(** * Computations that may throw *)

Inductive Exception : Type :=
| SyntaxError   (* JSON.parse on an unreadable item *)
| TypeError.    (* a property of null or undefined *)

Inductive Outcome (A : Type) : Type :=
| Returned (a : A)
| Thrown (e : Exception).
Arguments Returned {A} a.
Arguments Thrown {A} e.

Definition Js (A : Type) : Type := World -> Outcome A * World.

Definition ret {A} (a : A) : Js A := fun w => (Returned a, w).
Definition throw {A} (e : Exception) : Js A := fun w => (Thrown e, w).
Definition bind {A B} (m : Js A) (k : A -> Js B) : Js B :=
  fun w => match m w with
           | (Returned a, w') => k a w'
           | (Thrown e, w') => (Thrown e, w')
           end.
Definition tryCatch {A} (m : Js A) (handler : Exception -> Js A) : Js A :=
  fun w => match m w with
           | (Returned a, w') => (Returned a, w')
           | (Thrown e, w') => handler e w'
           end.

Notation "x <- m ;; k" := (bind m (fun x => k))
  (at level 61, m at next level, right associativity).
Notation "m ;;; k" := (bind m (fun _ => k))
  (at level 61, right associativity).

(* ================================================================== *)
(** * Arrays *)

(** [Array.prototype.findIndex]; [None] stands for -1. *)
Fixpoint findIndex {A} (p : A -> bool) (l : list A) : option nat :=
  match l with
  | [] => None
  | x :: r => if p x then Some O
              else match findIndex p r with
                   | Some i => Some (S i)
                   | None => None
                   end
  end.

(** [l[i] = f(l[i])] for an index inside the array. *)
Fixpoint alterAt {A} (i : nat) (f : A -> A) (l : list A) : list A :=
  match l, i with
  | [], _ => []
  | x :: r, O => f x :: r
  | x :: r, S i' => x :: alterAt i' f r
  end.

(** [Array.prototype.find] returns a reference to the element; a field
    assignment through that reference changes the element inside the
    array: the first element that satisfies [p] becomes [f] of it. *)
Fixpoint mutateFound {A} (p : A -> bool) (f : A -> A) (l : list A) : list A :=
  match l with
  | [] => []
  | x :: r => if p x then f x :: r else x :: mutateFound p f r
  end.

(* ================================================================== *)
(** * auth.js: class AuthService *)

Module AuthService.
Import JsString.

(** [this.sessionTimeout]: 24 hours in milliseconds. *)
Definition sessionTimeout : Z := 24 * 60 * 60 * 1000.

(** [btoa(String.fromCharCode(...salt))] of the random bytes. *)
Definition generateSalt (env : Ambient) : string :=
  Platform.btoa (Platform.fromCharCode (randomValues env)).

(** SHA-256 of the UTF-8 bytes of [password + salt], in Base64. *)
Definition hashPassword (password salt : string) : string :=
  Platform.btoa
    (Platform.fromCharCode (Platform.sha256 (Platform.encode (password ++ salt)))).

(** ** validateEmail: the anchored expression with three runs of
    characters that are neither white space nor the at sign, separated by
    an at sign and by a dot. *)

Definition plain (c : ascii) : bool :=
  negb (isWhiteSpace c) && negb (Ascii.eqb c "@").

(** The last run up to the end of the input: one or more plain characters. *)
Fixpoint lastRun (s : string) : bool :=
  match s with
  | EmptyString => false
  | String c EmptyString => plain c
  | String c r => plain c && lastRun r
  end.

(** A run of plain characters, a dot, and the last run. *)
Fixpoint afterAt (s : string) : bool :=
  match s with
  | EmptyString => false
  | String c r =>
      plain c &&
      ((match r with
        | String d r' => Ascii.eqb d "." && lastRun r'
        | EmptyString => false
        end) || afterAt r)
  end.

(** A run of plain characters, the at sign, and the rest. *)
Fixpoint validateEmail (s : string) : bool :=
  match s with
  | EmptyString => false
  | String c r =>
      plain c &&
      ((match r with
        | String d r' => Ascii.eqb d "@" && afterAt r'
        | EmptyString => false
        end) || validateEmail r)
  end.

(** The same pattern said in words: the input is a run, the at sign, a
    run, a dot and a run, where a run is one or more plain characters. *)
Fixpoint allPlain (s : string) : bool :=
  match s with
  | EmptyString => true
  | String c r => plain c && allPlain r
  end.

Definition isRun (s : string) : Prop := s <> EmptyString /\ allPlain s = true.

Definition matchesEmailPattern (s : string) : Prop :=
  exists a b c : string,
    s = a ++ String "@" (b ++ String "." c) /\ isRun a /\ isRun b /\ isRun c.

(** ** validatePassword *)

(** A lookahead [(?=.*[class])] at the start of [s]: the dot does not
    cross a line terminator. *)
Fixpoint lookahead (class : ascii -> bool) (s : string) : bool :=
  match s with
  | EmptyString => false
  | String c r => class c || (negb (isLineTerminator c) && lookahead class r)
  end.

(** The unanchored test of the three lookaheads: at some position of [s]. *)
Fixpoint strengthTest (s : string) : bool :=
  (lookahead isLower s && lookahead isUpper s && lookahead isDigit s)
  || match s with
     | EmptyString => false
     | String _ r => strengthTest r
     end.

(** Characters the dot matches, all of them. *)
Fixpoint sameLine (s : string) : bool :=
  match s with
  | EmptyString => true
  | String c r => negb (isLineTerminator c) && sameLine r
  end.

Record Validation := { isValid : bool; vmessage : string }.

Definition validatePassword (password : string) : Validation :=
  if (String.length password <? 8)%nat then
    {| isValid := false;
       vmessage := "Password must be at least 8 characters long" |}
  else if negb (strengthTest password) then
    {| isValid := false;
       vmessage := "Password must contain at least one uppercase letter, one lowercase letter, and one number" |}
  else {| isValid := true; vmessage := "Password is valid" |}.

Definition sanitizeInput (input : string) : string :=
  stripMarkup (trim input).

(** ** localStorage *)

Definition getUsers : Js (list User.t) :=
  fun w => match users w with
           | Absent => (Returned [], w)
           | Holds us => (Returned us, w)
           | Unreadable => (Thrown SyntaxError, w)
           end.

Definition saveUsers (us : list User.t) : Js unit :=
  fun w => (Returned tt, withUsers (Holds us) w).

Definition getSession : Js (option Session.t) :=
  fun w => match session w with
           | Absent => (Returned None, w)
           | Holds s => (Returned (Some s), w)
           | Unreadable => (Thrown SyntaxError, w)
           end.

Definition setSession (s : Session.t) : Js unit :=
  fun w => (Returned tt, withSession (Holds s) w).

Definition userExists (email : string) : Js bool :=
  us <- getUsers ;;
  ret (existsb (fun user => String.eqb (User.email user) email) us).

(** ** logout *)

Definition logout : Js unit :=
  fun w =>
    let w1 := withSession Absent w in
    if negb (String.eqb (pathname w1) "/index.html")
       && negb (endsWith (pathname w1) "/")
    then (Returned tt, withHref "../index.html" w1)
    else (Returned tt, w1).

(** ** register

    The six operations declared [async] are modelled as one computation
    each: a call that runs from its first line to its return with no other
    call of the component in between, as when the caller awaits it before
    it starts the next.  [register] awaits the salt and the hash between
    its check of [userExists] and the reading of the collection it appends
    to; what two calls in flight do is in [Await] below. *)

Definition newUser (env : Ambient) (sanitizedName sanitizedEmail password : string)
  : User.t :=
  let salt := generateSalt env in
  {| User.id := ofInteger (dateNow env);
     User.name := sanitizedName;
     User.email := sanitizedEmail;
     User.passwordHash := hashPassword password salt;
     User.salt := salt;
     User.createdAt := toISOString env;
     User.college := "";
     User.branch := "";
     User.year := "";
     User.notes := Some Notes.empty;
     User.updatedAt := None;
     User.tempPassword := None;
     User.mustChangePassword := None |}.

Definition registerBody (env : Ambient) (userData : UserData.t) : Js Result.t :=
  let name := UserData.name userData in
  let email := UserData.email userData in
  let password := UserData.password userData in
  if negb (truthy name) || negb (truthy email) || negb (truthy password) then
    ret (Result.failure "All fields are required")
  else
    let sanitizedName := sanitizeInput name in
    let sanitizedEmail := toLowerCase (sanitizeInput email) in
    if negb (validateEmail sanitizedEmail) then
      ret (Result.failure "Please enter a valid email address")
    else
      let passwordValidation := validatePassword password in
      if negb (isValid passwordValidation) then
        ret (Result.failure (vmessage passwordValidation))
      else
        exists_ <- userExists sanitizedEmail ;;
        if exists_ then
          ret (Result.failure "An account with this email already exists")
        else
          us <- getUsers ;;
          saveUsers (us ++ [newUser env sanitizedName sanitizedEmail password]) ;;;
          ret (Result.ok "Account created successfully!").

Definition register (env : Ambient) (userData : UserData.t) : Js Result.t :=
  tryCatch (registerBody env userData)
    (fun _ => ret (Result.failure "Registration failed. Please try again.")).

(** ** login *)

Definition loginUser (user : User.t) : LoginUser.t :=
  {| LoginUser.id := User.id user;
     LoginUser.name := User.name user;
     LoginUser.email := User.email user;
     LoginUser.college := User.college user;
     LoginUser.branch := User.branch user;
     LoginUser.year := User.year user |}.

Definition newSession (env : Ambient) (user : User.t) (remember : bool) : Session.t :=
  {| Session.userId := User.id user;
     Session.email := User.email user;
     Session.name := User.name user;
     Session.loginTime := dateNow env;
     Session.remember := remember;
     Session.lastActivity := None |}.

Definition loginBody (env : Ambient) (email password : string) (remember : bool)
  : Js Result.t :=
  if negb (truthy email) || negb (truthy password) then
    ret (Result.failure "Email and password are required")
  else
    let sanitizedEmail := toLowerCase (sanitizeInput email) in
    us <- getUsers ;;
    match find (fun u => String.eqb (User.email u) sanitizedEmail) us with
    | None => ret (Result.failure "Invalid email or password")
    | Some user =>
        let hashedPassword := hashPassword password (User.salt user) in
        if negb (String.eqb hashedPassword (User.passwordHash user)) then
          ret (Result.failure "Invalid email or password")
        else
          setSession (newSession env user remember) ;;;
          ret {| Result.success := true;
                 Result.message := "Login successful!";
                 Result.user := Some (loginUser user);
                 Result.tempPassword := None |}
    end.

Definition login (env : Ambient) (email password : string) (remember : bool)
  : Js Result.t :=
  tryCatch (loginBody env email password remember)
    (fun _ => ret (Result.failure "Login failed. Please try again.")).

(** ** getCurrentUser, isLoggedIn, validateSession *)

Definition currentUser (user : User.t) : CurrentUser.t :=
  {| CurrentUser.id := User.id user;
     CurrentUser.name := User.name user;
     CurrentUser.email := User.email user;
     CurrentUser.college := User.college user;
     CurrentUser.branch := User.branch user;
     CurrentUser.year := User.year user;
     CurrentUser.createdAt := User.createdAt user;
     CurrentUser.notes := User.notes user |}.

Definition getCurrentUser : Js (option CurrentUser.t) :=
  s <- getSession ;;
  match s with
  | None => ret None
  | Some session =>
      us <- getUsers ;;
      match find (fun u => String.eqb (User.id u) (Session.userId session)) us with
      | None => logout ;;; ret None
      | Some user => ret (Some (currentUser user))
      end
  end.

Definition isLoggedIn : Js bool :=
  u <- getCurrentUser ;;
  ret (match u with Some _ => true | None => false end).

Definition touch (now : Z) (s : Session.t) : Session.t :=
  {| Session.userId := Session.userId s;
     Session.email := Session.email s;
     Session.name := Session.name s;
     Session.loginTime := Session.loginTime s;
     Session.remember := Session.remember s;
     Session.lastActivity := Some now |}.

Definition validateSession (env : Ambient) : Js unit :=
  s <- getSession ;;
  match s with
  | None => ret tt
  | Some session =>
      let refresh := setSession (touch (dateNowAgain env) session) in
      if negb (Session.remember session) then
        let now := dateNow env in
        let sessionAge := (now - Session.loginTime session)%Z in
        if (sessionAge >? sessionTimeout)%Z then logout else refresh
      else refresh
  end.

(** The constructor: [init] validates the stored session. *)
Definition init (env : Ambient) : Js unit := validateSession env.

(** ** updateProfile *)

Definition setName (v : string) (u : User.t) : User.t :=
  {| User.id := User.id u; User.name := v; User.email := User.email u;
     User.passwordHash := User.passwordHash u; User.salt := User.salt u;
     User.createdAt := User.createdAt u; User.college := User.college u;
     User.branch := User.branch u; User.year := User.year u;
     User.notes := User.notes u; User.updatedAt := User.updatedAt u;
     User.tempPassword := User.tempPassword u;
     User.mustChangePassword := User.mustChangePassword u |}.
Definition setCollege (v : string) (u : User.t) : User.t :=
  {| User.id := User.id u; User.name := User.name u; User.email := User.email u;
     User.passwordHash := User.passwordHash u; User.salt := User.salt u;
     User.createdAt := User.createdAt u; User.college := v;
     User.branch := User.branch u; User.year := User.year u;
     User.notes := User.notes u; User.updatedAt := User.updatedAt u;
     User.tempPassword := User.tempPassword u;
     User.mustChangePassword := User.mustChangePassword u |}.
Definition setBranch (v : string) (u : User.t) : User.t :=
  {| User.id := User.id u; User.name := User.name u; User.email := User.email u;
     User.passwordHash := User.passwordHash u; User.salt := User.salt u;
     User.createdAt := User.createdAt u; User.college := User.college u;
     User.branch := v; User.year := User.year u;
     User.notes := User.notes u; User.updatedAt := User.updatedAt u;
     User.tempPassword := User.tempPassword u;
     User.mustChangePassword := User.mustChangePassword u |}.
Definition setYear (v : string) (u : User.t) : User.t :=
  {| User.id := User.id u; User.name := User.name u; User.email := User.email u;
     User.passwordHash := User.passwordHash u; User.salt := User.salt u;
     User.createdAt := User.createdAt u; User.college := User.college u;
     User.branch := User.branch u; User.year := v;
     User.notes := User.notes u; User.updatedAt := User.updatedAt u;
     User.tempPassword := User.tempPassword u;
     User.mustChangePassword := User.mustChangePassword u |}.
Definition setUpdatedAt (v : string) (u : User.t) : User.t :=
  {| User.id := User.id u; User.name := User.name u; User.email := User.email u;
     User.passwordHash := User.passwordHash u; User.salt := User.salt u;
     User.createdAt := User.createdAt u; User.college := User.college u;
     User.branch := User.branch u; User.year := User.year u;
     User.notes := User.notes u; User.updatedAt := Some v;
     User.tempPassword := User.tempPassword u;
     User.mustChangePassword := User.mustChangePassword u |}.
Definition setPassword (hash salt : string) (u : User.t) : User.t :=
  {| User.id := User.id u; User.name := User.name u; User.email := User.email u;
     User.passwordHash := hash; User.salt := salt;
     User.createdAt := User.createdAt u; User.college := User.college u;
     User.branch := User.branch u; User.year := User.year u;
     User.notes := User.notes u; User.updatedAt := User.updatedAt u;
     User.tempPassword := User.tempPassword u;
     User.mustChangePassword := User.mustChangePassword u |}.
Definition setTemporary (temp : string) (u : User.t) : User.t :=
  {| User.id := User.id u; User.name := User.name u; User.email := User.email u;
     User.passwordHash := User.passwordHash u; User.salt := User.salt u;
     User.createdAt := User.createdAt u; User.college := User.college u;
     User.branch := User.branch u; User.year := User.year u;
     User.notes := User.notes u; User.updatedAt := User.updatedAt u;
     User.tempPassword := Some temp;
     User.mustChangePassword := Some true |}.
Definition setNotes (n : Notes.t) (u : User.t) : User.t :=
  {| User.id := User.id u; User.name := User.name u; User.email := User.email u;
     User.passwordHash := User.passwordHash u; User.salt := User.salt u;
     User.createdAt := User.createdAt u; User.college := User.college u;
     User.branch := User.branch u; User.year := User.year u;
     User.notes := Some n; User.updatedAt := User.updatedAt u;
     User.tempPassword := User.tempPassword u;
     User.mustChangePassword := User.mustChangePassword u |}.

(** One step of the loop over the allowed fields. *)
Definition assignField (value : option string) (set : string -> User.t -> User.t)
  (u : User.t) : User.t :=
  match value with
  | Some v => set (sanitizeInput v) u
  | None => u
  end.

(** The loop over [name], [college], [branch], [year], then [updatedAt]. *)
Definition applyProfile (env : Ambient) (profileData : ProfileData.t) (u : User.t)
  : User.t :=
  setUpdatedAt (toISOString env)
    (assignField (ProfileData.year profileData) setYear
       (assignField (ProfileData.branch profileData) setBranch
          (assignField (ProfileData.college profileData) setCollege
             (assignField (ProfileData.name profileData) setName u)))).

Definition updateProfileBody (env : Ambient) (profileData : ProfileData.t)
  : Js Result.t :=
  cu <- getCurrentUser ;;
  match cu with
  | None => ret (Result.failure "Not logged in")
  | Some currentUser =>
      us <- getUsers ;;
      match findIndex (fun u => String.eqb (User.id u) (CurrentUser.id currentUser)) us with
      | None => ret (Result.failure "User not found")
      | Some userIndex =>
          saveUsers (alterAt userIndex (applyProfile env profileData) us) ;;;
          ret (Result.ok "Profile updated successfully!")
      end
  end.

Definition updateProfile (env : Ambient) (profileData : ProfileData.t)
  : Js Result.t :=
  tryCatch (updateProfileBody env profileData)
    (fun _ => ret (Result.failure "Failed to update profile")).

(** ** changePassword

    As for [register]: the call is run with no other call between its
    reading of the collection and its write, which in the source are
    separated by the awaits of the two hashes. *)

Definition changePasswordBody (env : Ambient) (currentPassword newPassword : string)
  : Js Result.t :=
  cu <- getCurrentUser ;;
  match cu with
  | None => ret (Result.failure "Not logged in")
  | Some currentUser =>
      us <- getUsers ;;
      let mine := fun u => String.eqb (User.id u) (CurrentUser.id currentUser) in
      match find mine us with
      | None => ret (Result.failure "User not found")
      | Some user =>
          let hashedCurrentPassword := hashPassword currentPassword (User.salt user) in
          if negb (String.eqb hashedCurrentPassword (User.passwordHash user)) then
            ret (Result.failure "Current password is incorrect")
          else
            let passwordValidation := validatePassword newPassword in
            if negb (isValid passwordValidation) then
              ret (Result.failure (vmessage passwordValidation))
            else
              let newSalt := generateSalt env in
              let newHashedPassword := hashPassword newPassword newSalt in
              saveUsers
                (mutateFound mine
                   (fun u => setUpdatedAt (toISOString env)
                               (setPassword newHashedPassword newSalt u)) us) ;;;
              ret (Result.ok "Password changed successfully!")
      end
  end.

Definition changePassword (env : Ambient) (currentPassword newPassword : string)
  : Js Result.t :=
  tryCatch (changePasswordBody env currentPassword newPassword)
    (fun _ => ret (Result.failure "Failed to change password")).

(** ** deleteAccount *)

Definition deleteAccountBody (password : string) : Js Result.t :=
  cu <- getCurrentUser ;;
  match cu with
  | None => ret (Result.failure "Not logged in")
  | Some currentUser =>
      us <- getUsers ;;
      match find (fun u => String.eqb (User.id u) (CurrentUser.id currentUser)) us with
      | None => ret (Result.failure "User not found")
      | Some user =>
          let hashedPassword := hashPassword password (User.salt user) in
          if negb (String.eqb hashedPassword (User.passwordHash user)) then
            ret (Result.failure "Password is incorrect")
          else
            let updatedUsers :=
              filter (fun u => negb (String.eqb (User.id u) (CurrentUser.id currentUser))) us in
            saveUsers updatedUsers ;;;
            logout ;;;
            ret (Result.ok "Account deleted successfully")
      end
  end.

Definition deleteAccount (password : string) : Js Result.t :=
  tryCatch (deleteAccountBody password)
    (fun _ => ret (Result.failure "Failed to delete account")).

(** ** resetPassword *)

Definition resetPasswordBody (env : Ambient) (email : string) : Js Result.t :=
  let sanitizedEmail := toLowerCase (sanitizeInput email) in
  if negb (validateEmail sanitizedEmail) then
    ret (Result.failure "Please enter a valid email address")
  else
    us <- getUsers ;;
    match find (fun u => String.eqb (User.email u) sanitizedEmail) us with
    | None =>
        ret (Result.ok "If an account with this email exists, a reset link has been sent.")
    | Some user =>
        let tempPassword := sliceLast 8 (mathRandom36 env) in
        let newSalt := generateSalt env in
        let newHashedPassword := hashPassword tempPassword newSalt in
        match findIndex (fun u => String.eqb (User.id u) (User.id user)) us with
        | None => throw TypeError
        | Some userIndex =>
            saveUsers
              (alterAt userIndex
                 (fun u => setUpdatedAt (toISOString env)
                             (setTemporary tempPassword
                                (setPassword newHashedPassword newSalt u))) us) ;;;
            ret {| Result.success := true;
                   Result.message :=
                     "Password reset successful! Your temporary password is: "
                     ++ tempPassword
                     ++ ". Please login and change your password immediately.";
                   Result.user := None;
                   Result.tempPassword := Some tempPassword |}
        end
    end.

Definition resetPassword (env : Ambient) (email : string) : Js Result.t :=
  tryCatch (resetPasswordBody env email)
    (fun _ => ret (Result.failure "Password reset failed. Please try again.")).

End AuthService.

(* ================================================================== *)
(** * upload.js: the submit handler *)

Module Upload.
Import JsString.

Record File := { fileName : string; fileSize : Z }.

(** What [FormData.get] yields for the five fields.  A text field the form
    does not have yields null, which the handler treats like the empty
    string, so it is the empty string here. *)
Record Form := {
  file : option File;
  title : string;
  subject : string;
  semester : string;
  noteType : string
}.

Record NoteData := {
  id : string;
  noteTitle : string;
  noteSubject : string;
  noteSemester : string;
  type : string;
  noteFileName : string;
  noteFileSize : Z;
  uploadedBy : string;
  uploaderName : string;
  uploadedAt : string;
  url : string
}.

Definition alert (text : string) : Js unit :=
  fun w => (Returned tt, withUi (Alert text) w).

Definition showUploadSuccess (noteData : NoteData) : Js unit :=
  fun w => (Returned tt, withUi (SuccessBanner (noteTitle noteData)) w).

Definition resetForm : Js unit :=
  fun w => (Returned tt, withUi PreviewCleared (withUi FormReset w)).

(** The notes object of a record, created empty when the record has none. *)
Definition notesOf (u : User.t) : Notes.t :=
  match User.notes u with
  | Some n => n
  | None => Notes.empty
  end.

Definition lecturesOf (u : User.t) : list string := Notes.lectures (notesOf u).
Definition pyqsOf (u : User.t) : list string := Notes.pyqs (notesOf u).

(** The two branches on [noteType]; any other type leaves both lists. *)
Definition pushNote (noteType title : string) (n : Notes.t) : Notes.t :=
  if String.eqb noteType "lecture" then
    {| Notes.lectures := Notes.lectures n ++ [title]; Notes.pyqs := Notes.pyqs n |}
  else if String.eqb noteType "pyq" then
    {| Notes.lectures := Notes.lectures n; Notes.pyqs := Notes.pyqs n ++ [title] |}
  else n.

Definition addNoteToUser (noteData : NoteData) (noteType : string) : Js unit :=
  cu <- AuthService.getCurrentUser ;;
  us <- AuthService.getUsers ;;
  match cu with
  | None =>
      (* the callback of findIndex reads [currentUser.id] at the first element *)
      match us with
      | [] => ret tt
      | _ :: _ => throw TypeError
      end
  | Some currentUser =>
      match findIndex (fun u => String.eqb (User.id u) (CurrentUser.id currentUser)) us with
      | None => ret tt
      | Some userIndex =>
          AuthService.saveUsers
            (alterAt userIndex
               (fun u => AuthService.setNotes
                           (pushNote noteType (noteTitle noteData) (notesOf u)) u)
               us)
      end
  end.

Definition makeNote (env : Ambient) (currentUser : CurrentUser.t) (f : File)
  (form : Form) : NoteData :=
  {| id := ofInteger (dateNow env);
     noteTitle := title form;
     noteSubject := subject form;
     noteSemester := semester form;
     type := noteType form;
     noteFileName := fileName f;
     noteFileSize := fileSize f;
     uploadedBy := CurrentUser.id currentUser;
     uploaderName := CurrentUser.name currentUser;
     uploadedAt := toISOString env;
     url := objectURL env |}.

Definition handleUpload (env : Ambient) (form : Form) : Js unit :=
  cu <- AuthService.getCurrentUser ;;
  match cu with
  | None => alert "Please login to upload notes"
  | Some currentUser =>
      match file form with
      | None => alert "Please fill in all required fields and select a file"
      | Some f =>
          if negb (truthy (title form)) || negb (truthy (subject form))
             || negb (truthy (semester form)) || negb (truthy (noteType form))
          then alert "Please fill in all required fields and select a file"
          else
            tryCatch
              (let noteData := makeNote env currentUser f form in
               addNoteToUser noteData (noteType form) ;;;
               showUploadSuccess noteData ;;;
               resetForm)
              (fun _ => alert "Upload failed. Please try again.")
      end
  end.

End Upload.

(* ================================================================== *)
(** * The operations of the Auth component, as one type of calls *)

Module Call.

(** What a call hands back to its caller. *)
Inductive Value : Type :=
| VResult (r : Result.t)
| VUser (u : option CurrentUser.t)
| VBool (b : bool)
| VUndefined.

Inductive t : Type :=
| Register (env : Ambient) (userData : UserData.t)
| Login (env : Ambient) (email password : string) (remember : bool)
| GetCurrentUser
| IsLoggedIn
| UpdateProfile (env : Ambient) (profileData : ProfileData.t)
| ChangePassword (env : Ambient) (currentPassword newPassword : string)
| DeleteAccount (password : string)
| ResetPassword (env : Ambient) (email : string)
| Logout.

(** A call run to its end before any other call starts. *)
Definition run (c : t) : Js Value :=
  match c with
  | Register env d => r <- AuthService.register env d ;; ret (VResult r)
  | Login env e p m => r <- AuthService.login env e p m ;; ret (VResult r)
  | GetCurrentUser => u <- AuthService.getCurrentUser ;; ret (VUser u)
  | IsLoggedIn => b <- AuthService.isLoggedIn ;; ret (VBool b)
  | UpdateProfile env d => r <- AuthService.updateProfile env d ;; ret (VResult r)
  | ChangePassword env c n => r <- AuthService.changePassword env c n ;; ret (VResult r)
  | DeleteAccount p => r <- AuthService.deleteAccount p ;; ret (VResult r)
  | ResetPassword env e => r <- AuthService.resetPassword env e ;; ret (VResult r)
  | Logout => AuthService.logout ;;; ret VUndefined
  end.

(** The same calls with the [try]/[catch] of the six asynchronous
    operations taken away: what runs inside the [try]. *)
Definition body (c : t) : Js Value :=
  match c with
  | Register env d => r <- AuthService.registerBody env d ;; ret (VResult r)
  | Login env e p m => r <- AuthService.loginBody env e p m ;; ret (VResult r)
  | UpdateProfile env d => r <- AuthService.updateProfileBody env d ;; ret (VResult r)
  | ChangePassword env c n => r <- AuthService.changePasswordBody env c n ;; ret (VResult r)
  | DeleteAccount p => r <- AuthService.deleteAccountBody p ;; ret (VResult r)
  | ResetPassword env e => r <- AuthService.resetPasswordBody env e ;; ret (VResult r)
  | GetCurrentUser | IsLoggedIn | Logout => run c
  end.

(** The message of the [catch] block of each asynchronous operation. *)
Definition genericMessage (c : t) : string :=
  match c with
  | Register _ _ => "Registration failed. Please try again."
  | Login _ _ _ _ => "Login failed. Please try again."
  | UpdateProfile _ _ => "Failed to update profile"
  | ChangePassword _ _ _ => "Failed to change password"
  | DeleteAccount _ => "Failed to delete account"
  | ResetPassword _ _ => "Password reset failed. Please try again."
  | GetCurrentUser | IsLoggedIn | Logout => ""
  end.

(** The six operations declared [async] with a [try]/[catch] around the
    whole body. *)
Definition guarded (c : t) : bool :=
  match c with
  | Register _ _ | Login _ _ _ _ | UpdateProfile _ _
  | ChangePassword _ _ _ | DeleteAccount _ | ResetPassword _ _ => true
  | GetCurrentUser | IsLoggedIn | Logout => false
  end.

End Call.

(* ================================================================== *)
(** * The invariant of the user collection *)

Definition emails (w : World) : list string := map User.email (collection w).

Definition lowercased (e : string) : Prop := JsString.toLowerCase e = e.

(** The stored emails are pairwise distinct and in lower case. *)
Definition uniqueEmails (w : World) : Prop :=
  NoDup (emails w) /\ Forall lowercased (emails w).

(* ================================================================== *)
(** * Sample worlds *)

Module Sample.

Definition env0 : Ambient :=
  {| dateNow := 1730000000000;
     dateNowAgain := 1730000000001;
     toISOString := "2024-10-27T03:33:20.000Z";
     randomValues := [1; 2; 3; 4; 5; 6; 7; 8; 9; 10; 11; 12; 13; 14; 15; 16]%N;
     mathRandom36 := "0.4fzyo82mvyr";
     objectURL := "blob:null/0a1b" |}.

(** A later moment with other random bytes. *)
Definition env1 : Ambient :=
  {| dateNow := 1730000005000;
     dateNowAgain := 1730000005001;
     toISOString := "2024-10-27T03:33:25.000Z";
     randomValues := [16; 15; 14; 13; 12; 11; 10; 9; 8; 7; 6; 5; 4; 3; 2; 1]%N;
     mathRandom36 := "0.k3j9x0a7bq";
     objectURL := "blob:null/0a1c" |}.

(** Two days after [env0]. *)
Definition env2 : Ambient :=
  {| dateNow := 1730172800000;
     dateNowAgain := 1730172800001;
     toISOString := "2024-10-29T03:33:20.000Z";
     randomValues := [9; 9; 9; 9; 9; 9; 9; 9; 9; 9; 9; 9; 9; 9; 9; 9]%N;
     mathRandom36 := "0.zzzzzzzzzz";
     objectURL := "blob:null/0a1d" |}.

Definition fresh : World :=
  {| users := Absent; session := Absent; pathname := "/pages/login.html";
     href := None; page := [] |}.

Definition after {A} (m : Js A) (w : World) : World := snd (m w).

Definition alice : UserData.t :=
  {| UserData.name := "Alice"; UserData.email := " Alice@Example.com ";
     UserData.password := "Passw0rdA" |}.
Definition bob : UserData.t :=
  {| UserData.name := "Bob"; UserData.email := "bob@example.com";
     UserData.password := "Secret99x" |}.

(** Alice and Bob register at different moments; then Alice logs in. *)
Definition registered : World :=
  after (AuthService.register env1 bob) (after (AuthService.register env0 alice) fresh).
Definition loggedIn : World :=
  after (AuthService.login env1 "alice@example.com" "Passw0rdA" false) registered.

Definition blank : User.t :=
  {| User.id := ""; User.name := ""; User.email := ""; User.passwordHash := "";
     User.salt := ""; User.createdAt := ""; User.college := ""; User.branch := "";
     User.year := ""; User.notes := None; User.updatedAt := None;
     User.tempPassword := None; User.mustChangePassword := None |}.

Definition aliceRecord : User.t := nth 0 (collection registered) blank.
Definition bobRecord : User.t := nth 1 (collection registered) blank.

(** The same millisecond as [env0], other random bytes. *)
Definition env0b : Ambient :=
  {| dateNow := dateNow env0;
     dateNowAgain := dateNowAgain env0;
     toISOString := toISOString env0;
     randomValues := [200; 17; 3; 99; 250; 0; 41; 7; 128; 64; 32; 16; 8; 4; 2; 1]%N;
     mathRandom36 := "0.9d8c7b6a5";
     objectURL := "blob:null/0a1e" |}.

(** Alice and Bob register within one millisecond; then Alice logs in. *)
Definition twins : World :=
  after (AuthService.login env1 "alice@example.com" "Passw0rdA" false)
    (after (AuthService.register env0b bob) (after (AuthService.register env0 alice) fresh)).

(** Alice logged in with [remember] set. *)
Definition remembered : World :=
  after (AuthService.login env1 "alice@example.com" "Passw0rdA" true) registered.

(** Alice is logged in and her record is gone from the collection. *)
Definition dangling : World :=
  withUsers (Holds [bobRecord]) loggedIn.

Definition lectureForm : Upload.Form :=
  {| Upload.file := Some {| Upload.fileName := "week1.pdf"; Upload.fileSize := 52310 |};
     Upload.title := "Graphs, week 1"; Upload.subject := "Algorithms";
     Upload.semester := "3"; Upload.noteType := "lecture" |}.
Definition pyqForm : Upload.Form :=
  {| Upload.file := Some {| Upload.fileName := "2023.pdf"; Upload.fileSize := 9100 |};
     Upload.title := "Endsem 2023"; Upload.subject := "Algorithms";
     Upload.semester := "3"; Upload.noteType := "pyq" |}.
Definition assignmentForm : Upload.Form :=
  {| Upload.file := Some {| Upload.fileName := "a1.pdf"; Upload.fileSize := 700 |};
     Upload.title := "Assignment 1"; Upload.subject := "Algorithms";
     Upload.semester := "3"; Upload.noteType := "assignment" |}.

Definition carol : UserData.t :=
  {| UserData.name := "Carol"; UserData.email := "carol@example.com";
     UserData.password := "Tr1angle!" |}.

(** The users item was overwritten with text that is not JSON. *)
Definition corrupted : World := withUsers Unreadable loggedIn.

End Sample.

(* ================================================================== *)
(** * Vocabulary for statements about strings *)

Module Text.

(** Some code unit of [s] is in the class. *)
Fixpoint hasSome (class : ascii -> bool) (s : string) : bool :=
  match s with
  | EmptyString => false
  | String c r => class c || hasSome class r
  end.

(** How many code units of [s] are [c]. *)
Fixpoint occurrences (c : ascii) (s : string) : nat :=
  match s with
  | EmptyString => O
  | String d r => (if Ascii.eqb d c then 1 else 0) + occurrences c r
  end.

End Text.

(** The requests [register] accepts on the collection [us]. *)
Definition acceptable (us : list User.t) (d : UserData.t) : bool :=
  JsString.truthy (UserData.name d) && JsString.truthy (UserData.email d) && JsString.truthy (UserData.password d)
  && AuthService.validateEmail
       (JsString.toLowerCase (AuthService.sanitizeInput (UserData.email d)))
  && AuthService.isValid (AuthService.validatePassword (UserData.password d))
  && negb (existsb (fun user => String.eqb (User.email user)
                      (JsString.toLowerCase (AuthService.sanitizeInput (UserData.email d)))) us).

(** The records of [us'] are those of [us], in place, with the fields that
    no update of a record touches: the id, the email, the creation time
    and the notes. *)
Definition sameRecords (us us' : list User.t) : Prop :=
  map User.id us' = map User.id us
  /\ map User.email us' = map User.email us
  /\ map User.createdAt us' = map User.createdAt us
  /\ map User.notes us' = map User.notes us.

(** A stored email is well formed and is what the normalisation of
    [login] makes of it. *)
Definition addressable (e : string) : Prop :=
  AuthService.validateEmail e = true
  /\ JsString.toLowerCase (AuthService.sanitizeInput e) = e.

(** A sequence of calls, each run to its end before the next starts. *)
Fixpoint runAll (calls : list Call.t) (w : World) : World :=
  match calls with
  | [] => w
  | c :: rest => runAll rest (snd (Call.run c w))
  end.

(** A submission that passes the check of the required fields. *)
Definition complete (form : Upload.Form) : bool :=
  match Upload.file form with
  | Some _ =>
      JsString.truthy (Upload.title form) && JsString.truthy (Upload.subject form)
      && JsString.truthy (Upload.semester form) && JsString.truthy (Upload.noteType form)
  | None => false
  end.

(** Submissions handled one after the other. *)
Fixpoint uploadAll (env : Ambient) (forms : list Upload.Form) (w : World) : World :=
  match forms with
  | [] => w
  | form :: rest => uploadAll env rest (snd (Upload.handleUpload env form w))
  end.

(** The titles of the submissions of one note type, in order. *)
Definition titlesOf (noteType : string) (forms : list Upload.Form) : list string :=
  map Upload.title (filter (fun form => String.eqb (Upload.noteType form) noteType) forms).

(** Every field of a record but the notes. *)
Definition withoutNotes (u : User.t) :=
  (User.id u, User.name u, User.email u, User.passwordHash u, User.salt u,
   User.createdAt u, User.college u, User.branch u, User.year u,
   User.updatedAt u, User.tempPassword u, User.mustChangePassword u).

(* ================================================================== *)
(** * The awaits inside register

    [AuthService.register] above is a call that runs from its first line
    to its return with no other call in between, as when the caller awaits
    it before starting the next.  The function awaits [generateSalt] and
    [hashPassword] between its check of [userExists] and its second
    reading of the collection; here the two parts are separate
    computations, so that two calls in flight can be put in the order in
    which the event loop runs them. *)

Module Await.

(** What a call holds while it awaits. *)
Record Pending := {
  sanitizedName : string;
  sanitizedEmail : string;
  password : string
}.

(** From the call to the first await: the checks, the last being
    [userExists].  [inl] is a result returned before any await. *)
Definition registerUntilAwait (userData : UserData.t) : Js (Result.t + Pending) :=
  tryCatch
    (let name := UserData.name userData in
     let email := UserData.email userData in
     let password := UserData.password userData in
     if negb (JsString.truthy name) || negb (JsString.truthy email)
        || negb (JsString.truthy password) then
       ret (inl (Result.failure "All fields are required"))
     else
       let sanitizedName := AuthService.sanitizeInput name in
       let sanitizedEmail := JsString.toLowerCase (AuthService.sanitizeInput email) in
       if negb (AuthService.validateEmail sanitizedEmail) then
         ret (inl (Result.failure "Please enter a valid email address"))
       else
         let passwordValidation := AuthService.validatePassword password in
         if negb (AuthService.isValid passwordValidation) then
           ret (inl (Result.failure (AuthService.vmessage passwordValidation)))
         else
           exists_ <- AuthService.userExists sanitizedEmail ;;
           if exists_ then
             ret (inl (Result.failure "An account with this email already exists"))
           else
             ret (inr {| sanitizedName := sanitizedName;
                         sanitizedEmail := sanitizedEmail;
                         password := password |}))
    (fun _ => ret (inl (Result.failure "Registration failed. Please try again."))).

(** From the end of the awaits to the return: the record is made, the
    collection is read again, the record is pushed and the collection
    saved. *)
Definition registerAfterAwait (env : Ambient) (p : Pending) : Js Result.t :=
  tryCatch
    (us <- AuthService.getUsers ;;
     AuthService.saveUsers
       (us ++ [AuthService.newUser env (sanitizedName p) (sanitizedEmail p) (password p)]) ;;;
     ret (Result.ok "Account created successfully!"))
    (fun _ => ret (Result.failure "Registration failed. Please try again.")).

Definition resume (env : Ambient) (held : Result.t + Pending) : Js Result.t :=
  match held with
  | inl result => ret result
  | inr p => registerAfterAwait env p
  end.

(** One call with nothing in between its two parts. *)
Definition registerAlone (env : Ambient) (userData : UserData.t) : Js Result.t :=
  held <- registerUntilAwait userData ;;
  resume env held.

(** Two calls started one right after the other and not awaited in
    between: each runs to its first await, then each resumes. *)
Definition registerTogether (env1 : Ambient) (first : UserData.t)
  (env2 : Ambient) (second : UserData.t) : Js (Result.t * Result.t) :=
  held1 <- registerUntilAwait first ;;
  held2 <- registerUntilAwait second ;;
  result1 <- resume env1 held1 ;;
  result2 <- resume env2 held2 ;;
  ret (result1, result2).

End Await.

(* ================================================================== *)
(** * auth.js: route protection *)

Module Routes.

(** [s.startsWith(p)] and [s.includes(p)]. *)
Fixpoint startsWith (s p : string) : bool :=
  match p, s with
  | EmptyString, _ => true
  | String _ _, EmptyString => false
  | String a p', String b s' => Ascii.eqb a b && startsWith s' p'
  end.

Fixpoint includes (s p : string) : bool :=
  startsWith s p
  || match s with
     | EmptyString => false
     | String _ r => includes r p
     end.

(** The tab: the world of the page, the address it shows
    ([window.location.href] when read) and the item [redirectAfterLogin]
    of [sessionStorage]. *)
Record Browser := mkBrowser {
  tab : World;
  address : string;
  redirectAfterLogin : option string
}.

Definition loginPath (w : World) : string :=
  if includes (pathname w) "/pages/" then "login.html" else "pages/login.html".

Definition homePath (w : World) : string :=
  if includes (pathname w) "/pages/" then "../index.html" else "index.html".

(** [window.requireAuth] *)
Definition requireAuth (b : Browser) : Outcome bool * Browser :=
  match AuthService.isLoggedIn (tab b) with
  | (Thrown e, w) =>
      (Thrown e, {| tab := w; address := address b;
                    redirectAfterLogin := redirectAfterLogin b |})
  | (Returned false, w) =>
      (Returned false,
       {| tab := withHref (loginPath w) w; address := address b;
          redirectAfterLogin := Some (address b) |})
  | (Returned true, w) =>
      (Returned true, {| tab := w; address := address b;
                         redirectAfterLogin := redirectAfterLogin b |})
  end.

(** [getItem(...) || fallback]: null and the empty string give the
    fallback. *)
Definition orElse (item : option string) (fallback : string) : string :=
  match item with
  | Some s => if JsString.truthy s then s else fallback
  | None => fallback
  end.

(** [window.redirectIfLoggedIn] *)
Definition redirectIfLoggedIn (b : Browser) : Outcome bool * Browser :=
  match AuthService.isLoggedIn (tab b) with
  | (Thrown e, w) =>
      (Thrown e, {| tab := w; address := address b;
                    redirectAfterLogin := redirectAfterLogin b |})
  | (Returned true, w) =>
      let redirectUrl := orElse (redirectAfterLogin b) (homePath w) in
      (Returned true,
       {| tab := withHref redirectUrl w; address := address b;
          redirectAfterLogin := None |})
  | (Returned false, w) =>
      (Returned false, {| tab := w; address := address b;
                          redirectAfterLogin := redirectAfterLogin b |})
  end.

End Routes.

(* ================================================================== *)
(** * studentAccount.js: the handlers of the account page *)

Module AccountPage.

(** The second argument of [showMessage]. *)
Inductive Kind : Type := success | error.

(** The page: the world, the text and kind in the message box, whether the
    change-password form is displayed, and whether the reload after a
    profile update is scheduled. *)
Record Page := mkPage {
  store : World;
  messageBox : option (string * Kind);
  passwordFormOpen : bool;
  reloadPending : bool
}.

Definition withStore (w : World) (p : Page) : Page :=
  {| store := w; messageBox := messageBox p;
     passwordFormOpen := passwordFormOpen p; reloadPending := reloadPending p |}.

Definition showMessage (message : string) (kind : Kind) (p : Page) : Page :=
  {| store := store p; messageBox := Some (message, kind);
     passwordFormOpen := passwordFormOpen p; reloadPending := reloadPending p |}.

Definition hideChangePasswordForm (p : Page) : Page :=
  {| store := store p; messageBox := messageBox p;
     passwordFormOpen := false; reloadPending := reloadPending p |}.

Definition scheduleReload (p : Page) : Page :=
  {| store := store p; messageBox := messageBox p;
     passwordFormOpen := passwordFormOpen p; reloadPending := true |}.

(** [updateProfile()]: the values of the three inputs go to the service,
    the first two trimmed; the name is not part of the form. *)
Definition updateProfile (env : Ambient) (collegeName branchName yearName : string)
  (p : Page) : Page :=
  let college := JsString.trim collegeName in
  let branch := JsString.trim branchName in
  let year := yearName in
  match AuthService.updateProfile env
          {| ProfileData.name := None; ProfileData.college := Some college;
             ProfileData.branch := Some branch; ProfileData.year := Some year |}
          (store p) with
  | (Returned result, w) =>
      if Result.success result then
        scheduleReload (showMessage (Result.message result) success (withStore w p))
      else showMessage (Result.message result) error (withStore w p)
  | (Thrown _, w) =>
      showMessage "Failed to update profile. Please try again." error (withStore w p)
  end.

(** [changePassword()]: the two checks of the page, then the service. *)
Definition changePassword (env : Ambient)
  (currentPassword newPassword confirmPassword : string) (p : Page) : Page :=
  if negb (String.eqb newPassword confirmPassword) then
    showMessage "New passwords do not match." error p
  else if (String.length newPassword <? 8)%nat then
    showMessage "New password must be at least 8 characters long." error p
  else
    match AuthService.changePassword env currentPassword newPassword (store p) with
    | (Returned result, w) =>
        if Result.success result then
          hideChangePasswordForm
            (showMessage (Result.message result) success (withStore w p))
        else showMessage (Result.message result) error (withStore w p)
    | (Thrown _, w) =>
        showMessage "Failed to change password. Please try again." error (withStore w p)
    end.



End AccountPage.

(* ================================================================== *)
(** * More sample worlds *)

Module Scenario.

(** Bob is logged in where Alice and Bob share one id. *)
Definition bobAmongTwins : World :=
  Sample.after (AuthService.login Sample.env1 "bob@example.com" "Secret99x" false)
    (withSession Absent Sample.twins).

Definition uploadPage : Routes.Browser :=
  {| Routes.tab :=
       {| users := users Sample.registered; session := Absent;
          pathname := "/pages/upload.html"; href := None; page := [] |};
     Routes.address := "https://notesvault.example/pages/upload.html";
     Routes.redirectAfterLogin := None |}.

Definition accountPage : AccountPage.Page :=
  {| AccountPage.store := Sample.loggedIn;
     AccountPage.messageBox := None;
     AccountPage.passwordFormOpen := true;
     AccountPage.reloadPending := false |}.

(** Dave submits the signup form twice; the second submission starts while
    the first is still hashing. *)
Definition dave : UserData.t :=
  {| UserData.name := "Dave"; UserData.email := "dave@example.com";
     UserData.password := "Qwerty12" |}.

(** A submission of another type with no title. *)
Definition untitledForm : Upload.Form :=
  {| Upload.file := Some {| Upload.fileName := "a1.pdf"; Upload.fileSize := 700 |};
     Upload.title := ""; Upload.subject := "Algorithms";
     Upload.semester := "3"; Upload.noteType := "assignment" |}.

Definition emptyForm : Upload.Form :=
  {| Upload.file := Some {| Upload.fileName := ""; Upload.fileSize := 0 |};
     Upload.title := "Graphs"; Upload.subject := "";
     Upload.semester := "3"; Upload.noteType := "lecture" |}.

End Scenario.

(* ================================================================== *)
(** * Properties *)

Import JsString.

Create HintDb js.

#[local] Hint Unfold bind ret throw tryCatch
  AuthService.getUsers AuthService.saveUsers AuthService.getSession
  AuthService.setSession AuthService.userExists : js.

(** Unfold the plumbing of a computation and use what is known of the
    two storage slots. *)
Ltac js_run :=
  autounfold with js; cbn beta iota;
  repeat (match goal with
          | H : users _ = _ |- _ => rewrite !H
          | H : session _ = _ |- _ => rewrite !H
          end; cbn beta iota).

(** ** The platform functions on known values *)

Example btoa_padding :
  Platform.btoa "Man" = "TWFu" /\ Platform.btoa "Ma" = "TWE=" /\ Platform.btoa "M" = "TQ==".
Proof. vm_compute. auto. Qed.

(** The digests of the empty message, of abc and of the two-block message
    of FIPS 180-4. *)
Example sha256_vectors :
  Platform.hex (Platform.sha256 [])
  = "e3b0c44298fc1c149afbf4c8996fb92427ae41e4649b934ca495991b7852b855"
  /\ Platform.hex (Platform.sha256 (Platform.encode "abc"))
     = "ba7816bf8f01cfea414140de5dae2223b00361a396177a9cb410ff61f20015ad"
  /\ Platform.hex (Platform.sha256 (Platform.encode
        "abcdbcdecdefdefgefghfghighijhijkijkljklmklmnlmnomnopnopq"))
     = "248d6a61d20638b8e5c026930c3e6039a33ce45964ff2167f6ecedd419db06c1".
Proof. vm_compute. auto. Qed.

Example sha256_constants :
  firstn 2 Platform.K256 = [0x428a2f98; 0x71374491]%N
  /\ nth 63 Platform.K256 0%N = 0xc67178f2%N
  /\ firstn 2 Platform.H256 = [0x6a09e667; 0xbb67ae85]%N
  /\ nth 7 Platform.H256 0%N = 0x5be0cd19%N.
Proof. vm_compute. auto. Qed.

(** The second password has the code unit 228 (a with diaeresis) in
    second place, two bytes in UTF-8. *)
Example hashPassword_sample :
  AuthService.generateSalt Sample.env0 = "AQIDBAUGBwgJCgsMDQ4PEA=="
  /\ AuthService.hashPassword "Passw0rdA" "AQIDBAUGBwgJCgsMDQ4PEA=="
     = "5pcGsbfAI7jn0oaiStIN3h0/Mu4GaiLTR+defswj63g="
  /\ AuthService.hashPassword (String "P" (String (ascii_of_N 228) "ssw0rdA"))
       "AQIDBAUGBwgJCgsMDQ4PEA=="
     = "5wsN4+cop1x3acigpUDc08KrhIkly3q0nG8gPzolma4=".
Proof. vm_compute. auto. Qed.

Example sanitizeInput_samples :
  AuthService.sanitizeInput "  <b>Al'ice</b> " = "bAlice/b"
  /\ toLowerCase (AuthService.sanitizeInput " Alice@Example.com ") = "alice@example.com".
Proof. vm_compute. auto. Qed.

Example validateEmail_samples :
  map AuthService.validateEmail
      ["a@b.c"; "a@b.c.d"; "a@b..c"; "a@b"; "a@b."; "a@.c"; "@b.c"; "a b@c.d"; "a@@b.c"; ""]
  = [true; true; true; false; false; false; false; false; false; false].
Proof. vm_compute. reflexivity. Qed.

(** The third password has its lower-case letters and its digit and
    upper-case letter on two lines, and no position sees all three. *)
Example validatePassword_samples :
  map (fun p => AuthService.isValid (AuthService.validatePassword p))
      ["Passw0rdA"; "short1A";
       String.append "abcdefgh" (String (ascii_of_N 10) "A1");
       "ABCDEFG1"; "abcdefg1"; "Abcdefgh"]
  = [true; false; false; false; false; false].
Proof. vm_compute. reflexivity. Qed.

Example sliceLast_samples :
  sliceLast 8 "0.4fzyo82mvyr" = "yo82mvyr" /\ sliceLast 8 "0" = "0".
Proof. vm_compute. auto. Qed.

(** ** The matcher of [validateEmail] is the pattern *)

Section EmailPattern.
Import AuthService.

Lemma lastRun_isRun (s : string) : lastRun s = true <-> isRun s.
Proof.
  unfold isRun. induction s as [|c r IH]; cbn.
  - split; [discriminate | intros [H _]; congruence].
  - destruct r as [|d r'].
    + cbn. rewrite andb_true_r. split; [intro H; split; [discriminate | exact H] | tauto].
    + rewrite andb_true_iff, IH. split.
      * intros [Hc [_ Hr]]. split; [discriminate|]. rewrite Hc. exact Hr.
      * intros [_ H]. apply andb_true_iff in H. destruct H as [Hc Hr].
        split; [exact Hc|]. split; [discriminate | exact Hr].
Qed.

Lemma afterAt_pattern (s : string) :
  afterAt s = true <->
  exists b c, s = b ++ String "." c /\ isRun b /\ isRun c.
Proof.
  split.
  - induction s as [|ch r IH]; cbn; [discriminate|].
    intro H. apply andb_true_iff in H. destruct H as [Hp H].
    apply orb_true_iff in H. destruct H as [H|H].
    + destruct r as [|d r']; [discriminate|].
      apply andb_true_iff in H. destruct H as [Hd Hl].
      apply Ascii.eqb_eq in Hd. subst d.
      exists (String ch EmptyString), r'. split; [reflexivity|].
      split; [|apply lastRun_isRun; exact Hl].
      split; [discriminate|]. cbn. rewrite Hp. reflexivity.
    + destruct (IH H) as [b [c [-> [[Hb1 Hb2] Hc]]]].
      exists (String ch b), c. split; [reflexivity|].
      split; [|exact Hc]. split; [discriminate|]. cbn. rewrite Hp. exact Hb2.
  - intros [b [c [-> [[Hb1 Hb2] Hc]]]].
    induction b as [|ch b' IH]; [congruence|].
    cbn in Hb2. apply andb_true_iff in Hb2. destruct Hb2 as [Hp Hb2].
    cbn. rewrite Hp. cbn.
    destruct b' as [|d b''].
    + cbn. apply lastRun_isRun in Hc. rewrite Hc. reflexivity.
    + apply orb_true_iff. right. apply IH; [discriminate | exact Hb2].
Qed.

Lemma validateEmail_pattern (s : string) :
  validateEmail s = true <-> matchesEmailPattern s.
Proof.
  unfold matchesEmailPattern. split.
  - induction s as [|ch r IH]; cbn; [discriminate|].
    intro H. apply andb_true_iff in H. destruct H as [Hp H].
    apply orb_true_iff in H. destruct H as [H|H].
    + destruct r as [|d r']; [discriminate|].
      apply andb_true_iff in H. destruct H as [Hd Hl].
      apply Ascii.eqb_eq in Hd. subst d.
      apply afterAt_pattern in Hl. destruct Hl as [b [c [-> [Hb Hc]]]].
      exists (String ch EmptyString), b, c. split; [reflexivity|].
      split; [|split; assumption].
      split; [discriminate|]. cbn. rewrite Hp. reflexivity.
    + destruct (IH H) as [a [b [c [-> [[Ha1 Ha2] Hbc]]]]].
      exists (String ch a), b, c. split; [reflexivity|].
      split; [|exact Hbc]. split; [discriminate|]. cbn. rewrite Hp. exact Ha2.
  - intros [a [b [c [-> [[Ha1 Ha2] [Hb Hc]]]]]].
    induction a as [|ch a' IH]; [congruence|].
    cbn in Ha2. apply andb_true_iff in Ha2. destruct Ha2 as [Hp Ha2].
    cbn. rewrite Hp. cbn.
    destruct a' as [|d a''].
    + cbn. replace (afterAt (b ++ String "." c)) with true; [reflexivity|].
      symmetry. apply afterAt_pattern. exists b, c. tauto.
    + apply orb_true_iff. right. apply IH; [discriminate | exact Ha2].
Qed.

End EmailPattern.

(** ** The test of [validatePassword] is the three lookaheads at one position *)

Section StrengthPattern.
Import AuthService.

Lemma lookahead_pattern (class : ascii -> bool) (s : string) :
  lookahead class s = true <->
  exists x c y, s = x ++ String c y /\ sameLine x = true /\ class c = true.
Proof.
  split.
  - induction s as [|ch r IH]; cbn; [discriminate|].
    intro H. apply orb_true_iff in H. destruct H as [H|H].
    + exists EmptyString, ch, r. repeat split. exact H.
    + apply andb_true_iff in H. destruct H as [Hl H].
      destruct (IH H) as [x [c [y [-> [Hx Hc]]]]].
      exists (String ch x), c, y. split; [reflexivity|]. split; [|exact Hc].
      cbn. rewrite Hl. exact Hx.
  - intros [x [c [y [-> [Hx Hc]]]]].
    induction x as [|ch x' IH]; cbn.
    + rewrite Hc. reflexivity.
    + cbn in Hx. apply andb_true_iff in Hx. destruct Hx as [Hl Hx].
      rewrite Hl, (IH Hx). apply orb_true_r.
Qed.

Lemma strengthTest_pattern (s : string) :
  strengthTest s = true <->
  exists before rest,
    s = before ++ rest
    /\ lookahead isLower rest = true
    /\ lookahead isUpper rest = true
    /\ lookahead isDigit rest = true.
Proof.
  split.
  - induction s as [|ch r IH].
    + cbn. discriminate.
    + intro H. cbn [strengthTest] in H. apply orb_true_iff in H. destruct H as [H|H].
      * apply andb_true_iff in H. destruct H as [H Hd].
        apply andb_true_iff in H. destruct H as [Hl Hu].
        exists EmptyString, (String ch r). repeat split; assumption.
      * destruct (IH H) as [before [rest [-> Hall]]].
        exists (String ch before), rest. split; [reflexivity | exact Hall].
  - intros [before [rest [-> [Hl [Hu Hd]]]]].
    induction before as [|ch b IH].
    + cbn [append]. destruct rest as [|c r]; [discriminate Hl|].
      cbn [strengthTest]. rewrite Hl, Hu, Hd. reflexivity.
    + cbn [append strengthTest]. rewrite IH. apply orb_true_r.
Qed.

End StrengthPattern.

Lemma truthy_true (s : string) : s <> "" -> truthy s = true.
Proof. destruct s; [congruence | reflexivity]. Qed.

Section Login.
Variables (env : Ambient) (w : World) (us : list User.t) (u : User.t).
Variables (email password : string) (remember : bool).
Hypothesis stored : users w = Holds us.
Hypothesis found :
  find (fun x => String.eqb (User.email x) (toLowerCase (AuthService.sanitizeInput email))) us
  = Some u.

Lemma login_wrong_hash :
  AuthService.hashPassword password (User.salt u) <> User.passwordHash u ->
  exists r, AuthService.login env email password remember w = (Returned r, w)
            /\ Result.success r = false.
Proof.
  intros Hne. unfold AuthService.login, AuthService.loginBody.
  destruct (negb (truthy email) || negb (truthy password)).
  - js_run. eexists; split; reflexivity.
  - js_run. rewrite found.
    apply String.eqb_neq in Hne. rewrite Hne. cbn.
    eexists; split; reflexivity.
Qed.

End Login.

(** ** Arrays *)

Lemma find_mutateFound {A} (p q : A -> bool) (f : A -> A) (l : list A) (u : A) :
  (forall x, q (f x) = q x) ->
  find p l = Some u -> find q l = Some u ->
  find q (mutateFound p f l) = Some (f u).
Proof.
  intro Hq. induction l as [|x r IH]; cbn; [discriminate|].
  destruct (p x) eqn:Hp; intros Hfp Hfq.
  - injection Hfp as ->. cbn. rewrite Hq.
    destruct (q u) eqn:Hqu; [reflexivity|].
    apply find_some in Hfq. destruct Hfq as [_ Hfq]. congruence.
  - cbn. destruct (q x) eqn:Hqx.
    + injection Hfq as ->. apply find_some in Hfp. destruct Hfp as [_ Hfp]. congruence.
    + apply IH; assumption.
Qed.

Lemma find_findIndex {A} (p : A -> bool) (l : list A) (u : A) :
  find p l = Some u ->
  exists i, findIndex p l = Some i /\ nth_error l i = Some u.
Proof.
  induction l as [|x r IH]; cbn; [discriminate|].
  destruct (p x).
  - intros [= ->]. exists O. split; reflexivity.
  - intro H. destruct (IH H) as [i [Hi Hn]]. exists (S i). rewrite Hi. split; [reflexivity|exact Hn].
Qed.

Lemma find_none_findIndex {A} (p : A -> bool) (l : list A) :
  find p l = None -> findIndex p l = None.
Proof.
  induction l as [|x r IH]; cbn; [reflexivity|].
  destruct (p x); [discriminate|]. intro H. rewrite (IH H). reflexivity.
Qed.

Lemma find_of_member {A} (p : A -> bool) (l : list A) (x : A) :
  In x l -> p x = true -> exists y, find p l = Some y.
Proof.
  induction l as [|z r IH]; cbn; [tauto|].
  intros [->|Hin] Hx.
  - rewrite Hx. eauto.
  - destruct (p z); eauto.
Qed.

Lemma NoDup_map_injective {A B} (g : A -> B) (l : list A) (x y : A) :
  NoDup (map g l) -> In x l -> In y l -> g x = g y -> x = y.
Proof.
  induction l as [|z r IH]; cbn; [tauto|].
  intros Hnd Hx Hy Hg. inversion Hnd as [|? ? Hz Hr]; subst.
  destruct Hx as [->|Hx], Hy as [->|Hy].
  - reflexivity.
  - exfalso. apply Hz. rewrite Hg. apply in_map. exact Hy.
  - exfalso. apply Hz. rewrite <- Hg. apply in_map. exact Hx.
  - apply IH; assumption.
Qed.

(** In a list without two elements of the same key, the search for a key
    finds the element that has it. *)
Lemma find_unique {A} (g : A -> string) (l : list A) (u : A) (k : string) :
  NoDup (map g l) -> In u l -> g u = k ->
  find (fun x => String.eqb (g x) k) l = Some u.
Proof.
  intros Hnd Hin Hk.
  destruct (find_of_member (fun x => String.eqb (g x) k) l u Hin) as [y Hy].
  { apply String.eqb_eq. exact Hk. }
  rewrite Hy. f_equal.
  apply find_some in Hy. destruct Hy as [Hyin Hyk]. apply String.eqb_eq in Hyk.
  apply (NoDup_map_injective g l y u Hnd Hyin Hin). congruence.
Qed.

(** ** A logged-in user: the session names a stored record. *)

Section LoggedIn.
Variables (w : World) (us : list User.t) (s : Session.t) (u : User.t).
Hypothesis stored : users w = Holds us.
Hypothesis signed : session w = Holds s.
Hypothesis owner :
  find (fun x => String.eqb (User.id x) (Session.userId s)) us = Some u.

Lemma owner_id : User.id u = Session.userId s.
Proof.
  apply find_some in owner. destruct owner as [_ H].
  apply String.eqb_eq. exact H.
Qed.

Lemma owner_by_id :
  find (fun x => String.eqb (User.id x) (User.id u)) us = Some u.
Proof. rewrite owner_id. exact owner. Qed.

Lemma getCurrentUser_logged_in :
  AuthService.getCurrentUser w = (Returned (Some (AuthService.currentUser u)), w).
Proof.
  unfold AuthService.getCurrentUser. js_run. rewrite owner. reflexivity.
Qed.

Lemma changePassword_cases (env : Ambient) (cur new : string) :
  AuthService.changePassword env cur new w =
  if negb (String.eqb (AuthService.hashPassword cur (User.salt u)) (User.passwordHash u))
  then (Returned (Result.failure "Current password is incorrect"), w)
  else if negb (AuthService.isValid (AuthService.validatePassword new))
  then (Returned (Result.failure (AuthService.vmessage (AuthService.validatePassword new))), w)
  else (Returned (Result.ok "Password changed successfully!"),
        withUsers
          (Holds (mutateFound (fun x => String.eqb (User.id x) (User.id u))
                    (fun x => AuthService.setUpdatedAt (toISOString env)
                                (AuthService.setPassword
                                   (AuthService.hashPassword new (AuthService.generateSalt env))
                                   (AuthService.generateSalt env) x)) us)) w).
Proof.
  unfold AuthService.changePassword, AuthService.changePasswordBody.
  unfold bind at 1. unfold tryCatch. rewrite getCurrentUser_logged_in.
  js_run. cbn [CurrentUser.id AuthService.currentUser].
  rewrite owner_by_id.
  destruct (negb (String.eqb _ (User.passwordHash u))); [reflexivity|].
  destruct (negb (AuthService.isValid _)); reflexivity.
Qed.

End LoggedIn.

Lemma differ_by_eqb (a b : string) : String.eqb a b = false -> a <> b.
Proof. intro H. apply String.eqb_neq. exact H. Qed.




Lemma old_password_fails_after_change :
  forall (env env' : Ambient) (w w' : World) (us : list User.t) (s : Session.t)
         (u : User.t) (cur new email : string) (remember : bool) (r : Result.t),
    users w = Holds us ->
    session w = Holds s ->
    find (fun x => String.eqb (User.id x) (Session.userId s)) us = Some u ->
    find (fun x => String.eqb (User.email x)
                     (toLowerCase (AuthService.sanitizeInput email))) us = Some u ->
    AuthService.changePassword env cur new w = (Returned r, w') ->
    Result.success r = true ->
    AuthService.hashPassword cur (AuthService.generateSalt env)
    <> AuthService.hashPassword new (AuthService.generateSalt env) ->
    exists r', AuthService.login env' email cur remember w' = (Returned r', w')
               /\ Result.success r' = false.
Proof.
  intros env env' w w' us s u cur new email remember r Hst Hse Hown Hmail Hcp Hok Hne.
  rewrite (changePassword_cases w us s u Hst Hse Hown) in Hcp.
  destruct (negb (String.eqb _ (User.passwordHash u)));
    [injection Hcp as <- <-; discriminate Hok|].
  destruct (negb (AuthService.isValid _));
    [injection Hcp as <- <-; discriminate Hok|].
  injection Hcp as <- <-.
  eapply login_wrong_hash.
  - reflexivity.
  - apply find_mutateFound.
    + intro x. reflexivity.
    + eapply owner_by_id; eassumption.
    + exact Hmail.
  - exact Hne.
Qed.

(** C2 (as amended).  Where the stored ids and the stored emails are
    pairwise distinct: for the stored record [u] of the logged-in user (the
    record the session names), after a successful [changePassword cur new]
    that ran to its end with no other call in between, a later [login]
    with the email of [u] and with the old password [cur] fails, provided
    the hash of [cur] under the new salt differs from the new stored hash
    (the two passwords differ and SHA-256 does not collide on them). *)
Theorem changePassword_retires_old_password :
  forall (env env' : Ambient) (w w' : World) (us : list User.t) (s : Session.t)
         (u : User.t) (cur new email : string) (remember : bool) (r : Result.t),
    users w = Holds us ->
    session w = Holds s ->
    NoDup (map User.id us) ->
    NoDup (map User.email us) ->
    In u us ->
    User.id u = Session.userId s ->
    toLowerCase (AuthService.sanitizeInput email) = User.email u ->
    AuthService.changePassword env cur new w = (Returned r, w') ->
    Result.success r = true ->
    AuthService.hashPassword cur (AuthService.generateSalt env)
    <> AuthService.hashPassword new (AuthService.generateSalt env) ->
    exists r', AuthService.login env' email cur remember w' = (Returned r', w')
               /\ Result.success r' = false.
Proof.
  intros env env' w w' us s u cur new email remember r
         Hst Hse Hids Hmails Hin Hid Hmail Hcp Hok Hne.
  apply (old_password_fails_after_change env env' w w' us s u cur new email remember r);
    try assumption.
  - apply (find_unique User.id); assumption.
  - apply (find_unique User.email); [assumption | assumption | symmetry; exact Hmail].
Qed.

Lemma changePassword_retires_old_password_witness :
  exists r', AuthService.login Sample.env0 "alice@example.com" "Passw0rdA" false
               (Sample.after (AuthService.changePassword Sample.env2 "Passw0rdA" "N3wPassword")
                             Sample.loggedIn)
             = (Returned r',
                Sample.after (AuthService.changePassword Sample.env2 "Passw0rdA" "N3wPassword")
                             Sample.loggedIn)
             /\ Result.success r' = false.
Proof.
  assert (NoDup (map User.id [Sample.aliceRecord; Sample.bobRecord])) as Hids.
  { assert (map User.id [Sample.aliceRecord; Sample.bobRecord]
            = ["1730000000000"; "1730000005000"]) as -> by (vm_compute; reflexivity).
    repeat constructor; cbn; intuition discriminate. }
  assert (NoDup (map User.email [Sample.aliceRecord; Sample.bobRecord])) as Hmails.
  { assert (map User.email [Sample.aliceRecord; Sample.bobRecord]
            = ["alice@example.com"; "bob@example.com"]) as -> by (vm_compute; reflexivity).
    repeat constructor; cbn; intuition discriminate. }
  apply (changePassword_retires_old_password Sample.env2 Sample.env0 Sample.loggedIn _
           [Sample.aliceRecord; Sample.bobRecord]
           (AuthService.newSession Sample.env1 Sample.aliceRecord false)
           Sample.aliceRecord "Passw0rdA" "N3wPassword" "alice@example.com" false
           (Result.ok "Password changed successfully!")).
  - vm_compute. reflexivity.
  - vm_compute. reflexivity.
  - exact Hids.
  - exact Hmails.
  - left. reflexivity.
  - reflexivity.
  - vm_compute. reflexivity.
  - vm_compute. reflexivity.
  - reflexivity.
  - apply differ_by_eqb. vm_compute. reflexivity.
Defined.

(** C2, the claim as first stated, fails when the new password is the old
    one: the change succeeds and the old password still logs in. *)
Lemma changePassword_same_password_counterexample :
  let w' := Sample.after (AuthService.changePassword Sample.env2 "Passw0rdA" "Passw0rdA")
                         Sample.loggedIn in
  fst (AuthService.changePassword Sample.env2 "Passw0rdA" "Passw0rdA" Sample.loggedIn)
  = Returned (Result.ok "Password changed successfully!")
  /\ fst (AuthService.login Sample.env0 "alice@example.com" "Passw0rdA" false w')
     = Returned {| Result.success := true;
                   Result.message := "Login successful!";
                   Result.user := Some (AuthService.loginUser Sample.aliceRecord);
                   Result.tempPassword := None |}.
Proof. vm_compute. auto. Qed.

(** C3 (as amended).  When the collection already holds a record with the
    sanitized, lower-cased email of the request, [register] returns a
    failure and leaves the store as it was.  The message is the one about
    the existing account when the earlier checks pass: name and password
    not empty, the address well formed, the password valid. *)
Theorem register_rejects_known_email :
  forall (env : Ambient) (w : World) (us : list User.t) (d : UserData.t),
    users w = Holds us ->
    existsb (fun user => String.eqb (User.email user)
                           (toLowerCase (AuthService.sanitizeInput (UserData.email d)))) us
    = true ->
    exists r,
      AuthService.register env d w = (Returned r, w)
      /\ Result.success r = false
      /\ (UserData.name d <> "" -> UserData.password d <> "" ->
          AuthService.validateEmail
            (toLowerCase (AuthService.sanitizeInput (UserData.email d))) = true ->
          AuthService.isValid (AuthService.validatePassword (UserData.password d)) = true ->
          Result.message r = "An account with this email already exists").
Proof.
  intros env w us [name email password] Hst Hex. cbn [UserData.email UserData.name UserData.password] in *.
  unfold AuthService.register, AuthService.registerBody.
  cbn [UserData.email UserData.name UserData.password].
  destruct name as [|c name'].
  { eexists. split; [reflexivity|]. split; [reflexivity|]. intro H; congruence. }
  destruct email as [|e email'].
  { eexists. split; [reflexivity|]. split; [reflexivity|].
    intros _ _ H. vm_compute in H. discriminate H. }
  destruct password as [|p password'].
  { eexists. split; [reflexivity|]. split; [reflexivity|]. intros _ H; congruence. }
  cbn [truthy negb orb].
  destruct (AuthService.validateEmail _) eqn:Hve; cbn [negb].
  2:{ eexists. split; [reflexivity|]. split; [reflexivity|]. intros _ _ H; discriminate H. }
  destruct (AuthService.isValid _) eqn:Hvp; cbn [negb].
  2:{ eexists. split; [reflexivity|]. split; [reflexivity|]. intros _ _ _ H; discriminate H. }
  js_run. rewrite Hex.
  eexists. split; [reflexivity|]. split; [reflexivity|]. intros; reflexivity.
Qed.

Lemma register_rejects_known_email_witness :
  exists r,
    AuthService.register Sample.env2 Sample.alice Sample.registered
    = (Returned r, Sample.registered)
    /\ Result.success r = false
    /\ Result.message r = "An account with this email already exists".
Proof.
  destruct (register_rejects_known_email Sample.env2 Sample.registered
              (collection Sample.registered) Sample.alice
              ltac:(vm_compute; reflexivity) ltac:(vm_compute; reflexivity))
    as [r [Hr [Hs Hm]]].
  exists r. split; [exact Hr|]. split; [exact Hs|].
  apply Hm.
  - discriminate.
  - discriminate.
  - vm_compute. reflexivity.
  - vm_compute. reflexivity.
Defined.

(** C3, the claim as first stated, fails when an earlier check rejects the
    request: with a short password the message is the one of the password
    check, although the email is already registered. *)
Lemma register_known_email_short_password_counterexample :
  existsb (fun user => String.eqb (User.email user)
                         (toLowerCase (AuthService.sanitizeInput "alice@example.com")))
          (collection Sample.registered) = true
  /\ AuthService.register Sample.env2
       {| UserData.name := "Mallory"; UserData.email := "alice@example.com";
          UserData.password := "short" |} Sample.registered
     = (Returned (Result.failure "Password must be at least 8 characters long"),
        Sample.registered).
Proof. vm_compute. auto. Qed.

(** ** The invariant of the emails *)

Lemma lowerChar_idempotent (c : ascii) : lowerChar (lowerChar c) = lowerChar c.
Proof. destruct c as [[] [] [] [] [] [] [] []]; reflexivity. Qed.

Lemma toLowerCase_idempotent (s : string) : toLowerCase (toLowerCase s) = toLowerCase s.
Proof.
  induction s as [|c r IH]; cbn; [reflexivity|].
  rewrite lowerChar_idempotent, IH. reflexivity.
Qed.

Lemma map_alterAt {A B} (g : A -> B) (f : A -> A) (i : nat) (l : list A) :
  (forall x, g (f x) = g x) -> map g (alterAt i f l) = map g l.
Proof.
  intro H. revert i. induction l as [|x r IH]; intros [|i]; cbn; try reflexivity.
  - rewrite H. reflexivity.
  - rewrite IH. reflexivity.
Qed.

Lemma map_mutateFound {A B} (g : A -> B) (p : A -> bool) (f : A -> A) (l : list A) :
  (forall x, g (f x) = g x) -> map g (mutateFound p f l) = map g l.
Proof.
  intro H. induction l as [|x r IH]; cbn; [reflexivity|].
  destruct (p x); cbn; [rewrite H|rewrite IH]; reflexivity.
Qed.

Lemma NoDup_map_filter {A B} (g : A -> B) (p : A -> bool) (l : list A) :
  NoDup (map g l) -> NoDup (map g (filter p l)).
Proof.
  induction l as [|x r IH]; cbn; intro H; [constructor|].
  inversion H as [|? ? Hin Hnd]; subst.
  destruct (p x); cbn; [|apply IH; exact Hnd].
  constructor; [|apply IH; exact Hnd].
  intro Hx. apply Hin. apply in_map_iff in Hx. destruct Hx as [y [Hy Hf]].
  apply filter_In in Hf. apply in_map_iff. exists y. tauto.
Qed.

Lemma Forall_map_filter {A B} (P : B -> Prop) (g : A -> B) (p : A -> bool) (l : list A) :
  Forall P (map g l) -> Forall P (map g (filter p l)).
Proof.
  induction l as [|x r IH]; cbn; intro H; [constructor|].
  inversion H; subst. destruct (p x); cbn; auto.
Qed.

Lemma existsb_email_false (e : string) (us : list User.t) :
  existsb (fun user => String.eqb (User.email user) e) us = false ->
  ~ In e (map User.email us).
Proof.
  intros H Hin. apply in_map_iff in Hin. destruct Hin as [x [Hx Hi]].
  assert (existsb (fun user => String.eqb (User.email user) e) us = true) as Ht.
  { apply existsb_exists. exists x. split; [exact Hi|]. apply String.eqb_eq. exact Hx. }
  congruence.
Qed.

Lemma NoDup_snoc {A} (l : list A) (a : A) : NoDup l -> ~ In a l -> NoDup (l ++ [a]).
Proof.
  induction l as [|x r IH]; cbn; intros Hnd Hin.
  - constructor; [tauto | constructor].
  - inversion Hnd; subst. constructor.
    + rewrite in_app_iff. cbn. intuition congruence.
    + apply IH; tauto.
Qed.

Lemma applyProfile_email (env : Ambient) (d : ProfileData.t) (x : User.t) :
  User.email (AuthService.applyProfile env d x) = User.email x.
Proof.
  destruct d as [[n|] [c|] [b|] [y|]]; reflexivity.
Qed.

(** A world with the same [users] item has the same emails. *)
Lemma uniqueEmails_same_users (w w' : World) :
  users w' = users w -> uniqueEmails w -> uniqueEmails w'.
Proof.
  unfold uniqueEmails, emails, collection. intros ->. tauto.
Qed.

Lemma uniqueEmails_same_emails (w : World) (us us' : list User.t) :
  collection w = us ->
  map User.email us' = map User.email us ->
  uniqueEmails w -> uniqueEmails (withUsers (Holds us') w).
Proof.
  unfold uniqueEmails, emails. intros <- He. cbn. rewrite He. tauto.
Qed.

Lemma logout_users (w : World) : users (snd (AuthService.logout w)) = users w.
Proof.
  unfold AuthService.logout.
  destruct (negb _ && negb _); reflexivity.
Qed.

Lemma logout_session (w : World) : session (snd (AuthService.logout w)) = Absent.
Proof.
  unfold AuthService.logout.
  destruct (negb _ && negb _); reflexivity.
Qed.

Lemma logout_returns (w : World) : fst (AuthService.logout w) = Returned tt.
Proof.
  unfold AuthService.logout.
  destruct (negb _ && negb _); reflexivity.
Qed.

Lemma logout_eq (w : World) :
  AuthService.logout w = (Returned tt, snd (AuthService.logout w)).
Proof.
  unfold AuthService.logout.
  destruct (negb _ && negb _); reflexivity.
Qed.

(** [getCurrentUser] throws on an unreadable item, answers null (after a
    logout when the session names no record), or answers the record the
    session names; it never writes the collection. *)
Lemma getCurrentUser_cases (w : World) :
  (exists e, AuthService.getCurrentUser w = (Thrown e, w))
  \/ (exists w', AuthService.getCurrentUser w = (Returned None, w')
                 /\ users w' = users w)
  \/ (exists us s u,
        users w = Holds us /\ session w = Holds s
        /\ find (fun x => String.eqb (User.id x) (Session.userId s)) us = Some u
        /\ AuthService.getCurrentUser w = (Returned (Some (AuthService.currentUser u)), w)).
Proof.
  unfold AuthService.getCurrentUser.
  destruct (session w) as [|s|] eqn:Hs; js_run.
  - right; left. exists w. split; reflexivity.
  - destruct (users w) as [|us|] eqn:Hu; js_run.
    + right; left. cbn [find]. rewrite logout_eq.
      eexists. split; [reflexivity|]. rewrite logout_users. exact Hu.
    + destruct (find _ us) as [u|] eqn:Hf.
      * right; right. exists us, s, u. repeat split; try assumption.
      * right; left. rewrite logout_eq.
        eexists. split; [reflexivity|]. rewrite logout_users. exact Hu.
    + left. exists SyntaxError. reflexivity.
  - left. exists SyntaxError. reflexivity.
Qed.

Section Owner.
Variables (w : World) (us : list User.t) (s : Session.t) (u : User.t).
Hypothesis stored : users w = Holds us.
Hypothesis signed : session w = Holds s.
Hypothesis owner :
  find (fun x => String.eqb (User.id x) (Session.userId s)) us = Some u.

Lemma updateProfile_cases (env : Ambient) (d : ProfileData.t) :
  exists i,
    findIndex (fun x => String.eqb (User.id x) (User.id u)) us = Some i
    /\ nth_error us i = Some u
    /\ AuthService.updateProfile env d w
       = (Returned (Result.ok "Profile updated successfully!"),
          withUsers (Holds (alterAt i (AuthService.applyProfile env d) us)) w).
Proof.
  destruct (find_findIndex _ _ _ (owner_by_id us s u owner)) as [i [Hi Hn]].
  exists i. split; [exact Hi|]. split; [exact Hn|].
  unfold AuthService.updateProfile, AuthService.updateProfileBody.
  unfold bind at 1. unfold tryCatch.
  rewrite (getCurrentUser_logged_in w us s u stored signed owner).
  js_run. cbn [CurrentUser.id AuthService.currentUser].
  rewrite Hi. reflexivity.
Qed.

Lemma deleteAccount_cases (password : string) :
  AuthService.deleteAccount password w =
  if negb (String.eqb (AuthService.hashPassword password (User.salt u))
                      (User.passwordHash u))
  then (Returned (Result.failure "Password is incorrect"), w)
  else (Returned (Result.ok "Account deleted successfully"),
        snd (AuthService.logout
               (withUsers
                  (Holds (filter (fun x => negb (String.eqb (User.id x) (User.id u))) us))
                  w))).
Proof.
  unfold AuthService.deleteAccount, AuthService.deleteAccountBody.
  unfold bind at 1. unfold tryCatch.
  rewrite (getCurrentUser_logged_in w us s u stored signed owner).
  js_run. cbn [CurrentUser.id AuthService.currentUser].
  rewrite (owner_by_id us s u owner).
  destruct (negb (String.eqb _ (User.passwordHash u))); [reflexivity|].
  js_run. rewrite logout_eq. reflexivity.
Qed.

End Owner.

(** Without a current user the three operations on the account answer
    with a failure and write nothing more. *)
Section NoOwner.
Variables (w w' : World).

Lemma updateProfile_anonymous (env : Ambient) (d : ProfileData.t) :
  AuthService.getCurrentUser w = (Returned None, w') ->
  AuthService.updateProfile env d w = (Returned (Result.failure "Not logged in"), w').
Proof.
  intro H. unfold AuthService.updateProfile, AuthService.updateProfileBody.
  unfold bind at 1. unfold tryCatch. rewrite H. reflexivity.
Qed.

Lemma changePassword_anonymous (env : Ambient) (c n : string) :
  AuthService.getCurrentUser w = (Returned None, w') ->
  AuthService.changePassword env c n w = (Returned (Result.failure "Not logged in"), w').
Proof.
  intro H. unfold AuthService.changePassword, AuthService.changePasswordBody.
  unfold bind at 1. unfold tryCatch. rewrite H. reflexivity.
Qed.

Lemma deleteAccount_anonymous (p : string) :
  AuthService.getCurrentUser w = (Returned None, w') ->
  AuthService.deleteAccount p w = (Returned (Result.failure "Not logged in"), w').
Proof.
  intro H. unfold AuthService.deleteAccount, AuthService.deleteAccountBody.
  unfold bind at 1. unfold tryCatch. rewrite H. reflexivity.
Qed.

Lemma updateProfile_caught (env : Ambient) (d : ProfileData.t) (e : Exception) :
  AuthService.getCurrentUser w = (Thrown e, w') ->
  AuthService.updateProfile env d w
  = (Returned (Result.failure "Failed to update profile"), w').
Proof.
  intro H. unfold AuthService.updateProfile, AuthService.updateProfileBody.
  unfold bind at 1. unfold tryCatch. rewrite H. reflexivity.
Qed.

Lemma changePassword_caught (env : Ambient) (c n : string) (e : Exception) :
  AuthService.getCurrentUser w = (Thrown e, w') ->
  AuthService.changePassword env c n w
  = (Returned (Result.failure "Failed to change password"), w').
Proof.
  intro H. unfold AuthService.changePassword, AuthService.changePasswordBody.
  unfold bind at 1. unfold tryCatch. rewrite H. reflexivity.
Qed.

Lemma deleteAccount_caught (p : string) (e : Exception) :
  AuthService.getCurrentUser w = (Thrown e, w') ->
  AuthService.deleteAccount p w
  = (Returned (Result.failure "Failed to delete account"), w').
Proof.
  intro H. unfold AuthService.deleteAccount, AuthService.deleteAccountBody.
  unfold bind at 1. unfold tryCatch. rewrite H. reflexivity.
Qed.
End NoOwner.

(** ** Every guarded operation returns a result and keeps the invariant *)

Ltac returns_same :=
  do 2 eexists; split; [reflexivity | intro; assumption].

Lemma register_returns (env : Ambient) (d : UserData.t) (w : World) :
  exists r w', AuthService.register env d w = (Returned r, w')
               /\ (uniqueEmails w -> uniqueEmails w').
Proof.
  unfold AuthService.register, AuthService.registerBody.
  destruct (negb _ || negb _ || negb _); [returns_same|].
  destruct (negb (AuthService.validateEmail _)); [returns_same|].
  destruct (negb (AuthService.isValid _)); [returns_same|].
  destruct (users w) as [|us|] eqn:Hu; js_run.
  - cbn [existsb]. js_run. do 2 eexists. split; [reflexivity|]. intros _.
    unfold uniqueEmails, emails, collection. cbn.
    split.
    + constructor; [intros []|constructor].
    + constructor; [apply toLowerCase_idempotent|constructor].
  - destruct (existsb _ us) eqn:Hex; [returns_same|].
    js_run. do 2 eexists. split; [reflexivity|].
    unfold uniqueEmails, emails, collection. rewrite Hu. cbn [users withUsers].
    rewrite map_app. cbn [map AuthService.newUser User.email].
    intros [Hnd Hlow]. split.
    + apply NoDup_snoc; [exact Hnd|]. apply existsb_email_false. exact Hex.
    + apply Forall_app. split; [exact Hlow|].
      constructor; [apply toLowerCase_idempotent|constructor].
  - returns_same.
Qed.

Lemma login_returns (env : Ambient) (email password : string) (remember : bool)
  (w : World) :
  exists r w', AuthService.login env email password remember w = (Returned r, w')
               /\ users w' = users w.
Proof.
  unfold AuthService.login, AuthService.loginBody.
  destruct (negb _ || negb _); [do 2 eexists; split; reflexivity|].
  destruct (users w) as [|us|] eqn:Hu; js_run;
    try (do 2 eexists; split; [reflexivity|]; congruence).
  destruct (find _ us) as [u|]; [|do 2 eexists; split; [reflexivity|]; congruence].
  destruct (negb (String.eqb _ _)); do 2 eexists; (split; [reflexivity|]); cbn; congruence.
Qed.

Lemma updateProfile_returns (env : Ambient) (d : ProfileData.t) (w : World) :
  exists r w', AuthService.updateProfile env d w = (Returned r, w')
               /\ (uniqueEmails w -> uniqueEmails w').
Proof.
  destruct (getCurrentUser_cases w) as [[e H]|[[w' [H Hu]]|[us [s [u [Hu [Hs [Hf _]]]]]]]].
  - rewrite (updateProfile_caught _ _ env d e H). returns_same.
  - rewrite (updateProfile_anonymous _ _ env d H).
    do 2 eexists. split; [reflexivity|]. apply uniqueEmails_same_users. exact Hu.
  - destruct (updateProfile_cases w us s u Hu Hs Hf env d) as [i [_ [_ ->]]].
    do 2 eexists. split; [reflexivity|].
    apply uniqueEmails_same_emails with (us := us).
    + unfold collection. rewrite Hu. reflexivity.
    + apply map_alterAt. apply applyProfile_email.
Qed.

Lemma changePassword_returns (env : Ambient) (c n : string) (w : World) :
  exists r w', AuthService.changePassword env c n w = (Returned r, w')
               /\ (uniqueEmails w -> uniqueEmails w').
Proof.
  destruct (getCurrentUser_cases w) as [[e H]|[[w' [H Hu]]|[us [s [u [Hu [Hs [Hf _]]]]]]]].
  - rewrite (changePassword_caught _ _ env c n e H). returns_same.
  - rewrite (changePassword_anonymous _ _ env c n H).
    do 2 eexists. split; [reflexivity|]. apply uniqueEmails_same_users. exact Hu.
  - rewrite (changePassword_cases w us s u Hu Hs Hf).
    destruct (negb (String.eqb _ (User.passwordHash u))); [returns_same|].
    destruct (negb (AuthService.isValid _)); [returns_same|].
    do 2 eexists. split; [reflexivity|].
    apply uniqueEmails_same_emails with (us := us).
    + unfold collection. rewrite Hu. reflexivity.
    + apply map_mutateFound. intro x. reflexivity.
Qed.

Lemma deleteAccount_returns (p : string) (w : World) :
  exists r w', AuthService.deleteAccount p w = (Returned r, w')
               /\ (uniqueEmails w -> uniqueEmails w').
Proof.
  destruct (getCurrentUser_cases w) as [[e H]|[[w' [H Hu]]|[us [s [u [Hu [Hs [Hf _]]]]]]]].
  - rewrite (deleteAccount_caught _ _ p e H). returns_same.
  - rewrite (deleteAccount_anonymous _ _ p H).
    do 2 eexists. split; [reflexivity|]. apply uniqueEmails_same_users. exact Hu.
  - rewrite (deleteAccount_cases w us s u Hu Hs Hf).
    destruct (negb (String.eqb _ (User.passwordHash u))); [returns_same|].
    do 2 eexists. split; [reflexivity|].
    unfold uniqueEmails, emails, collection. rewrite logout_users, Hu.
    cbn [users withUsers]. intros [Hnd Hlow]. split.
    + apply NoDup_map_filter. exact Hnd.
    + apply Forall_map_filter. exact Hlow.
Qed.

Lemma resetPassword_returns (env : Ambient) (email : string) (w : World) :
  exists r w', AuthService.resetPassword env email w = (Returned r, w')
               /\ (uniqueEmails w -> uniqueEmails w').
Proof.
  unfold AuthService.resetPassword, AuthService.resetPasswordBody.
  destruct (negb (AuthService.validateEmail _)); [returns_same|].
  destruct (users w) as [|us|] eqn:Hu; js_run; try returns_same.
  destruct (find _ us) as [u|]; [|returns_same].
  destruct (findIndex _ us) as [i|]; [|returns_same].
  do 2 eexists. split; [reflexivity|].
  apply uniqueEmails_same_emails with (us := us).
  - unfold collection. rewrite Hu. reflexivity.
  - apply map_alterAt. intro x. reflexivity.
Qed.

Lemma getCurrentUser_users (w : World) :
  users (snd (AuthService.getCurrentUser w)) = users w.
Proof.
  destruct (getCurrentUser_cases w) as [[e H]|[[w' [H Hu]]|[us [s [u [_ [_ [_ H]]]]]]]];
    rewrite H; cbn; congruence.
Qed.

(** What every call leaves of the invariant, and what the guarded ones
    hand back. *)
Lemma run_cases (c : Call.t) (w : World) :
  (uniqueEmails w -> uniqueEmails (snd (Call.run c w)))
  /\ (Call.guarded c = true ->
      exists r w', Call.run c w = (Returned (Call.VResult r), w')).
Proof.
  destruct c; cbn [Call.run Call.guarded].
  - destruct (register_returns env userData w) as [r [w' [H Hi]]].
    unfold bind, ret. rewrite H. split; [exact Hi|]. intros _. eauto.
  - destruct (login_returns env email password remember w) as [r [w' [H Hi]]].
    unfold bind, ret. rewrite H. split; [|intros _; eauto].
    apply uniqueEmails_same_users. exact Hi.
  - split; [|discriminate].
    apply uniqueEmails_same_users. unfold bind, ret.
    pose proof (getCurrentUser_users w) as H.
    destruct (AuthService.getCurrentUser w) as [[o|e] w']; exact H.
  - split; [|discriminate].
    apply uniqueEmails_same_users. unfold AuthService.isLoggedIn, bind, ret.
    pose proof (getCurrentUser_users w) as H.
    destruct (AuthService.getCurrentUser w) as [[o|e] w']; exact H.
  - destruct (updateProfile_returns env profileData w) as [r [w' [H Hi]]].
    unfold bind, ret. rewrite H. split; [exact Hi|]. intros _. eauto.
  - destruct (changePassword_returns env currentPassword newPassword w) as [r [w' [H Hi]]].
    unfold bind, ret. rewrite H. split; [exact Hi|]. intros _. eauto.
  - destruct (deleteAccount_returns password w) as [r [w' [H Hi]]].
    unfold bind, ret. rewrite H. split; [exact Hi|]. intros _. eauto.
  - destruct (resetPassword_returns env email w) as [r [w' [H Hi]]].
    unfold bind, ret. rewrite H. split; [exact Hi|]. intros _. eauto.
  - split; [|discriminate].
    apply uniqueEmails_same_users. unfold bind, ret.
    rewrite logout_eq. cbn. apply logout_users.
Qed.

(** The two parts of [register], run with nothing in between, are the
    call [AuthService.register]. *)
Lemma registerAlone_is_register (env : Ambient) (d : UserData.t) (w : World) :
  Await.registerAlone env d w = AuthService.register env d w.
Proof.
  unfold Await.registerAlone, Await.registerUntilAwait, Await.resume,
    Await.registerAfterAwait, AuthService.register, AuthService.registerBody.
  destruct (negb _ || negb _ || negb _); [reflexivity|].
  destruct (negb (AuthService.validateEmail _)); [reflexivity|].
  destruct (negb (AuthService.isValid _)); [reflexivity|].
  destruct (users w) as [|us|] eqn:Hu; js_run.
  - cbn [existsb]. js_run. reflexivity.
  - destruct (existsb _ us); js_run; reflexivity.
  - reflexivity.
Qed.

(** C4 (as amended).  The emails of the stored collection stay pairwise
    distinct and in lower case across every call of the Auth component
    that runs to its end before another call starts. *)
Theorem email_uniqueness_invariant :
  forall (c : Call.t) (w : World),
    uniqueEmails w -> uniqueEmails (snd (Call.run c w)).
Proof.
  intros c w. exact (proj1 (run_cases c w)).
Qed.

Lemma uniqueEmails_registered : uniqueEmails Sample.registered.
Proof.
  unfold uniqueEmails. change (emails Sample.registered)
    with (map User.email (collection Sample.registered)).
  assert (map User.email (collection Sample.registered)
          = ["alice@example.com"; "bob@example.com"]) as ->
    by (vm_compute; reflexivity).
  split.
  - repeat constructor; cbn; intuition discriminate.
  - repeat constructor.
Qed.

Lemma email_uniqueness_invariant_witness :
  uniqueEmails Sample.registered
  /\ uniqueEmails (snd (Call.run (Call.Register Sample.env2 Sample.carol) Sample.registered))
  /\ uniqueEmails (snd (Call.run (Call.Register Sample.env2 Sample.alice) Sample.registered)).
Proof.
  split; [exact uniqueEmails_registered|]. split.
  - apply (email_uniqueness_invariant (Call.Register Sample.env2 Sample.carol)).
    exact uniqueEmails_registered.
  - apply (email_uniqueness_invariant (Call.Register Sample.env2 Sample.alice)).
    exact uniqueEmails_registered.
Defined.

(** C4, the claim as first stated, fails for two calls in flight: Dave
    submits the signup form twice, each [register] passes [userExists]
    before the other has saved, and both append a record with his email. *)
Lemma register_in_flight_twice_counterexample :
  uniqueEmails Sample.registered
  /\ fst (Await.registerTogether Sample.env1 Scenario.dave Sample.env2 Scenario.dave
            Sample.registered)
     = Returned (Result.ok "Account created successfully!",
                 Result.ok "Account created successfully!")
  /\ emails (snd (Await.registerTogether Sample.env1 Scenario.dave Sample.env2
                    Scenario.dave Sample.registered))
     = ["alice@example.com"; "bob@example.com"; "dave@example.com"; "dave@example.com"]
  /\ ~ uniqueEmails (snd (Await.registerTogether Sample.env1 Scenario.dave Sample.env2
                            Scenario.dave Sample.registered)).
Proof.
  assert (emails (snd (Await.registerTogether Sample.env1 Scenario.dave Sample.env2
                         Scenario.dave Sample.registered))
          = ["alice@example.com"; "bob@example.com"; "dave@example.com";
             "dave@example.com"]) as He by (vm_compute; reflexivity).
  split; [exact uniqueEmails_registered|].
  split; [vm_compute; reflexivity|]. split; [exact He|].
  unfold uniqueEmails. rewrite He. intros [Hnd _].
  inversion Hnd as [|? ? _ H1]; subst. inversion H1 as [|? ? _ H2]; subst.
  inversion H2 as [|? ? H3 _]; subst. apply H3. left. reflexivity.
Qed.

Lemma tryCatch_caught (m : Js Result.t) (msg : string) (w w' : World) (e : Exception) :
  (r <- m ;; ret (Call.VResult r)) w = (Thrown e, w') ->
  (r <- tryCatch m (fun _ => ret (Result.failure msg)) ;; ret (Call.VResult r)) w
  = (Returned (Call.VResult (Result.failure msg)), w').
Proof.
  unfold bind, tryCatch, ret. destruct (m w) as [[r|e'] w1]; [discriminate|].
  intros [= -> ->]. reflexivity.
Qed.

(** C8 (as amended).  Each of the six asynchronous operations (register,
    login, updateProfile, changePassword, deleteAccount, resetPassword)
    returns a result object, with its success flag and message, and never
    throws: when the code inside its [try] throws, the caller receives the
    failure result with the generic message of that operation. *)
Theorem guarded_operations_return_results :
  forall (c : Call.t) (w : World),
    Call.guarded c = true ->
    (exists r w', Call.run c w = (Returned (Call.VResult r), w'))
    /\ (forall e w', Call.body c w = (Thrown e, w') ->
          Call.run c w
          = (Returned (Call.VResult (Result.failure (Call.genericMessage c))), w')).
Proof.
  intros c w Hg. split.
  - exact (proj2 (run_cases c w) Hg).
  - intros e w'. destruct c; try discriminate Hg;
      cbn [Call.body Call.run Call.genericMessage]; apply tryCatch_caught.
Qed.

Lemma guarded_operations_return_results_witness :
  (exists r w', Call.run (Call.DeleteAccount "Passw0rdA") Sample.corrupted
                = (Returned (Call.VResult r), w'))
  /\ Call.run (Call.DeleteAccount "Passw0rdA") Sample.corrupted
     = (Returned (Call.VResult (Result.failure "Failed to delete account")),
        Sample.corrupted).
Proof.
  destruct (guarded_operations_return_results (Call.DeleteAccount "Passw0rdA")
              Sample.corrupted eq_refl) as [H1 H2].
  split; [exact H1|].
  apply (H2 SyntaxError). vm_compute. reflexivity.
Defined.

(** C8, the claim as first stated, fails for the three synchronous
    operations: [getCurrentUser] lets the exception of an unreadable users
    item reach its caller; [isLoggedIn] hands back a boolean and [logout]
    nothing, not a result object. *)
Lemma unguarded_operations_counterexample :
  Call.run Call.GetCurrentUser Sample.corrupted = (Thrown SyntaxError, Sample.corrupted)
  /\ fst (Call.run Call.IsLoggedIn Sample.loggedIn) = Returned (Call.VBool true)
  /\ fst (Call.run Call.Logout Sample.loggedIn) = Returned Call.VUndefined
  /\ fst (Call.run Call.GetCurrentUser Sample.loggedIn)
     = Returned (Call.VUser (Some (AuthService.currentUser Sample.aliceRecord))).
Proof. vm_compute. auto. Qed.

(** ** deleteAccount *)

Lemma filter_keeps_all {A} (p : A -> bool) (l : list A) :
  (forall x, In x l -> p x = true) -> filter p l = l.
Proof.
  induction l as [|x r IH]; cbn; intro H; [reflexivity|].
  rewrite (H x (or_introl eq_refl)). rewrite IH; [reflexivity|].
  intros y Hy. apply H. right. exact Hy.
Qed.

Lemma filter_removes_one (us : list User.t) (u : User.t) :
  NoDup (map User.id us) ->
  find (fun x => String.eqb (User.id x) (User.id u)) us = Some u ->
  exists l1 l2,
    us = (l1 ++ u :: l2)%list
    /\ filter (fun x => negb (String.eqb (User.id x) (User.id u))) us = (l1 ++ l2)%list.
Proof.
  induction us as [|x r IH]; cbn; intros Hnd Hf; [discriminate|].
  inversion Hnd as [|? ? Hin Hnd']; subst.
  destruct (String.eqb (User.id x) (User.id u)) eqn:Hx; cbn.
  - injection Hf as ->. exists [], r. split; [reflexivity|]. cbn.
    apply filter_keeps_all. intros y Hy.
    destruct (String.eqb (User.id y) (User.id u)) eqn:Hy'; [|reflexivity].
    exfalso. apply Hin. apply String.eqb_eq in Hy'. rewrite <- Hy'.
    apply in_map. exact Hy.
  - destruct (IH Hnd' Hf) as [l1 [l2 [Hr Hfil]]].
    exists (x :: l1), l2. cbn. rewrite Hfil. split; [rewrite Hr at 1|]; reflexivity.
Qed.

(** What [deleteAccount] removes, in terms of the record [u] that the
    lookup by the id of the session finds: with the password of [u] the call
    succeeds, removes the session, and leaves in the collection the records
    whose [id] is not the [id] of [u], unchanged and in their order.  When
    the stored ids are pairwise distinct this removes [u] and nothing
    else. *)
Lemma deleteAccount_removes_records_of_id :
  forall (w : World) (us : list User.t) (s : Session.t) (u : User.t) (password : string),
    users w = Holds us ->
    session w = Holds s ->
    find (fun x => String.eqb (User.id x) (Session.userId s)) us = Some u ->
    AuthService.hashPassword password (User.salt u) = User.passwordHash u ->
    exists w',
      AuthService.deleteAccount password w
      = (Returned (Result.ok "Account deleted successfully"), w')
      /\ session w' = Absent
      /\ users w' = Holds (filter (fun x => negb (String.eqb (User.id x) (User.id u))) us)
      /\ (NoDup (map User.id us) ->
          exists l1 l2, us = (l1 ++ u :: l2)%list /\ users w' = Holds (l1 ++ l2)%list).
Proof.
  intros w us s u password Hu Hs Hf Hpw.
  rewrite (deleteAccount_cases w us s u Hu Hs Hf).
  apply String.eqb_eq in Hpw. rewrite Hpw. cbn [negb].
  eexists. split; [reflexivity|].
  split; [apply logout_session|].
  split; [rewrite logout_users; reflexivity|].
  intro Hnd.
  destruct (filter_removes_one us u Hnd (owner_by_id us s u Hf)) as [l1 [l2 [H1 H2]]].
  exists l1, l2. split; [exact H1|]. rewrite logout_users. cbn. rewrite H2. reflexivity.
Qed.

Example deleteAccount_removes_records_of_id_sample :
  exists w',
    AuthService.deleteAccount "Passw0rdA" Sample.loggedIn
    = (Returned (Result.ok "Account deleted successfully"), w')
    /\ session w' = Absent
    /\ users w' = Holds [Sample.bobRecord]
    /\ exists l1 l2,
         collection Sample.loggedIn = (l1 ++ Sample.aliceRecord :: l2)%list
         /\ users w' = Holds (l1 ++ l2)%list.
Proof.
  destruct (deleteAccount_removes_records_of_id Sample.loggedIn
              (collection Sample.loggedIn)
              (AuthService.newSession Sample.env1 Sample.aliceRecord false)
              Sample.aliceRecord "Passw0rdA"
              ltac:(vm_compute; reflexivity) ltac:(vm_compute; reflexivity)
              ltac:(vm_compute; reflexivity) ltac:(vm_compute; reflexivity))
    as [w' [H1 [H2 [H3 H4]]]].
  exists w'. split; [exact H1|]. split; [exact H2|].
  split; [rewrite H3; vm_compute; reflexivity|].
  apply H4.
  assert (map User.id (collection Sample.loggedIn)
          = ["1730000000000"; "1730000005000"]) as -> by (vm_compute; reflexivity).
  repeat constructor; cbn; intuition discriminate.
Defined.

(** C5, where the code departs from it.  [register] takes the id of a
    record from the clock, in milliseconds, and nothing keeps ids apart:
    Alice and Bob registered within one millisecond and carry one id.  With
    Alice logged in, [deleteAccount] with her password removes the record
    of Bob as well.  With Bob logged in, his own password is refused, and
    the password of Alice deletes both records. *)
Theorem deleteAccount_shared_id_removes_both :
  Sample.twins
  = Sample.after (AuthService.login Sample.env1 "alice@example.com" "Passw0rdA" false)
      (Sample.after (AuthService.register Sample.env0b Sample.bob)
         (Sample.after (AuthService.register Sample.env0 Sample.alice) Sample.fresh))
  /\ map User.email (collection Sample.twins) = ["alice@example.com"; "bob@example.com"]
  /\ map User.id (collection Sample.twins) = ["1730000000000"; "1730000000000"]
  /\ fst (AuthService.deleteAccount "Passw0rdA" Sample.twins)
     = Returned (Result.ok "Account deleted successfully")
  /\ users (snd (AuthService.deleteAccount "Passw0rdA" Sample.twins)) = Holds []
  /\ Scenario.bobAmongTwins
     = Sample.after (AuthService.login Sample.env1 "bob@example.com" "Secret99x" false)
         Sample.twins
  /\ (exists s, session Scenario.bobAmongTwins = Holds s
                /\ Session.email s = "bob@example.com")
  /\ AuthService.deleteAccount "Secret99x" Scenario.bobAmongTwins
     = (Returned (Result.failure "Password is incorrect"), Scenario.bobAmongTwins)
  /\ fst (AuthService.deleteAccount "Passw0rdA" Scenario.bobAmongTwins)
     = Returned (Result.ok "Account deleted successfully")
  /\ users (snd (AuthService.deleteAccount "Passw0rdA" Scenario.bobAmongTwins)) = Holds [].
Proof.
  split; [reflexivity|].
  split; [vm_compute; reflexivity|].
  split; [vm_compute; reflexivity|].
  split; [vm_compute; reflexivity|].
  split; [vm_compute; reflexivity|].
  split; [vm_compute; reflexivity|].
  split; [eexists; split; vm_compute; reflexivity|].
  split; [vm_compute; reflexivity|].
  split; vm_compute; reflexivity.
Qed.

(** ** Sessions *)

Lemma isLoggedIn_without_session (w : World) :
  session w = Absent -> AuthService.isLoggedIn w = (Returned false, w).
Proof.
  intro H. unfold AuthService.isLoggedIn, AuthService.getCurrentUser.
  js_run. reflexivity.
Qed.

(** C7.  On page load [validateSession] removes a stored session that has
    [remember] unset and is older than the timeout of 24 hours, after
    which nobody is logged in; a session with [remember] set stays, with
    its last activity refreshed, whatever its age. *)
Theorem validateSession_expires_unremembered :
  forall (env : Ambient) (w : World) (s : Session.t),
    session w = Holds s ->
    AuthService.sessionTimeout = 86400000%Z
    /\ (Session.remember s = false ->
        (dateNow env - Session.loginTime s > AuthService.sessionTimeout)%Z ->
        fst (AuthService.validateSession env w) = Returned tt
        /\ session (snd (AuthService.validateSession env w)) = Absent
        /\ fst (AuthService.isLoggedIn (snd (AuthService.validateSession env w)))
           = Returned false)
    /\ (Session.remember s = true ->
        AuthService.validateSession env w
        = (Returned tt, withSession (Holds (AuthService.touch (dateNowAgain env) s)) w)).
Proof.
  intros env w s Hs. split; [reflexivity|]. split.
  - intros Hr Hage. unfold AuthService.validateSession. js_run.
    rewrite Hr. cbn [negb].
    apply Z.gtb_gt in Hage. rewrite Hage.
    split; [apply logout_returns|]. split; [apply logout_session|].
    rewrite isLoggedIn_without_session; [reflexivity|apply logout_session].
  - intro Hr. unfold AuthService.validateSession. js_run.
    rewrite Hr. reflexivity.
Qed.

Lemma validateSession_expires_unremembered_witness :
  (session (snd (AuthService.validateSession Sample.env2 Sample.loggedIn)) = Absent
   /\ fst (AuthService.isLoggedIn
             (snd (AuthService.validateSession Sample.env2 Sample.loggedIn)))
      = Returned false)
  /\ AuthService.validateSession Sample.env2 Sample.remembered
     = (Returned tt,
        withSession
          (Holds (AuthService.touch (dateNowAgain Sample.env2)
                    (AuthService.newSession Sample.env1 Sample.aliceRecord true)))
          Sample.remembered).
Proof.
  split.
  - destruct (validateSession_expires_unremembered Sample.env2 Sample.loggedIn
                (AuthService.newSession Sample.env1 Sample.aliceRecord false)
                ltac:(vm_compute; reflexivity)) as [_ [H _]].
    destruct H as [_ H]; [reflexivity | vm_compute; reflexivity | exact H].
  - destruct (validateSession_expires_unremembered Sample.env2 Sample.remembered
                (AuthService.newSession Sample.env1 Sample.aliceRecord true)
                ltac:(vm_compute; reflexivity)) as [_ [_ H]].
    apply H. reflexivity.
Defined.

(** C9.  When the stored session names an id that no record of the stored
    collection carries, [getCurrentUser] removes the session and answers
    null, so [isLoggedIn] answers false. *)
Theorem getCurrentUser_discards_dangling_session :
  forall (w : World) (s : Session.t) (us : list User.t),
    session w = Holds s ->
    AuthService.getUsers w = (Returned us, w) ->
    find (fun x => String.eqb (User.id x) (Session.userId s)) us = None ->
    exists w',
      AuthService.getCurrentUser w = (Returned None, w')
      /\ session w' = Absent
      /\ users w' = users w
      /\ fst (AuthService.isLoggedIn w) = Returned false.
Proof.
  intros w s us Hs Hg Hf.
  assert (AuthService.getCurrentUser w = (Returned None, snd (AuthService.logout w))) as Hc.
  { unfold AuthService.getCurrentUser. unfold bind at 1.
    unfold AuthService.getSession at 1. rewrite Hs.
    unfold bind at 1. rewrite Hg. rewrite Hf.
    unfold bind, ret. rewrite logout_eq. reflexivity. }
  exists (snd (AuthService.logout w)).
  split; [exact Hc|]. split; [apply logout_session|]. split; [apply logout_users|].
  unfold AuthService.isLoggedIn, bind, ret. rewrite Hc. reflexivity.
Qed.

Lemma getCurrentUser_discards_dangling_session_witness :
  exists w',
    AuthService.getCurrentUser Sample.dangling = (Returned None, w')
    /\ session w' = Absent
    /\ users w' = users Sample.dangling
    /\ fst (AuthService.isLoggedIn Sample.dangling) = Returned false.
Proof.
  apply (getCurrentUser_discards_dangling_session Sample.dangling
           (AuthService.newSession Sample.env1 Sample.aliceRecord false)
           [Sample.bobRecord]).
  - vm_compute. reflexivity.
  - vm_compute. reflexivity.
  - vm_compute. reflexivity.
Defined.

(** ** Uploads *)

Lemma nth_error_alterAt_same {A} (f : A -> A) (l : list A) (i : nat) (x : A) :
  nth_error l i = Some x -> nth_error (alterAt i f l) i = Some (f x).
Proof.
  revert i. induction l as [|y r IH]; intros [|i]; cbn; try discriminate.
  - intros [= ->]. reflexivity.
  - apply IH.
Qed.

Lemma nth_error_alterAt_other {A} (f : A -> A) (l : list A) (i j : nat) :
  j <> i -> nth_error (alterAt i f l) j = nth_error l j.
Proof.
  revert i j. induction l as [|y r IH]; intros [|i] [|j] H; cbn; try reflexivity.
  - congruence.
  - apply IH. congruence.
Qed.

Section UploadByOwner.
Variables (env : Ambient) (w : World) (us : list User.t) (s : Session.t) (u : User.t).
Variables (form : Upload.Form) (f : Upload.File).
Hypothesis stored : users w = Holds us.
Hypothesis signed : session w = Holds s.
Hypothesis owner :
  find (fun x => String.eqb (User.id x) (Session.userId s)) us = Some u.
Hypothesis chosen : Upload.file form = Some f.
Hypothesis titled : Upload.title form <> "".
Hypothesis subjected : Upload.subject form <> "".
Hypothesis termed : Upload.semester form <> "".
Hypothesis typed : Upload.noteType form <> "".

(** The submission passes the check of the required fields and runs to
    the end of the [try] block. *)
Lemma handleUpload_complete :
  exists i,
    findIndex (fun x => String.eqb (User.id x) (Session.userId s)) us = Some i
    /\ nth_error us i = Some u
    /\ Upload.handleUpload env form w
       = (Returned tt,
          withUi PreviewCleared
            (withUi FormReset
               (withUi (SuccessBanner (Upload.title form))
                  (withUsers
                     (Holds (alterAt i
                               (fun x => AuthService.setNotes
                                           (Upload.pushNote (Upload.noteType form)
                                              (Upload.title form) (Upload.notesOf x)) x)
                               us))
                     w)))).
Proof.
  destruct (find_findIndex _ _ _ owner) as [i [Hi Hn]].
  exists i. split; [exact Hi|]. split; [exact Hn|].
  unfold Upload.handleUpload. unfold bind at 1.
  rewrite (getCurrentUser_logged_in w us s u stored signed owner).
  rewrite chosen.
  rewrite (truthy_true _ titled), (truthy_true _ subjected),
    (truthy_true _ termed), (truthy_true _ typed).
  cbn [negb orb].
  unfold tryCatch, Upload.addNoteToUser. unfold bind at 1. unfold bind at 1.
  rewrite (getCurrentUser_logged_in w us s u stored signed owner).
  js_run. cbn [CurrentUser.id AuthService.currentUser].
  rewrite <- (owner_id us s u owner) in Hi. rewrite Hi.
  reflexivity.
Qed.
End UploadByOwner.

(** Where a complete submission lands, in terms of the record [u] that the
    lookup by the id of the session finds: the handler stores a collection
    that differs from the old one only at the place of [u]; there the title
    is appended at the end of the lectures when the type is lecture, with
    the past-year questions unchanged, and at the end of the past-year
    questions when the type is pyq, with the lectures unchanged. *)
Lemma upload_appends_title_to_matching_list :
  forall (env : Ambient) (w : World) (us : list User.t) (s : Session.t) (u : User.t)
         (form : Upload.Form) (f : Upload.File),
    users w = Holds us ->
    session w = Holds s ->
    find (fun x => String.eqb (User.id x) (Session.userId s)) us = Some u ->
    Upload.file form = Some f ->
    Upload.title form <> "" ->
    Upload.subject form <> "" ->
    Upload.semester form <> "" ->
    Upload.noteType form <> "" ->
    exists i us' u',
      findIndex (fun x => String.eqb (User.id x) (Session.userId s)) us = Some i
      /\ nth_error us i = Some u
      /\ users (snd (Upload.handleUpload env form w)) = Holds us'
      /\ nth_error us' i = Some u'
      /\ (forall j, j <> i -> nth_error us' j = nth_error us j)
      /\ (Upload.noteType form = "lecture" ->
          Upload.lecturesOf u' = (Upload.lecturesOf u ++ [Upload.title form])%list
          /\ Upload.pyqsOf u' = Upload.pyqsOf u)
      /\ (Upload.noteType form = "pyq" ->
          Upload.pyqsOf u' = (Upload.pyqsOf u ++ [Upload.title form])%list
          /\ Upload.lecturesOf u' = Upload.lecturesOf u).
Proof.
  intros env w us s u form f Hu Hs Hf Hfile Ht Hsub Hsem Hty.
  destruct (handleUpload_complete env w us s u form f Hu Hs Hf Hfile Ht Hsub Hsem Hty)
    as [i [Hi [Hn Hrun]]].
  exists i. do 2 eexists.
  split; [exact Hi|]. split; [exact Hn|].
  split; [rewrite Hrun; reflexivity|].
  split; [apply nth_error_alterAt_same; exact Hn|].
  split; [intros j Hj; apply nth_error_alterAt_other; exact Hj|].
  split; intros ->; split; reflexivity.
Qed.

Example upload_appends_title_to_matching_list_sample :
  (exists i us' u',
     findIndex (fun x => String.eqb (User.id x) "1730000000000")
               (collection Sample.loggedIn) = Some i
     /\ users (snd (Upload.handleUpload Sample.env2 Sample.lectureForm Sample.loggedIn))
        = Holds us'
     /\ nth_error us' i = Some u'
     /\ Upload.lecturesOf u' = ["Graphs, week 1"]
     /\ Upload.pyqsOf u' = [])
  /\
  (exists i us' u',
     findIndex (fun x => String.eqb (User.id x) "1730000000000")
               (collection Sample.loggedIn) = Some i
     /\ users (snd (Upload.handleUpload Sample.env2 Sample.pyqForm Sample.loggedIn))
        = Holds us'
     /\ nth_error us' i = Some u'
     /\ Upload.pyqsOf u' = ["Endsem 2023"]
     /\ Upload.lecturesOf u' = []).
Proof.
  split.
  - destruct (upload_appends_title_to_matching_list Sample.env2 Sample.loggedIn
                (collection Sample.loggedIn)
                (AuthService.newSession Sample.env1 Sample.aliceRecord false)
                Sample.aliceRecord Sample.lectureForm
                {| Upload.fileName := "week1.pdf"; Upload.fileSize := 52310 |}
                ltac:(vm_compute; reflexivity) ltac:(vm_compute; reflexivity)
                ltac:(vm_compute; reflexivity) eq_refl
                ltac:(discriminate) ltac:(discriminate)
                ltac:(discriminate) ltac:(discriminate))
      as [i [us' [u' [Hi [_ [Hus [Hn [_ [Hl _]]]]]]]]].
    exists i, us', u'. split; [exact Hi|]. split; [exact Hus|]. split; [exact Hn|].
    exact (Hl eq_refl).
  - destruct (upload_appends_title_to_matching_list Sample.env2 Sample.loggedIn
                (collection Sample.loggedIn)
                (AuthService.newSession Sample.env1 Sample.aliceRecord false)
                Sample.aliceRecord Sample.pyqForm
                {| Upload.fileName := "2023.pdf"; Upload.fileSize := 9100 |}
                ltac:(vm_compute; reflexivity) ltac:(vm_compute; reflexivity)
                ltac:(vm_compute; reflexivity) eq_refl
                ltac:(discriminate) ltac:(discriminate)
                ltac:(discriminate) ltac:(discriminate))
      as [i [us' [u' [Hi [_ [Hus [Hn [_ [_ Hp]]]]]]]]].
    exists i, us', u'. split; [exact Hi|]. split; [exact Hus|]. split; [exact Hn|].
    exact (Hp eq_refl).
Defined.

(** C6, where the code departs from it.  Alice and Bob carry one id, the
    millisecond in which both registered; Alice logged in and then Bob
    did.  He submits a lecture: the page reports success, the title is
    appended to the lectures of Alice, and the lists of Bob are what they
    were. *)
Theorem upload_shared_id_lands_elsewhere :
  Scenario.bobAmongTwins
  = Sample.after (AuthService.login Sample.env1 "bob@example.com" "Secret99x" false)
      (Sample.after (AuthService.login Sample.env1 "alice@example.com" "Passw0rdA" false)
         (Sample.after (AuthService.register Sample.env0b Sample.bob)
            (Sample.after (AuthService.register Sample.env0 Sample.alice) Sample.fresh)))
  /\ map User.email (collection Scenario.bobAmongTwins)
     = ["alice@example.com"; "bob@example.com"]
  /\ map User.id (collection Scenario.bobAmongTwins)
     = ["1730000000000"; "1730000000000"]
  /\ (exists s, session Scenario.bobAmongTwins = Holds s
                /\ Session.email s = "bob@example.com")
  /\ map Upload.lecturesOf (collection Scenario.bobAmongTwins) = [[]; []]
  /\ fst (Upload.handleUpload Sample.env2 Sample.lectureForm Scenario.bobAmongTwins)
     = Returned tt
  /\ page (snd (Upload.handleUpload Sample.env2 Sample.lectureForm Scenario.bobAmongTwins))
     = (page Scenario.bobAmongTwins
        ++ [SuccessBanner "Graphs, week 1"; FormReset; PreviewCleared])%list
  /\ map Upload.lecturesOf
       (collection (snd (Upload.handleUpload Sample.env2 Sample.lectureForm
                           Scenario.bobAmongTwins)))
     = [["Graphs, week 1"]; []]
  /\ map Upload.pyqsOf
       (collection (snd (Upload.handleUpload Sample.env2 Sample.lectureForm
                           Scenario.bobAmongTwins)))
     = [[]; []].
Proof.
  split; [vm_compute; reflexivity|].
  split; [vm_compute; reflexivity|].
  split; [vm_compute; reflexivity|].
  split; [eexists; split; vm_compute; reflexivity|].
  split; [vm_compute; reflexivity|].
  split; [vm_compute; reflexivity|].
  split; [vm_compute; reflexivity|].
  split; vm_compute; reflexivity.
Qed.

(** C10 (as amended).  For a logged-in user and a submission with a file, a
    title, a subject and a semester, whose note type is present but is
    neither lecture nor pyq, the handler passes the check of the required
    fields and runs the success path (the success banner, the reset of the
    form and of the preview, no alert), and the lectures and the past-year
    questions of every stored record are what they were: the note is
    dropped. *)
Theorem upload_of_other_type_is_dropped :
  forall (env : Ambient) (w : World) (us : list User.t) (s : Session.t) (u : User.t)
         (form : Upload.Form) (f : Upload.File),
    users w = Holds us ->
    session w = Holds s ->
    find (fun x => String.eqb (User.id x) (Session.userId s)) us = Some u ->
    Upload.file form = Some f ->
    Upload.title form <> "" ->
    Upload.subject form <> "" ->
    Upload.semester form <> "" ->
    Upload.noteType form <> "" ->
    Upload.noteType form <> "lecture" ->
    Upload.noteType form <> "pyq" ->
    exists us',
      fst (Upload.handleUpload env form w) = Returned tt
      /\ page (snd (Upload.handleUpload env form w))
         = (page w ++ [SuccessBanner (Upload.title form); FormReset; PreviewCleared])%list
      /\ users (snd (Upload.handleUpload env form w)) = Holds us'
      /\ map Upload.lecturesOf us' = map Upload.lecturesOf us
      /\ map Upload.pyqsOf us' = map Upload.pyqsOf us
      /\ map User.id us' = map User.id us.
Proof.
  intros env w us s u form f Hu Hs Hf Hfile Ht Hsub Hsem Hty Hlec Hpyq.
  destruct (handleUpload_complete env w us s u form f Hu Hs Hf Hfile Ht Hsub Hsem Hty)
    as [i [_ [_ Hrun]]].
  rewrite Hrun. eexists.
  split; [reflexivity|].
  split; [cbn; repeat rewrite <- app_assoc; reflexivity|].
  split; [reflexivity|].
  unfold Upload.pushNote.
  apply String.eqb_neq in Hlec, Hpyq. rewrite Hlec, Hpyq.
  split; [|split]; apply map_alterAt; intro x; reflexivity.
Qed.

Lemma upload_of_other_type_is_dropped_witness :
  exists us',
    fst (Upload.handleUpload Sample.env2 Sample.assignmentForm Sample.loggedIn) = Returned tt
    /\ page (snd (Upload.handleUpload Sample.env2 Sample.assignmentForm Sample.loggedIn))
       = (page Sample.loggedIn ++ [SuccessBanner "Assignment 1"; FormReset; PreviewCleared])%list
    /\ users (snd (Upload.handleUpload Sample.env2 Sample.assignmentForm Sample.loggedIn))
       = Holds us'
    /\ map Upload.lecturesOf us' = map Upload.lecturesOf (collection Sample.loggedIn)
    /\ map Upload.pyqsOf us' = map Upload.pyqsOf (collection Sample.loggedIn)
    /\ map User.id us' = map User.id (collection Sample.loggedIn).
Proof.
  apply (upload_of_other_type_is_dropped Sample.env2 Sample.loggedIn
           (collection Sample.loggedIn)
           (AuthService.newSession Sample.env1 Sample.aliceRecord false)
           Sample.aliceRecord Sample.assignmentForm
           {| Upload.fileName := "a1.pdf"; Upload.fileSize := 700 |}).
  - vm_compute. reflexivity.
  - vm_compute. reflexivity.
  - vm_compute. reflexivity.
  - reflexivity.
  - discriminate.
  - discriminate.
  - discriminate.
  - discriminate.
  - discriminate.
  - discriminate.
Defined.

(** C10, the claim as first stated, fails when another required field is
    missing: Alice is logged in and submits an assignment with no title;
    the handler stops at the check of the required fields with an alert,
    and the success path does not run. *)
Lemma upload_untitled_other_type_counterexample :
  Upload.noteType Scenario.untitledForm = "assignment"
  /\ Upload.title Scenario.untitledForm = ""
  /\ fst (AuthService.isLoggedIn Sample.loggedIn) = Returned true
  /\ Upload.handleUpload Sample.env2 Scenario.untitledForm Sample.loggedIn
     = (Returned tt,
        withUi (Alert "Please fill in all required fields and select a file")
          Sample.loggedIn)
  /\ ~ In (SuccessBanner "")
         (page (snd (Upload.handleUpload Sample.env2 Scenario.untitledForm
                       Sample.loggedIn))).
Proof.
  split; [reflexivity|]. split; [reflexivity|].
  split; [vm_compute; reflexivity|].
  split; [vm_compute; reflexivity|].
  assert (page (snd (Upload.handleUpload Sample.env2 Scenario.untitledForm Sample.loggedIn))
          = [Alert "Please fill in all required fields and select a file"]) as ->
    by (vm_compute; reflexivity).
  intros [H|[]]. discriminate H.
Qed.

(* ================================================================== *)
(** * Further properties of the code *)

(** ** Strings: trim, sanitizeInput, the two validators *)

Lemma trimStart_length (s : string) : String.length (trimStart s) <= String.length s.
Proof.
  induction s as [|c r IH]; cbn; [lia|].
  destruct (isWhiteSpace c); cbn; lia.
Qed.

Lemma trimEnd_length (s : string) : String.length (trimEnd s) <= String.length s.
Proof.
  induction s as [|c r IH]; cbn; [lia|].
  destruct (trimEnd r) as [|d r'].
  - destruct (isWhiteSpace c); cbn; lia.
  - cbn in *. lia.
Qed.

Lemma stripMarkup_length (s : string) : String.length (stripMarkup s) <= String.length s.
Proof.
  induction s as [|c r IH]; cbn; [lia|].
  destruct (isMarkup c); cbn; lia.
Qed.

Lemma stripMarkup_clean (s : string) : Text.hasSome isMarkup (stripMarkup s) = false.
Proof.
  induction s as [|c r IH]; cbn; [reflexivity|].
  destruct (isMarkup c) eqn:Hc; [exact IH|]. cbn. rewrite Hc. exact IH.
Qed.

Lemma stripMarkup_fixed (s : string) :
  Text.hasSome isMarkup s = false -> stripMarkup s = s.
Proof.
  induction s as [|c r IH]; cbn; [reflexivity|].
  intro H. apply orb_false_iff in H. destruct H as [Hc Hr].
  rewrite Hc, (IH Hr). reflexivity.
Qed.

Lemma trimStart_fixed (s : string) :
  Text.hasSome isWhiteSpace s = false -> trimStart s = s.
Proof.
  destruct s as [|c r]; cbn; [reflexivity|].
  intro H. apply orb_false_iff in H. destruct H as [Hc _]. rewrite Hc. reflexivity.
Qed.

Lemma trimEnd_fixed (s : string) :
  Text.hasSome isWhiteSpace s = false -> trimEnd s = s.
Proof.
  induction s as [|c r IH]; cbn; [reflexivity|].
  intro H. apply orb_false_iff in H. destruct H as [Hc Hr].
  rewrite (IH Hr). destruct r; [rewrite Hc|]; reflexivity.
Qed.

Lemma lowerChar_markup (c : ascii) : isMarkup (lowerChar c) = isMarkup c.
Proof. destruct c as [[] [] [] [] [] [] [] []]; reflexivity. Qed.

Lemma toLowerCase_markup (s : string) :
  Text.hasSome isMarkup (toLowerCase s) = Text.hasSome isMarkup s.
Proof.
  induction s as [|c r IH]; cbn; [reflexivity|].
  rewrite lowerChar_markup, IH. reflexivity.
Qed.

(** X1.  What [sanitizeInput] returns holds none of the four characters it
    deletes (the two angle brackets, the apostrophe, the double quote),
    and is never longer than its input. *)
Theorem sanitizeInput_is_clean_and_shorter :
  forall input : string,
    Text.hasSome isMarkup (AuthService.sanitizeInput input) = false
    /\ String.length (AuthService.sanitizeInput input) <= String.length input.
Proof.
  intro input. unfold AuthService.sanitizeInput, trim. split.
  - apply stripMarkup_clean.
  - pose proof (stripMarkup_length (trimEnd (trimStart input))).
    pose proof (trimEnd_length (trimStart input)).
    pose proof (trimStart_length input). lia.
Qed.

Lemma hasSome_append (class : ascii -> bool) (a b : string) :
  Text.hasSome class (a ++ b) = Text.hasSome class a || Text.hasSome class b.
Proof.
  induction a as [|c r IH]; cbn; [reflexivity|].
  rewrite IH. apply orb_assoc.
Qed.

Lemma occurrences_append (c : ascii) (a b : string) :
  Text.occurrences c (a ++ b) = Text.occurrences c a + Text.occurrences c b.
Proof.
  induction a as [|d r IH]; cbn; [reflexivity|]. rewrite IH. lia.
Qed.

Lemma allPlain_facts (s : string) :
  AuthService.allPlain s = true ->
  Text.hasSome isWhiteSpace s = false /\ Text.occurrences "@" s = 0.
Proof.
  induction s as [|c r IH]; cbn; [split; reflexivity|].
  intro H. apply andb_true_iff in H. destruct H as [Hp Hr].
  destruct (IH Hr) as [H1 H2]. unfold AuthService.plain in Hp.
  apply andb_true_iff in Hp. destruct Hp as [Hw Ha].
  apply negb_true_iff in Hw, Ha. rewrite Hw, Ha, H1, H2. split; reflexivity.
Qed.

Lemma validateEmail_shape (s : string) :
  AuthService.validateEmail s = true ->
  Text.hasSome isWhiteSpace s = false /\ Text.occurrences "@" s = 1.
Proof.
  intro H. apply validateEmail_pattern in H.
  destruct H as [a [b [c [-> [[_ Ha] [[_ Hb] [_ Hc]]]]]]].
  destruct (allPlain_facts a Ha) as [Ha1 Ha2].
  destruct (allPlain_facts b Hb) as [Hb1 Hb2].
  destruct (allPlain_facts c Hc) as [Hc1 Hc2].
  rewrite hasSome_append, occurrences_append. cbn [Text.hasSome Text.occurrences].
  rewrite hasSome_append, occurrences_append. cbn [Text.hasSome Text.occurrences].
  rewrite Ha1, Ha2, Hb1, Hb2, Hc1, Hc2. split; reflexivity.
Qed.

Lemma clean_lower_email_fixed (e : string) :
  AuthService.validateEmail e = true ->
  Text.hasSome isMarkup e = false ->
  toLowerCase e = e ->
  toLowerCase (AuthService.sanitizeInput e) = e.
Proof.
  intros Hv Hm Hl. destruct (validateEmail_shape _ Hv) as [Hw _].
  unfold AuthService.sanitizeInput, trim.
  rewrite (trimStart_fixed _ Hw), (trimEnd_fixed _ Hw), (stripMarkup_fixed _ Hm).
  exact Hl.
Qed.

Lemma normalised_email_fixed (email : string) :
  AuthService.validateEmail (toLowerCase (AuthService.sanitizeInput email)) = true ->
  toLowerCase (AuthService.sanitizeInput (toLowerCase (AuthService.sanitizeInput email)))
  = toLowerCase (AuthService.sanitizeInput email).
Proof.
  intro Hv. apply clean_lower_email_fixed; [exact Hv | | apply toLowerCase_idempotent].
  rewrite toLowerCase_markup. unfold AuthService.sanitizeInput. apply stripMarkup_clean.
Qed.

(** X2.  An address that [register] stores, the sanitized and lower-cased
    input that passed [validateEmail], has no white space and exactly one
    at sign, and is a fixed point of the normalisation that [login] and
    [resetPassword] apply: sanitizing and lower-casing it again gives the
    same address. *)
Theorem stored_email_is_normal_form :
  forall email : string,
    AuthService.validateEmail (toLowerCase (AuthService.sanitizeInput email)) = true ->
    toLowerCase (AuthService.sanitizeInput (toLowerCase (AuthService.sanitizeInput email)))
    = toLowerCase (AuthService.sanitizeInput email)
    /\ Text.hasSome isWhiteSpace (toLowerCase (AuthService.sanitizeInput email)) = false
    /\ Text.occurrences "@" (toLowerCase (AuthService.sanitizeInput email)) = 1.
Proof.
  intros email H. destruct (validateEmail_shape _ H) as [Hw Ha].
  split; [|split; assumption].
  apply normalised_email_fixed. exact H.
Qed.

Lemma stored_email_is_normal_form_witness :
  toLowerCase (AuthService.sanitizeInput
                 (toLowerCase (AuthService.sanitizeInput " Alice@Example.com ")))
  = toLowerCase (AuthService.sanitizeInput " Alice@Example.com ")
  /\ Text.hasSome isWhiteSpace (toLowerCase (AuthService.sanitizeInput " Alice@Example.com "))
     = false
  /\ Text.occurrences "@" (toLowerCase (AuthService.sanitizeInput " Alice@Example.com ")) = 1.
Proof.
  apply (stored_email_is_normal_form " Alice@Example.com "). vm_compute. reflexivity.
Defined.

Lemma lookahead_hasSome (class : ascii -> bool) (s : string) :
  AuthService.lookahead class s = true -> Text.hasSome class s = true.
Proof.
  induction s as [|c r IH]; cbn; [discriminate|].
  intro H. apply orb_true_iff in H. destruct H as [H|H].
  - rewrite H. reflexivity.
  - apply andb_true_iff in H. destruct H as [_ H]. rewrite (IH H). apply orb_true_r.
Qed.

Lemma hasSome_lookahead (class : ascii -> bool) (s : string) :
  AuthService.sameLine s = true -> Text.hasSome class s = true ->
  AuthService.lookahead class s = true.
Proof.
  induction s as [|c r IH]; cbn; [discriminate|].
  intros Hl H. apply andb_true_iff in Hl. destruct Hl as [Hc Hr].
  apply orb_true_iff in H. destruct H as [H|H].
  - rewrite H. reflexivity.
  - rewrite Hc, (IH Hr H). apply orb_true_r.
Qed.

Lemma strengthTest_first (s : string) :
  AuthService.lookahead isLower s = true ->
  AuthService.lookahead isUpper s = true ->
  AuthService.lookahead isDigit s = true ->
  AuthService.strengthTest s = true.
Proof.
  intros Hl Hu Hd. destruct s as [|c r]; [discriminate Hl|].
  cbn [AuthService.strengthTest]. rewrite Hl, Hu, Hd. reflexivity.
Qed.

(** X3.  A password that [validatePassword] accepts has at least 8 code
    units and holds a lower-case letter, an upper-case letter and a digit.
    For a password without a line terminator the converse holds too; with
    one, the three may sit on different lines and the password is
    rejected. *)
Theorem validatePassword_accepts_strong_passwords :
  forall password : string,
    (AuthService.isValid (AuthService.validatePassword password) = true ->
     8 <= String.length password
     /\ Text.hasSome isLower password = true
     /\ Text.hasSome isUpper password = true
     /\ Text.hasSome isDigit password = true)
    /\ (AuthService.sameLine password = true ->
        8 <= String.length password ->
        Text.hasSome isLower password = true ->
        Text.hasSome isUpper password = true ->
        Text.hasSome isDigit password = true ->
        AuthService.isValid (AuthService.validatePassword password) = true).
Proof.
  intro password. unfold AuthService.validatePassword. split.
  - destruct (String.length password <? 8)%nat eqn:Hlen; [discriminate|].
    destruct (AuthService.strengthTest password) eqn:Hs; [|discriminate].
    intros _. apply Nat.ltb_ge in Hlen. split; [exact Hlen|].
    apply strengthTest_pattern in Hs.
    destruct Hs as [before [rest [-> [Hl [Hu Hd]]]]].
    rewrite !hasSome_append.
    rewrite (lookahead_hasSome _ _ Hl), (lookahead_hasSome _ _ Hu),
      (lookahead_hasSome _ _ Hd), !orb_true_r. repeat split.
  - intros Hline Hlen Hl Hu Hd.
    apply Nat.ltb_ge in Hlen. rewrite Hlen.
    rewrite strengthTest_first; [reflexivity| | |]; apply hasSome_lookahead; assumption.
Qed.

Lemma validatePassword_accepts_strong_passwords_witness :
  (8 <= String.length "Passw0rdA"
   /\ Text.hasSome isLower "Passw0rdA" = true
   /\ Text.hasSome isUpper "Passw0rdA" = true
   /\ Text.hasSome isDigit "Passw0rdA" = true)
  /\ AuthService.isValid (AuthService.validatePassword "N3wPassword") = true.
Proof.
  split.
  - apply (proj1 (validatePassword_accepts_strong_passwords "Passw0rdA")).
    vm_compute. reflexivity.
  - apply (proj2 (validatePassword_accepts_strong_passwords "N3wPassword")).
    + vm_compute. reflexivity.
    + cbn. lia.
    + vm_compute. reflexivity.
    + vm_compute. reflexivity.
    + vm_compute. reflexivity.
Defined.


(** ** The stored salt and hash *)

Lemma btoaBytes_length_upto (n : nat) :
  forall l : list N,
    List.length l <= n ->
    String.length (Platform.btoaBytes l) = 4 * ((List.length l + 2) / 3).
Proof.
  induction n as [|n IH]; intros l Hl.
  - destruct l; [reflexivity | cbn in Hl; lia].
  - destruct l as [|a [|b [|c r]]]; try reflexivity.
    cbn [Platform.btoaBytes String.length List.length].
    rewrite IH by (cbn in Hl; lia).
    replace (S (S (S (List.length r))) + 2) with (List.length r + 2 + 1 * 3) by lia.
    rewrite Nat.div_add by lia. lia.
Qed.

Lemma btoa_fromCharCode_length (l : list N) :
  String.length (Platform.btoa (Platform.fromCharCode l))
  = 4 * ((List.length l + 2) / 3).
Proof.
  unfold Platform.btoa.
  rewrite (btoaBytes_length_upto _ _ (le_n _)).
  rewrite length_map.
  replace (List.length (list_ascii_of_string (Platform.fromCharCode l)))
    with (List.length l); [reflexivity|].
  induction l as [|x r IH]; cbn; [reflexivity | rewrite IH; reflexivity].
Qed.

Lemma round_length (st : list N) (kw : N * N) :
  List.length (Platform.round st kw) = List.length st.
Proof.
  destruct st as [|a [|b [|c [|d [|e [|f [|g [|h [|i r]]]]]]]]]; reflexivity.
Qed.

Lemma rounds_length (kws : list (N * N)) (st : list N) :
  List.length (fold_left Platform.round kws st) = List.length st.
Proof.
  revert st. induction kws as [|kw r IH]; intro st; cbn; [reflexivity|].
  rewrite IH. apply round_length.
Qed.

Lemma add32s_length (x y : list N) :
  List.length x = List.length y -> List.length (Platform.add32s x y) = List.length x.
Proof.
  revert y. induction x as [|a x IH]; intros [|b y] H; cbn in *; try lia.
  rewrite IH; lia.
Qed.

Lemma compress_length (h block : list N) :
  List.length (Platform.compress h block) = List.length h.
Proof.
  unfold Platform.compress. apply add32s_length. symmetry. apply rounds_length.
Qed.

Lemma sha256_length (msg : list N) : List.length (Platform.sha256 msg) = 32.
Proof.
  unfold Platform.sha256.
  set (bs := Platform.blocks _ _).
  assert (forall h, List.length (fold_left Platform.compress bs h) = List.length h) as Hf.
  { induction bs as [|b r IH]; intro h; cbn; [reflexivity|].
    rewrite IH. apply compress_length. }
  assert (forall h : list N,
             List.length (flat_map (Platform.bigEndian 4) h) = 4 * List.length h) as Hb.
  { induction h as [|x r IH]; [reflexivity|].
    cbn [flat_map]. rewrite length_app, IH. cbn [Platform.bigEndian List.length]. lia. }
  rewrite Hb, Hf. unfold Platform.H256. rewrite length_map. reflexivity.
Qed.

(** X4.  The stored hash of a password has 44 code units whatever the
    password and the salt, and the salt made of 16 random bytes has 24. *)
Theorem stored_hash_and_salt_have_fixed_length :
  forall (env : Ambient) (password salt : string),
    String.length (AuthService.hashPassword password salt) = 44
    /\ (List.length (randomValues env) = 16 ->
        String.length (AuthService.generateSalt env) = 24).
Proof.
  intros env password salt. split.
  - unfold AuthService.hashPassword.
    rewrite btoa_fromCharCode_length, sha256_length. reflexivity.
  - intro H. unfold AuthService.generateSalt.
    rewrite btoa_fromCharCode_length, H. reflexivity.
Qed.

Lemma stored_hash_and_salt_have_fixed_length_witness :
  String.length (AuthService.hashPassword "Passw0rdA" "AQIDBAUGBwgJCgsMDQ4PEA==") = 44
  /\ String.length (AuthService.generateSalt Sample.env0) = 24.
Proof.
  destruct (stored_hash_and_salt_have_fixed_length Sample.env0
              "Passw0rdA" "AQIDBAUGBwgJCgsMDQ4PEA==") as [H1 H2].
  split; [exact H1 | apply H2; reflexivity].
Defined.

(** ** register and login *)


Lemma truthy_iff (s : string) : truthy s = true <-> s <> "".
Proof.
  destruct s; cbn; split; congruence.
Qed.

Lemma register_on_readable (env : Ambient) (d : UserData.t) (w : World)
  (us : list User.t) :
  AuthService.getUsers w = (Returned us, w) ->
  exists r,
    AuthService.register env d w
    = (Returned r,
       if acceptable us d
       then withUsers
              (Holds (us ++ [AuthService.newUser env
                               (AuthService.sanitizeInput (UserData.name d))
                               (toLowerCase (AuthService.sanitizeInput (UserData.email d)))
                               (UserData.password d)])%list) w
       else w)
    /\ Result.success r = acceptable us d.
Proof.
  intro Hg. unfold acceptable.
  unfold AuthService.register, AuthService.registerBody.
  destruct (truthy (UserData.name d)); cbn [negb orb andb];
    [|eexists; split; reflexivity].
  destruct (truthy (UserData.email d)); cbn [negb orb andb];
    [|eexists; split; reflexivity].
  destruct (truthy (UserData.password d)); cbn [negb orb andb];
    [|eexists; split; reflexivity].
  destruct (AuthService.validateEmail _); cbn [negb andb];
    [|eexists; split; reflexivity].
  destruct (AuthService.isValid _); cbn [negb andb];
    [|eexists; split; reflexivity].
  unfold AuthService.userExists, tryCatch. unfold bind at 1. unfold bind at 1.
  rewrite Hg. unfold ret at 1.
  destruct (existsb _ us); cbn [negb].
  - eexists; split; reflexivity.
  - unfold bind at 1. rewrite Hg. unfold bind, AuthService.saveUsers, ret.
    eexists; split; reflexivity.
Qed.

(** X5.  A call of [register] that runs to its end with no other call of
    the component in between (its two parts, up to the hashing and after
    it, run back to back), on a readable store: it succeeds exactly when
    name, email and password are not empty, the sanitized lower-cased
    email is well formed, the password is valid and no record has that
    email.  Then it appends one record at the end of the collection and
    changes nothing else; in every other case it changes nothing at all. *)
Theorem register_succeeds_exactly_when_acceptable :
  forall (env : Ambient) (d : UserData.t) (w : World) (us : list User.t),
    AuthService.getUsers w = (Returned us, w) ->
    exists r w',
      Await.registerAlone env d w = (Returned r, w')
      /\ AuthService.register env d w = (Returned r, w')
      /\ (Result.success r = true <->
          UserData.name d <> "" /\ UserData.email d <> "" /\ UserData.password d <> ""
          /\ AuthService.validateEmail
               (toLowerCase (AuthService.sanitizeInput (UserData.email d))) = true
          /\ AuthService.isValid (AuthService.validatePassword (UserData.password d)) = true
          /\ ~ In (toLowerCase (AuthService.sanitizeInput (UserData.email d)))
                  (map User.email us))
      /\ (Result.success r = true ->
          w' = withUsers
                 (Holds (us ++ [AuthService.newUser env
                                  (AuthService.sanitizeInput (UserData.name d))
                                  (toLowerCase (AuthService.sanitizeInput (UserData.email d)))
                                  (UserData.password d)])%list) w)
      /\ (Result.success r = false -> w' = w).
Proof.
  intros env d w us Hg.
  destruct (register_on_readable env d w us Hg) as [r [Hr Hs]].
  exists r. eexists. split; [rewrite registerAlone_is_register; exact Hr|].
  split; [exact Hr|]. rewrite Hs.
  split; [|split; intros ->; reflexivity].
  unfold acceptable. rewrite !andb_true_iff, !truthy_iff, negb_true_iff.
  split.
  - intros [[[[[H1 H2] H3] H4] H5] H6]. repeat split; try assumption.
    apply existsb_email_false. exact H6.
  - intros [H1 [H2 [H3 [H4 [H5 H6]]]]]. repeat split; try assumption.
    destruct (existsb _ us) eqn:He; [|reflexivity].
    exfalso. apply H6. apply existsb_exists in He. destruct He as [x [Hx Hxe]].
    apply String.eqb_eq in Hxe. rewrite <- Hxe. apply in_map. exact Hx.
Qed.

Lemma register_succeeds_exactly_when_acceptable_witness :
  exists r w',
    Await.registerAlone Sample.env2 Sample.carol Sample.registered = (Returned r, w')
    /\ Result.success r = true
    /\ map User.email (collection w')
       = ["alice@example.com"; "bob@example.com"; "carol@example.com"].
Proof.
  destruct (register_succeeds_exactly_when_acceptable Sample.env2 Sample.carol
              Sample.registered (collection Sample.registered)
              ltac:(vm_compute; reflexivity)) as [r [w' [Hr [_ [Hiff [Hok _]]]]]].
  exists r, w'. split; [exact Hr|].
  assert (Result.success r = true) as Hs.
  { apply Hiff. repeat split; try discriminate; try (vm_compute; reflexivity).
    assert (map User.email (collection Sample.registered)
            = ["alice@example.com"; "bob@example.com"]) as -> by (vm_compute; reflexivity).
    assert (toLowerCase (AuthService.sanitizeInput (UserData.email Sample.carol))
            = "carol@example.com") as -> by (vm_compute; reflexivity).
    cbn. intuition discriminate. }
  split; [exact Hs|]. rewrite (Hok Hs). vm_compute. reflexivity.
Defined.



Lemma login_outcome :
  forall (env : Ambient) (email password : string) (remember : bool)
         (w w' : World) (r : Result.t),
    AuthService.login env email password remember w = (Returned r, w') ->
    (Result.success r = false -> w' = w)
    /\ (Result.success r = true ->
        exists us u,
          users w = Holds us
          /\ In u us
          /\ User.email u = toLowerCase (AuthService.sanitizeInput email)
          /\ AuthService.hashPassword password (User.salt u) = User.passwordHash u
          /\ w' = withSession (Holds (AuthService.newSession env u remember)) w
          /\ Result.user r = Some (AuthService.loginUser u)).
Proof.
  intros env email password remember w w' r.
  unfold AuthService.login, AuthService.loginBody.
  destruct (negb _ || negb _).
  { intros [= <- <-]. split; [reflexivity | discriminate]. }
  destruct (users w) as [|us|] eqn:Hu; js_run.
  - cbn [find]. intros [= <- <-]. split; [reflexivity | discriminate].
  - destruct (find _ us) as [u|] eqn:Hf.
    + destruct (String.eqb _ (User.passwordHash u)) eqn:Hh; cbn [negb].
      * intros [= <- <-]. split; [discriminate|]. intros _.
        apply find_some in Hf. destruct Hf as [Hin He].
        exists us, u. repeat split; try assumption.
        -- apply String.eqb_eq. exact He.
        -- apply String.eqb_eq. exact Hh.
      * intros [= <- <-]. split; [reflexivity | discriminate].
    + intros [= <- <-]. split; [reflexivity | discriminate].
  - intros [= <- <-]. split; [reflexivity | discriminate].
Qed.

(** X7.  [login] is sound: it answers success only when the collection
    holds a record with the sanitized lower-cased email whose stored hash
    is the hash of the password under its salt, and then only the session
    item changes; when it answers failure nothing is written. *)
Theorem login_succeeds_only_on_matching_hash :
  forall (env : Ambient) (email password : string) (remember : bool)
         (w w' : World) (r : Result.t),
    AuthService.login env email password remember w = (Returned r, w') ->
    (Result.success r = false -> w' = w)
    /\ (Result.success r = true ->
        exists us u,
          users w = Holds us
          /\ In u us
          /\ User.email u = toLowerCase (AuthService.sanitizeInput email)
          /\ AuthService.hashPassword password (User.salt u) = User.passwordHash u
          /\ w' = withSession (Holds (AuthService.newSession env u remember)) w
          /\ Result.user r = Some (AuthService.loginUser u)).
Proof.
  intros env email password remember w w' r Hrun.
  destruct (login_outcome env email password remember w w' r Hrun) as [Hfail Hok].
  split; [exact Hfail | exact Hok].
Qed.

Lemma login_succeeds_only_on_matching_hash_witness :
  Sample.after (AuthService.login Sample.env1 "bob@example.com" "Passw0rdA" false)
    Sample.registered = Sample.registered.
Proof.
  apply (proj1 (login_succeeds_only_on_matching_hash Sample.env1 "bob@example.com"
                  "Passw0rdA" false Sample.registered _
                  (Result.failure "Invalid email or password")
                  ltac:(vm_compute; reflexivity))).
  reflexivity.
Defined.

(** X8.  After a successful [login], [getCurrentUser] answers with the
    first record that carries the id of the record that logged in; when
    the stored ids are pairwise distinct this is the record that logged
    in. *)
Theorem login_then_getCurrentUser :
  forall (env : Ambient) (email password : string) (remember : bool)
         (w w' : World) (r : Result.t),
    AuthService.login env email password remember w = (Returned r, w') ->
    Result.success r = true ->
    exists us u first,
      users w = Holds us
      /\ In u us
      /\ User.email u = toLowerCase (AuthService.sanitizeInput email)
      /\ find (fun x => String.eqb (User.id x) (User.id u)) us = Some first
      /\ AuthService.getCurrentUser w'
         = (Returned (Some (AuthService.currentUser first)), w')
      /\ AuthService.isLoggedIn w' = (Returned true, w')
      /\ (NoDup (map User.id us) -> first = u).
Proof.
  intros env email password remember w w' r Hl Hs.
  destruct (proj2 (login_outcome _ _ _ _ _ _ _ Hl) Hs)
    as [us [u [Hu [Hin [He [_ [-> _]]]]]]].
  destruct (find_of_member (fun x => String.eqb (User.id x) (User.id u)) us u Hin
              (String.eqb_refl _)) as [first Hf].
  exists us, u, first. split; [exact Hu|]. split; [exact Hin|]. split; [exact He|].
  split; [exact Hf|].
  assert (AuthService.getCurrentUser
            (withSession (Holds (AuthService.newSession env u remember)) w)
          = (Returned (Some (AuthService.currentUser first)),
             withSession (Holds (AuthService.newSession env u remember)) w)) as Hc.
  { apply getCurrentUser_logged_in with (us := us)
      (s := AuthService.newSession env u remember); [exact Hu | reflexivity | exact Hf]. }
  split; [exact Hc|]. split.
  - unfold AuthService.isLoggedIn, bind, ret. rewrite Hc. reflexivity.
  - intro Hnd. apply find_some in Hf. destruct Hf as [Hfin Hid].
    apply String.eqb_eq in Hid.
    apply (NoDup_map_injective User.id us first u Hnd Hfin Hin Hid).
Qed.

Lemma login_then_getCurrentUser_witness :
  exists us u first,
    users Sample.registered = Holds us
    /\ In u us
    /\ User.email u = toLowerCase (AuthService.sanitizeInput "bob@example.com")
    /\ find (fun x => String.eqb (User.id x) (User.id u)) us = Some first
    /\ AuthService.getCurrentUser
         (Sample.after (AuthService.login Sample.env2 "bob@example.com" "Secret99x" false)
            Sample.registered)
       = (Returned (Some (AuthService.currentUser first)),
          Sample.after (AuthService.login Sample.env2 "bob@example.com" "Secret99x" false)
            Sample.registered)
    /\ AuthService.isLoggedIn
         (Sample.after (AuthService.login Sample.env2 "bob@example.com" "Secret99x" false)
            Sample.registered)
       = (Returned true,
          Sample.after (AuthService.login Sample.env2 "bob@example.com" "Secret99x" false)
            Sample.registered)
    /\ (NoDup (map User.id us) -> first = u).
Proof.
  apply (login_then_getCurrentUser Sample.env2 "bob@example.com" "Secret99x" false
           Sample.registered _
           {| Result.success := true; Result.message := "Login successful!";
              Result.user := Some (AuthService.loginUser Sample.bobRecord);
              Result.tempPassword := None |}).
  - vm_compute. reflexivity.
  - reflexivity.
Defined.

(** Where two records share an id, the second user logs in and the
    current user is the first record. *)
Example shared_id_current_user :
  fst (AuthService.getCurrentUser Scenario.bobAmongTwins)
  = Returned (Some (AuthService.currentUser (nth 0 (collection Sample.twins) Sample.blank)))
  /\ map Session.email
         (match session Scenario.bobAmongTwins with Holds s => [s] | _ => [] end)
     = ["bob@example.com"]
  /\ User.email (nth 0 (collection Sample.twins) Sample.blank) = "alice@example.com".
Proof. vm_compute. auto. Qed.

(** X9.  [logout] removes the session and keeps the collection and what
    the page shows; afterwards [isLoggedIn] answers false without reading
    the collection, so also when the users item is unreadable.  It sets a
    navigation to the home page unless the path is /index.html or ends in
    a slash. *)
Theorem logout_ends_the_session :
  forall w : World,
    exists w',
      AuthService.logout w = (Returned tt, w')
      /\ session w' = Absent
      /\ users w' = users w
      /\ page w' = page w
      /\ AuthService.isLoggedIn w' = (Returned false, w')
      /\ href w' = (if String.eqb (pathname w) "/index.html" || endsWith (pathname w) "/"
                    then href w else Some "../index.html").
Proof.
  intro w. exists (snd (AuthService.logout w)).
  split; [apply logout_eq|]. split; [apply logout_session|].
  split; [apply logout_users|].
  split; [|split; [apply isLoggedIn_without_session, logout_session|]].
  - unfold AuthService.logout. destruct (negb _ && negb _); reflexivity.
  - unfold AuthService.logout. cbn [pathname withSession].
    destruct (String.eqb (pathname w) "/index.html"); cbn [negb andb orb]; [reflexivity|].
    destruct (endsWith (pathname w) "/"); reflexivity.
Qed.

(** ** Sessions over time *)

Lemma validateSession_fresh (env : Ambient) (w : World) (s : Session.t) :
  session w = Holds s ->
  Session.remember s = true
  \/ (dateNow env - Session.loginTime s <= AuthService.sessionTimeout)%Z ->
  AuthService.validateSession env w
  = (Returned tt, withSession (Holds (AuthService.touch (dateNowAgain env) s)) w).
Proof.
  intros Hs Hkeep.
  unfold AuthService.validateSession. js_run.
  destruct (Session.remember s); cbn [negb]; [reflexivity|].
  destruct Hkeep as [H|H]; [discriminate|].
  destruct (dateNow env - Session.loginTime s >? AuthService.sessionTimeout)%Z eqn:Hgt;
    [|reflexivity].
  apply Z.gtb_gt in Hgt. lia.
Qed.

(** X10.  [validateSession] keeps a session that is remembered or whose
    age is at most the timeout (an age equal to the timeout is kept).  The
    stored session then has the user id, the email, the name, the login
    time and the remember flag it had, and its last activity is the second
    reading of the clock; the collection, the navigation and the page are
    untouched. *)
Theorem validateSession_keeps_fresh_session :
  forall (env : Ambient) (w : World) (s : Session.t),
    session w = Holds s ->
    Session.remember s = true
    \/ (dateNow env - Session.loginTime s <= AuthService.sessionTimeout)%Z ->
    exists s',
      AuthService.validateSession env w = (Returned tt, withSession (Holds s') w)
      /\ Session.userId s' = Session.userId s
      /\ Session.email s' = Session.email s
      /\ Session.name s' = Session.name s
      /\ Session.loginTime s' = Session.loginTime s
      /\ Session.remember s' = Session.remember s
      /\ Session.lastActivity s' = Some (dateNowAgain env).
Proof.
  intros env w s Hs Hkeep.
  exists (AuthService.touch (dateNowAgain env) s).
  split; [apply validateSession_fresh; assumption|].
  repeat split.
Qed.

Lemma validateSession_keeps_fresh_session_witness :
  exists s',
    AuthService.validateSession
      {| dateNow := 1730000005000 + 86400000; dateNowAgain := 1730086405001;
         toISOString := ""; randomValues := []; mathRandom36 := ""; objectURL := "" |}
      Sample.loggedIn
    = (Returned tt, withSession (Holds s') Sample.loggedIn)
    /\ Session.userId s' = "1730000000000"
    /\ Session.email s' = "alice@example.com"
    /\ Session.name s' = "Alice"
    /\ Session.loginTime s' = 1730000005000%Z
    /\ Session.remember s' = false
    /\ Session.lastActivity s' = Some 1730086405001%Z.
Proof.
  destruct (validateSession_keeps_fresh_session
              {| dateNow := 1730000005000 + 86400000; dateNowAgain := 1730086405001;
                 toISOString := ""; randomValues := []; mathRandom36 := ""; objectURL := "" |}
              Sample.loggedIn (AuthService.newSession Sample.env1 Sample.aliceRecord false)
              ltac:(vm_compute; reflexivity)
              ltac:(right; vm_compute; discriminate))
    as [s' [Hrun [H1 [H2 [H3 [H4 [H5 H6]]]]]]].
  exists s'. split; [exact Hrun|].
  split; [rewrite H1; vm_compute; reflexivity|].
  split; [rewrite H2; vm_compute; reflexivity|].
  split; [rewrite H3; vm_compute; reflexivity|].
  split; [rewrite H4; vm_compute; reflexivity|].
  split; [rewrite H5; vm_compute; reflexivity|].
  exact H6.
Defined.

(** X11.  Activity does not extend a session: whatever an earlier page
    load did, the page load at which the age since login exceeds the
    timeout leaves no session, when the session is not remembered. *)
Theorem activity_does_not_extend_session :
  forall (earlier later : Ambient) (w : World) (s : Session.t),
    session w = Holds s ->
    Session.remember s = false ->
    (dateNow later - Session.loginTime s > AuthService.sessionTimeout)%Z ->
    session (snd (AuthService.validateSession later
                    (snd (AuthService.validateSession earlier w)))) = Absent.
Proof.
  intros earlier later w s Hs Hr Hage.
  destruct (Z_le_gt_dec (dateNow earlier - Session.loginTime s) AuthService.sessionTimeout)
    as [Hle|Hgt].
  - rewrite (validateSession_fresh earlier w s Hs (or_intror Hle)).
    cbn [snd]. unfold AuthService.validateSession. js_run.
    cbn [withSession session Session.remember Session.loginTime AuthService.touch].
    rewrite Hr. cbn [negb]. apply Z.gtb_gt in Hage. rewrite Hage.
    apply logout_session.
  - unfold AuthService.validateSession at 2. js_run. rewrite Hr. cbn [negb].
    apply Z.gtb_gt in Hgt. rewrite Hgt.
    unfold AuthService.validateSession. unfold bind, AuthService.getSession.
    rewrite logout_session. unfold ret. cbn [snd fst]. apply logout_session.
Qed.

Lemma activity_does_not_extend_session_witness :
  session (snd (AuthService.validateSession Sample.env2
                  (snd (AuthService.validateSession Sample.env1 Sample.loggedIn))))
  = Absent.
Proof.
  apply (activity_does_not_extend_session Sample.env1 Sample.env2 Sample.loggedIn
           (AuthService.newSession Sample.env1 Sample.aliceRecord false)).
  - vm_compute. reflexivity.
  - reflexivity.
  - vm_compute. reflexivity.
Defined.

(** ** The operations on the account of the current user *)

Lemma sample_ids_distinct : NoDup (map User.id [Sample.aliceRecord; Sample.bobRecord]).
Proof.
  assert (map User.id [Sample.aliceRecord; Sample.bobRecord]
          = ["1730000000000"; "1730000005000"]) as -> by (vm_compute; reflexivity).
  repeat constructor; cbn; intuition discriminate.
Qed.

(** What [updateProfile] rewrites, in terms of the record [u] that the
    lookup by the id of the session finds. *)
Lemma updateProfile_at_found_record :
  forall (env : Ambient) (d : ProfileData.t) (w : World) (us : list User.t)
         (s : Session.t) (u : User.t),
    users w = Holds us ->
    session w = Holds s ->
    find (fun x => String.eqb (User.id x) (Session.userId s)) us = Some u ->
    exists i,
      nth_error us i = Some u
      /\ AuthService.updateProfile env d w
         = (Returned (Result.ok "Profile updated successfully!"),
            withUsers (Holds (alterAt i (AuthService.applyProfile env d) us)) w)
      /\ nth_error (alterAt i (AuthService.applyProfile env d) us) i
         = Some (AuthService.applyProfile env d u)
      /\ (forall j, j <> i ->
          nth_error (alterAt i (AuthService.applyProfile env d) us) j = nth_error us j).
Proof.
  intros env d w us s u Hu Hs Hf.
  destruct (updateProfile_cases w us s u Hu Hs Hf env d) as [i [_ [Hn Hrun]]].
  exists i. split; [exact Hn|]. split; [exact Hrun|].
  split; [apply nth_error_alterAt_same; exact Hn|].
  intros j Hj; apply nth_error_alterAt_other; exact Hj.
Qed.

(** X12.  Where the stored ids are pairwise distinct and [u] is the record
    of the logged-in user (the record whose id the session carries),
    [updateProfile] succeeds and rewrites only [u]: each of name, college,
    branch and year that the request defines becomes its sanitized value,
    [updatedAt] is set, and the id, the email, the hash, the salt, the
    creation time, the notes and the two marks of a reset stay.  Every
    other record and the session stay as they were. *)
Theorem updateProfile_rewrites_profile_fields_only :
  forall (env : Ambient) (d : ProfileData.t) (w : World) (us : list User.t)
         (s : Session.t) (u : User.t),
    users w = Holds us ->
    session w = Holds s ->
    NoDup (map User.id us) ->
    In u us ->
    User.id u = Session.userId s ->
    exists i us' u',
      nth_error us i = Some u
      /\ AuthService.updateProfile env d w
         = (Returned (Result.ok "Profile updated successfully!"),
            withUsers (Holds us') w)
      /\ nth_error us' i = Some u'
      /\ (forall j, j <> i -> nth_error us' j = nth_error us j)
      /\ User.name u' = match ProfileData.name d with
                        | Some v => AuthService.sanitizeInput v
                        | None => User.name u
                        end
      /\ User.college u' = match ProfileData.college d with
                           | Some v => AuthService.sanitizeInput v
                           | None => User.college u
                           end
      /\ User.branch u' = match ProfileData.branch d with
                          | Some v => AuthService.sanitizeInput v
                          | None => User.branch u
                          end
      /\ User.year u' = match ProfileData.year d with
                        | Some v => AuthService.sanitizeInput v
                        | None => User.year u
                        end
      /\ User.updatedAt u' = Some (toISOString env)
      /\ User.id u' = User.id u
      /\ User.email u' = User.email u
      /\ User.passwordHash u' = User.passwordHash u
      /\ User.salt u' = User.salt u
      /\ User.createdAt u' = User.createdAt u
      /\ User.notes u' = User.notes u
      /\ User.tempPassword u' = User.tempPassword u
      /\ User.mustChangePassword u' = User.mustChangePassword u.
Proof.
  intros env d w us s u Hu Hs Hnd Hin Hid.
  pose proof (find_unique User.id us u (Session.userId s) Hnd Hin Hid) as Hf.
  destruct (updateProfile_at_found_record env d w us s u Hu Hs Hf)
    as [i [Hn [Hrun [Hsame Hother]]]].
  exists i, (alterAt i (AuthService.applyProfile env d) us),
    (AuthService.applyProfile env d u).
  split; [exact Hn|]. split; [exact Hrun|].
  split; [exact Hsame|]. split; [exact Hother|].
  destruct d as [[n|] [c|] [b|] [y|]]; repeat split.
Qed.

Lemma updateProfile_rewrites_profile_fields_only_witness :
  exists i us' u',
    nth_error [Sample.aliceRecord; Sample.bobRecord] i = Some Sample.aliceRecord
    /\ AuthService.updateProfile Sample.env2
         {| ProfileData.name := None; ProfileData.college := Some " MIT ";
            ProfileData.branch := None; ProfileData.year := None |} Sample.loggedIn
       = (Returned (Result.ok "Profile updated successfully!"),
          withUsers (Holds us') Sample.loggedIn)
    /\ nth_error us' i = Some u'
    /\ User.college u' = "MIT"
    /\ User.name u' = "Alice"
    /\ User.passwordHash u' = User.passwordHash Sample.aliceRecord.
Proof.
  destruct (updateProfile_rewrites_profile_fields_only Sample.env2
              {| ProfileData.name := None; ProfileData.college := Some " MIT ";
                 ProfileData.branch := None; ProfileData.year := None |}
              Sample.loggedIn [Sample.aliceRecord; Sample.bobRecord]
              (AuthService.newSession Sample.env1 Sample.aliceRecord false)
              Sample.aliceRecord
              ltac:(vm_compute; reflexivity) ltac:(vm_compute; reflexivity)
              sample_ids_distinct
              ltac:(left; reflexivity)
              ltac:(vm_compute; reflexivity))
    as [i [us' [u' [H1 [H2 [H3 [_ [Hname [Hcol [_ [_ [_ [_ [_ [Hh _]]]]]]]]]]]]]]].
  exists i, us', u'. split; [exact H1|]. split; [exact H2|]. split; [exact H3|].
  split; [rewrite Hcol; vm_compute; reflexivity|].
  split; [rewrite Hname; vm_compute; reflexivity|].
  exact Hh.
Defined.








(** ** resetPassword *)

Lemma mutateFound_alterAt {A} (p : A -> bool) (f : A -> A) (l : list A) (i : nat) :
  findIndex p l = Some i -> alterAt i f l = mutateFound p f l.
Proof.
  revert i. induction l as [|x r IH]; cbn; intros i; [discriminate|].
  destruct (p x).
  - intros [= <-]. reflexivity.
  - destruct (findIndex p r) as [k|]; [|discriminate].
    intros [= <-]. cbn. rewrite (IH k eq_refl). reflexivity.
Qed.



Lemma findIndex_of_found {A} (p q : A -> bool) (l : list A) (u : A) :
  find p l = Some u -> q u = true -> exists i, findIndex q l = Some i.
Proof.
  intros Hf Hq. apply find_some in Hf. destruct Hf as [Hin _].
  destruct (find_of_member q l u Hin Hq) as [y Hy].
  destruct (find_findIndex q l y Hy) as [i [Hi _]]. eauto.
Qed.

Lemma resetPassword_cases (env : Ambient) (email : string) (w : World)
  (us : list User.t) :
  AuthService.getUsers w = (Returned us, w) ->
  AuthService.validateEmail (toLowerCase (AuthService.sanitizeInput email)) = true ->
  AuthService.resetPassword env email w =
  match find (fun x => String.eqb (User.email x)
                         (toLowerCase (AuthService.sanitizeInput email))) us with
  | None =>
      (Returned (Result.ok
                   "If an account with this email exists, a reset link has been sent."), w)
  | Some user =>
      match findIndex (fun x => String.eqb (User.id x) (User.id user)) us with
      | None => (Returned (Result.failure "Password reset failed. Please try again."), w)
      | Some i =>
          (Returned
             {| Result.success := true;
                Result.message :=
                  "Password reset successful! Your temporary password is: "
                  ++ sliceLast 8 (mathRandom36 env)
                  ++ ". Please login and change your password immediately.";
                Result.user := None;
                Result.tempPassword := Some (sliceLast 8 (mathRandom36 env)) |},
           withUsers
             (Holds (alterAt i
                       (fun x =>
                          AuthService.setUpdatedAt (toISOString env)
                            (AuthService.setTemporary (sliceLast 8 (mathRandom36 env))
                               (AuthService.setPassword
                                  (AuthService.hashPassword (sliceLast 8 (mathRandom36 env))
                                     (AuthService.generateSalt env))
                                  (AuthService.generateSalt env) x))) us)) w)
      end
  end.
Proof.
  intros Hg Hv. unfold AuthService.resetPassword, AuthService.resetPasswordBody.
  rewrite Hv. cbn [negb]. unfold tryCatch. unfold bind at 1. rewrite Hg.
  destruct (find _ us) as [user|]; [|reflexivity].
  destruct (findIndex _ us) as [i|]; reflexivity.
Qed.

(** X16.  The answer of [resetPassword] tells whether the address is
    registered: for a well-formed address on a readable store the result
    carries a temporary password exactly when a record has that address.
    For an unknown address the answer is a success and nothing is
    written. *)
Theorem resetPassword_answer_reveals_registration :
  forall (env : Ambient) (email : string) (w : World) (us : list User.t),
    AuthService.getUsers w = (Returned us, w) ->
    AuthService.validateEmail (toLowerCase (AuthService.sanitizeInput email)) = true ->
    exists r w',
      AuthService.resetPassword env email w = (Returned r, w')
      /\ Result.success r = true
      /\ (In (toLowerCase (AuthService.sanitizeInput email)) (map User.email us) ->
          Result.tempPassword r = Some (sliceLast 8 (mathRandom36 env)))
      /\ (~ In (toLowerCase (AuthService.sanitizeInput email)) (map User.email us) ->
          Result.tempPassword r = None /\ w' = w).
Proof.
  intros env email w us Hg Hv.
  rewrite (resetPassword_cases env email w us Hg Hv).
  destruct (find _ us) as [user|] eqn:Hf.
  - destruct (findIndex_of_found _ (fun x => String.eqb (User.id x) (User.id user))
                us user Hf (String.eqb_refl _)) as [i Hi].
    rewrite Hi. do 2 eexists. split; [reflexivity|]. split; [reflexivity|].
    split; [reflexivity|]. intro Hnot. exfalso. apply Hnot.
    apply find_some in Hf. destruct Hf as [Hin He]. apply String.eqb_eq in He.
    rewrite <- He. apply in_map. exact Hin.
  - do 2 eexists. split; [reflexivity|]. split; [reflexivity|].
    split; [|intros _; split; reflexivity].
    intro Hin. exfalso. apply in_map_iff in Hin. destruct Hin as [x [Hx Hxin]].
    pose proof (find_none _ _ Hf x Hxin) as Hn. cbn beta in Hn.
    apply String.eqb_neq in Hn. contradiction.
Qed.

Lemma resetPassword_answer_reveals_registration_witness :
  (exists r w',
     AuthService.resetPassword Sample.env2 "Bob@Example.com" Sample.registered
     = (Returned r, w')
     /\ Result.tempPassword r = Some "zzzzzzzz")
  /\ (exists r w',
        AuthService.resetPassword Sample.env2 "carol@example.com" Sample.registered
        = (Returned r, w')
        /\ Result.success r = true
        /\ Result.tempPassword r = None /\ w' = Sample.registered).
Proof.
  split.
  - destruct (resetPassword_answer_reveals_registration Sample.env2 "Bob@Example.com"
                Sample.registered (collection Sample.registered)
                ltac:(vm_compute; reflexivity) ltac:(vm_compute; reflexivity))
      as [r [w' [Hr [_ [Hknown _]]]]].
    exists r, w'. split; [exact Hr|]. rewrite Hknown; [vm_compute; reflexivity|].
    assert (map User.email (collection Sample.registered)
            = ["alice@example.com"; "bob@example.com"]) as -> by (vm_compute; reflexivity).
    assert (toLowerCase (AuthService.sanitizeInput "Bob@Example.com") = "bob@example.com")
      as -> by (vm_compute; reflexivity).
    cbn. tauto.
  - destruct (resetPassword_answer_reveals_registration Sample.env2 "carol@example.com"
                Sample.registered (collection Sample.registered)
                ltac:(vm_compute; reflexivity) ltac:(vm_compute; reflexivity))
      as [r [w' [Hr [Hs [_ Hunknown]]]]].
    exists r, w'. split; [exact Hr|]. split; [exact Hs|].
    apply Hunknown.
    assert (map User.email (collection Sample.registered)
            = ["alice@example.com"; "bob@example.com"]) as -> by (vm_compute; reflexivity).
    assert (toLowerCase (AuthService.sanitizeInput "carol@example.com")
            = "carol@example.com") as -> by (vm_compute; reflexivity).
    cbn. intuition discriminate.
Defined.




(** ** How the calls of the Auth component change the collection *)

Lemma snd_bind_ret {A B} (m : Js A) (k : A -> B) (w : World) :
  snd ((r <- m ;; ret (k r)) w) = snd (m w).
Proof.
  unfold bind, ret. destruct (m w) as [[a|e] w']; reflexivity.
Qed.

Lemma sameRecords_refl (us : list User.t) : sameRecords us us.
Proof. repeat split. Qed.

Lemma sameRecords_alterAt (i : nat) (f : User.t -> User.t) (us : list User.t) :
  (forall x, User.id (f x) = User.id x) ->
  (forall x, User.email (f x) = User.email x) ->
  (forall x, User.createdAt (f x) = User.createdAt x) ->
  (forall x, User.notes (f x) = User.notes x) ->
  sameRecords us (alterAt i f us).
Proof.
  intros H1 H2 H3 H4. repeat split; apply map_alterAt; assumption.
Qed.

Lemma sameRecords_mutateFound (p : User.t -> bool) (f : User.t -> User.t)
  (us : list User.t) :
  (forall x, User.id (f x) = User.id x) ->
  (forall x, User.email (f x) = User.email x) ->
  (forall x, User.createdAt (f x) = User.createdAt x) ->
  (forall x, User.notes (f x) = User.notes x) ->
  sameRecords us (mutateFound p f us).
Proof.
  intros H1 H2 H3 H4. repeat split; apply map_mutateFound; assumption.
Qed.

Lemma applyProfile_frame (env : Ambient) (d : ProfileData.t) (x : User.t) :
  User.id (AuthService.applyProfile env d x) = User.id x
  /\ User.createdAt (AuthService.applyProfile env d x) = User.createdAt x
  /\ User.notes (AuthService.applyProfile env d x) = User.notes x.
Proof.
  destruct d as [[n|] [c|] [b|] [y|]]; repeat split.
Qed.

Lemma collection_same_users (w w' : World) :
  users w' = users w -> collection w' = collection w.
Proof. unfold collection. intros ->. reflexivity. Qed.

Lemma getUsers_collection (w : World) :
  users w <> Unreadable -> AuthService.getUsers w = (Returned (collection w), w).
Proof.
  unfold AuthService.getUsers, collection.
  destruct (users w); [reflexivity | reflexivity | congruence].
Qed.

Lemma register_unreadable (env : Ambient) (d : UserData.t) (w : World) :
  users w = Unreadable -> snd (AuthService.register env d w) = w.
Proof.
  intro Hu. unfold AuthService.register, AuthService.registerBody.
  destruct (negb _ || negb _ || negb _); [reflexivity|].
  destruct (negb (AuthService.validateEmail _)); [reflexivity|].
  destruct (negb (AuthService.isValid _)); [reflexivity|].
  js_run. reflexivity.
Qed.

Lemma resetPassword_unreadable (env : Ambient) (email : string) (w : World) :
  users w = Unreadable -> snd (AuthService.resetPassword env email w) = w.
Proof.
  intro Hu. unfold AuthService.resetPassword, AuthService.resetPasswordBody.
  destruct (negb (AuthService.validateEmail _)); [reflexivity|].
  js_run. reflexivity.
Qed.

Lemma resetPassword_malformed (env : Ambient) (email : string) (w : World) :
  AuthService.validateEmail (toLowerCase (AuthService.sanitizeInput email)) = false ->
  AuthService.resetPassword env email w
  = (Returned (Result.failure "Please enter a valid email address"), w).
Proof.
  intro Hv. unfold AuthService.resetPassword, AuthService.resetPasswordBody.
  rewrite Hv. reflexivity.
Qed.

(** The three ways in which a call changes the collection. *)
Lemma run_collection (c : Call.t) (w : World) :
  sameRecords (collection w) (collection (snd (Call.run c w)))
  \/ (exists env d,
        c = Call.Register env d
        /\ acceptable (collection w) d = true
        /\ collection (snd (Call.run c w))
           = (collection w
              ++ [AuthService.newUser env
                    (AuthService.sanitizeInput (UserData.name d))
                    (toLowerCase (AuthService.sanitizeInput (UserData.email d)))
                    (UserData.password d)])%list)
  \/ (exists password k,
        c = Call.DeleteAccount password
        /\ collection (snd (Call.run c w))
           = filter (fun x => negb (String.eqb (User.id x) k)) (collection w)).
Proof.
  assert (forall w', users w' = users w ->
                     sameRecords (collection w) (collection w')) as Hsame.
  { intros w' H. rewrite (collection_same_users _ _ H). apply sameRecords_refl. }
  destruct c; cbn [Call.run]; rewrite ?snd_bind_ret.
  - (* register *)
    destruct (users w) as [|us|] eqn:Hu.
    + destruct (register_on_readable env userData w (collection w)) as [r [Hr _]].
      { apply getUsers_collection. congruence. }
      rewrite Hr. cbn [snd]. destruct (acceptable (collection w) userData) eqn:Ha.
      * right; left. exists env, userData.
        split; [reflexivity|]. split; [exact Ha | reflexivity].
      * left. apply sameRecords_refl.
    + destruct (register_on_readable env userData w (collection w)) as [r [Hr _]].
      { apply getUsers_collection. congruence. }
      rewrite Hr. cbn [snd]. destruct (acceptable (collection w) userData) eqn:Ha.
      * right; left. exists env, userData.
        split; [reflexivity|]. split; [exact Ha | reflexivity].
      * left. apply sameRecords_refl.
    + left. rewrite (register_unreadable env userData w Hu). apply sameRecords_refl.
  - (* login *)
    left. destruct (login_returns env email password remember w) as [r [w' [H Hu]]].
    rewrite H. apply Hsame. exact Hu.
  - left. apply Hsame. apply getCurrentUser_users.
  - left. apply Hsame. unfold AuthService.isLoggedIn. rewrite snd_bind_ret.
    apply getCurrentUser_users.
  - (* updateProfile *)
    left.
    destruct (getCurrentUser_cases w) as [[e H]|[[w' [H Hu]]|[us [s [u [Hu [Hs [Hf _]]]]]]]].
    + rewrite (updateProfile_caught _ _ env profileData e H). apply sameRecords_refl.
    + rewrite (updateProfile_anonymous _ _ env profileData H). apply Hsame. exact Hu.
    + destruct (updateProfile_cases w us s u Hu Hs Hf env profileData) as [i [_ [_ ->]]].
      unfold collection. rewrite Hu. cbn [snd users withUsers].
      apply sameRecords_alterAt; intro x;
        [apply applyProfile_frame | apply applyProfile_email
        | apply applyProfile_frame | apply applyProfile_frame].
  - (* changePassword *)
    left.
    destruct (getCurrentUser_cases w) as [[e H]|[[w' [H Hu]]|[us [s [u [Hu [Hs [Hf _]]]]]]]].
    + rewrite (changePassword_caught _ _ env currentPassword newPassword e H).
      apply sameRecords_refl.
    + rewrite (changePassword_anonymous _ _ env currentPassword newPassword H).
      apply Hsame. exact Hu.
    + rewrite (changePassword_cases w us s u Hu Hs Hf).
      destruct (negb (String.eqb _ (User.passwordHash u))); [apply sameRecords_refl|].
      destruct (negb (AuthService.isValid _)); [apply sameRecords_refl|].
      unfold collection. rewrite Hu. cbn [snd users withUsers].
      apply sameRecords_mutateFound; intro x; reflexivity.
  - (* deleteAccount *)
    destruct (getCurrentUser_cases w) as [[e H]|[[w' [H Hu]]|[us [s [u [Hu [Hs [Hf _]]]]]]]].
    + left. rewrite (deleteAccount_caught _ _ password e H). apply sameRecords_refl.
    + left. rewrite (deleteAccount_anonymous _ _ password H). apply Hsame. exact Hu.
    + rewrite (deleteAccount_cases w us s u Hu Hs Hf).
      destruct (negb (String.eqb _ (User.passwordHash u))); [left; apply sameRecords_refl|].
      right; right. exists password, (User.id u). split; [reflexivity|].
      unfold collection. cbn [snd]. rewrite logout_users, Hu. reflexivity.
  - (* resetPassword *)
    left.
    destruct (AuthService.validateEmail (toLowerCase (AuthService.sanitizeInput email)))
      eqn:Hv.
    2:{ rewrite (resetPassword_malformed env email w Hv). apply sameRecords_refl. }
    destruct (users w) as [|us|] eqn:Hu.
    + rewrite (resetPassword_cases env email w []);
        [apply sameRecords_refl | | exact Hv].
      unfold AuthService.getUsers. rewrite Hu. reflexivity.
    + rewrite (resetPassword_cases env email w us); [| |exact Hv].
      2:{ unfold AuthService.getUsers. rewrite Hu. reflexivity. }
      destruct (find _ us) as [user|]; [|apply sameRecords_refl].
      destruct (findIndex _ us) as [i|]; [|apply sameRecords_refl].
      unfold collection. rewrite Hu. cbn [snd users withUsers].
      apply sameRecords_alterAt; intro x; reflexivity.
    + rewrite (resetPassword_unreadable env email w Hu). apply sameRecords_refl.
  - (* logout *)
    left. apply Hsame. unfold bind, ret. rewrite logout_eq. cbn. apply logout_users.
Qed.

(** X18.  A call of the Auth component that runs to its end before any
    other call of the component starts ([Call.run]) changes the stored
    collection in one of three ways.  It keeps every record in place with
    its id, email, creation time and notes; or it is an accepted [register]
    and one new record is appended at the end; or it is a [deleteAccount]
    and the records of one id are filtered out.  So no such call but
    [register] adds a record, none but [deleteAccount] removes one, and
    none rewrites the notes, the email or the id of a record.  Calls in
    flight together are not covered: each writes back the collection it
    read before its awaits. *)
Theorem auth_calls_change_the_collection_in_three_ways :
  forall (c : Call.t) (w : World),
    sameRecords (collection w) (collection (snd (Call.run c w)))
    \/ (exists env d,
          c = Call.Register env d
          /\ acceptable (collection w) d = true
          /\ collection (snd (Call.run c w))
             = (collection w
                ++ [AuthService.newUser env
                      (AuthService.sanitizeInput (UserData.name d))
                      (toLowerCase (AuthService.sanitizeInput (UserData.email d)))
                      (UserData.password d)])%list)
    \/ (exists password k,
          c = Call.DeleteAccount password
          /\ collection (snd (Call.run c w))
             = filter (fun x => negb (String.eqb (User.id x) k)) (collection w)).
Proof.
  intros c w.
  destruct (run_collection c w) as [Hsame | [Hadd | Hdel]].
  - left. exact Hsame.
  - right; left. exact Hadd.
  - right; right. exact Hdel.
Qed.

Lemma addressable_step (c : Call.t) (w : World) :
  Forall addressable (emails w) -> Forall addressable (emails (snd (Call.run c w))).
Proof.
  unfold emails. intro H.
  destruct (run_collection c w) as [Hsame | [[env [d [_ [Hacc ->]]]] | [p [k [_ ->]]]]].
  - destruct Hsame as [_ [-> _]]. exact H.
  - rewrite map_app. apply Forall_app. split; [exact H|].
    cbn [map AuthService.newUser User.email]. constructor; [|constructor].
    unfold acceptable in Hacc. rewrite !andb_true_iff in Hacc.
    destruct Hacc as [[[_ Hv] _] _].
    split; [exact Hv | apply normalised_email_fixed; exact Hv].
  - apply Forall_map_filter. exact H.
Qed.

(** X19.  Starting from a browser without a users item, after any sequence
    of calls of the Auth component in which each call runs to its end
    before the next starts ([runAll]), the stored emails are pairwise
    distinct, in lower case and well formed, and each is a fixed point of
    the normalisation of [login]: every stored account can be addressed by
    its stored email.  Two calls of [register] in flight together are not
    covered: they can store one email twice. *)
Theorem reachable_emails_are_unique_and_addressable :
  forall (calls : list Call.t) (w : World),
    users w = Absent ->
    uniqueEmails (runAll calls w) /\ Forall addressable (emails (runAll calls w)).
Proof.
  intros calls w Hu.
  assert (uniqueEmails w /\ Forall addressable (emails w)) as Hinv.
  { unfold uniqueEmails, emails, collection. rewrite Hu. cbn.
    repeat split; constructor. }
  clear Hu. revert w Hinv.
  induction calls as [|c rest IH]; intros w [H1 H2]; cbn [runAll]; [split; assumption|].
  apply IH. split.
  - exact (proj1 (run_cases c w) H1).
  - apply addressable_step. exact H2.
Qed.

Lemma reachable_emails_are_unique_and_addressable_witness :
  uniqueEmails
    (runAll [Call.Register Sample.env0 Sample.alice;
             Call.Register Sample.env1 Sample.bob;
             Call.Register Sample.env2 Sample.alice;
             Call.Login Sample.env1 "bob@example.com" "Secret99x" false;
             Call.DeleteAccount "Secret99x"] Sample.fresh)
  /\ Forall addressable
       (emails
          (runAll [Call.Register Sample.env0 Sample.alice;
                   Call.Register Sample.env1 Sample.bob;
                   Call.Register Sample.env2 Sample.alice;
                   Call.Login Sample.env1 "bob@example.com" "Secret99x" false;
                   Call.DeleteAccount "Secret99x"] Sample.fresh)).
Proof.
  apply (reachable_emails_are_unique_and_addressable
           [Call.Register Sample.env0 Sample.alice;
            Call.Register Sample.env1 Sample.bob;
            Call.Register Sample.env2 Sample.alice;
            Call.Login Sample.env1 "bob@example.com" "Secret99x" false;
            Call.DeleteAccount "Secret99x"] Sample.fresh).
  reflexivity.
Defined.

Example reachable_sample :
  emails
    (runAll [Call.Register Sample.env0 Sample.alice;
             Call.Register Sample.env1 Sample.bob;
             Call.Register Sample.env2 Sample.alice;
             Call.Login Sample.env1 "bob@example.com" "Secret99x" false;
             Call.DeleteAccount "Secret99x"] Sample.fresh)
  = ["alice@example.com"].
Proof. vm_compute. reflexivity. Qed.

(** ** Route protection *)

Lemma isLoggedIn_true_cases (w : World) :
  fst (AuthService.isLoggedIn w) = Returned true ->
  exists us s u,
    users w = Holds us /\ session w = Holds s
    /\ find (fun x => String.eqb (User.id x) (Session.userId s)) us = Some u.
Proof.
  unfold AuthService.isLoggedIn, bind, ret.
  destruct (getCurrentUser_cases w) as [[e H]|[[w' [H Hu]]|[us [s [u [Hu [Hs [Hf H]]]]]]]];
    rewrite H; cbn; try discriminate.
  intros _. exists us, s, u. auto.
Qed.

Lemma isLoggedIn_logged_in (w : World) (us : list User.t) (s : Session.t) (u : User.t) :
  users w = Holds us -> session w = Holds s ->
  find (fun x => String.eqb (User.id x) (Session.userId s)) us = Some u ->
  AuthService.isLoggedIn w = (Returned true, w).
Proof.
  intros Hu Hs Hf. unfold AuthService.isLoggedIn, bind, ret.
  rewrite (getCurrentUser_logged_in w us s u Hu Hs Hf). reflexivity.
Qed.

(** X20.  The address of a protected page survives the detour over the
    login page.  [requireAuth] on a visitor who is not logged in answers
    false, remembers the address of the page and navigates to the login
    page; once somebody is logged in, [redirectIfLoggedIn] navigates to
    the remembered address and forgets it, so that a second call goes to
    the home page. *)
Theorem requireAuth_then_redirectIfLoggedIn :
  forall (b b2 : Routes.Browser) (w1 : World),
    AuthService.isLoggedIn (Routes.tab b) = (Returned false, w1) ->
    Routes.address b <> "" ->
    fst (AuthService.isLoggedIn (Routes.tab b2)) = Returned true ->
    Routes.redirectAfterLogin b2 = Routes.redirectAfterLogin (snd (Routes.requireAuth b)) ->
    fst (Routes.requireAuth b) = Returned false
    /\ href (Routes.tab (snd (Routes.requireAuth b))) = Some (Routes.loginPath w1)
    /\ fst (Routes.redirectIfLoggedIn b2) = Returned true
    /\ href (Routes.tab (snd (Routes.redirectIfLoggedIn b2))) = Some (Routes.address b)
    /\ Routes.redirectAfterLogin (snd (Routes.redirectIfLoggedIn b2)) = None
    /\ href (Routes.tab (snd (Routes.redirectIfLoggedIn
                                (snd (Routes.redirectIfLoggedIn b2)))))
       = Some (Routes.homePath (Routes.tab b2)).
Proof.
  intros b b2 w1 Hout Haddr Hin Hitem.
  unfold Routes.requireAuth in *. rewrite Hout in *. cbn [fst snd Routes.tab] in *.
  cbn [Routes.redirectAfterLogin] in Hitem.
  split; [reflexivity|]. split; [reflexivity|].
  destruct (isLoggedIn_true_cases _ Hin) as [us [s [u [Hu [Hs Hf]]]]].
  unfold Routes.redirectIfLoggedIn at 1 2 3 5.
  rewrite (isLoggedIn_logged_in _ us s u Hu Hs Hf).
  cbn [fst snd Routes.tab Routes.redirectAfterLogin]. rewrite Hitem.
  cbn [Routes.orElse]. rewrite (truthy_true _ Haddr).
  split; [reflexivity|]. split; [reflexivity|]. split; [reflexivity|].
  unfold Routes.redirectIfLoggedIn. cbn [Routes.tab].
  rewrite (isLoggedIn_logged_in (withHref (Routes.address b) (Routes.tab b2)) us s u
             Hu Hs Hf).
  reflexivity.
Qed.

Lemma requireAuth_then_redirectIfLoggedIn_witness :
  fst (Routes.requireAuth Scenario.uploadPage) = Returned false
  /\ href (Routes.tab (snd (Routes.requireAuth Scenario.uploadPage)))
     = Some "login.html"
  /\ href (Routes.tab
             (snd (Routes.redirectIfLoggedIn
                     {| Routes.tab := Sample.loggedIn;
                        Routes.address := "https://notesvault.example/pages/login.html";
                        Routes.redirectAfterLogin :=
                          Some "https://notesvault.example/pages/upload.html" |})))
     = Some "https://notesvault.example/pages/upload.html".
Proof.
  destruct (requireAuth_then_redirectIfLoggedIn Scenario.uploadPage
              {| Routes.tab := Sample.loggedIn;
                 Routes.address := "https://notesvault.example/pages/login.html";
                 Routes.redirectAfterLogin :=
                   Some "https://notesvault.example/pages/upload.html" |}
              (Routes.tab Scenario.uploadPage)
              ltac:(vm_compute; reflexivity) ltac:(discriminate)
              ltac:(vm_compute; reflexivity) ltac:(vm_compute; reflexivity))
    as [H1 [H2 [_ [H4 _]]]].
  split; [exact H1|]. split; [|exact H4].
  rewrite H2. vm_compute. reflexivity.
Defined.

(** ** Uploads: what is refused, what is touched, what a sequence gives *)

Lemma complete_fields (form : Upload.Form) :
  complete form = true ->
  exists f, Upload.file form = Some f
            /\ Upload.title form <> "" /\ Upload.subject form <> ""
            /\ Upload.semester form <> "" /\ Upload.noteType form <> "".
Proof.
  unfold complete. destruct (Upload.file form) as [f|]; [|discriminate].
  rewrite !andb_true_iff, !truthy_iff. intros [[[H1 H2] H3] H4]. exists f. tauto.
Qed.

Lemma handleUpload_incomplete (env : Ambient) (form : Upload.Form) (w : World)
  (us : list User.t) (s : Session.t) (u : User.t) :
  users w = Holds us -> session w = Holds s ->
  find (fun x => String.eqb (User.id x) (Session.userId s)) us = Some u ->
  complete form = false ->
  Upload.handleUpload env form w
  = (Returned tt, withUi (Alert "Please fill in all required fields and select a file") w).
Proof.
  intros Hu Hs Hf Hc. unfold Upload.handleUpload. unfold bind at 1.
  rewrite (getCurrentUser_logged_in w us s u Hu Hs Hf).
  unfold complete in Hc. destruct (Upload.file form) as [f|]; [|reflexivity].
  destruct (truthy (Upload.title form)); [|reflexivity].
  destruct (truthy (Upload.subject form)); [|reflexivity].
  destruct (truthy (Upload.semester form)); [|reflexivity].
  destruct (truthy (Upload.noteType form)); [discriminate Hc | reflexivity].
Qed.

(** X21.  What the handler refuses.  Without a session it only alerts
    that a login is needed: nothing is written.  With a session whose id no
    stored record carries it first discards the session as [logout] does
    (the session item is removed and, away from the home page, a navigation
    to the home page is set), then gives the same alert; the users item is
    not written.  For a logged-in user and a submission without a file or
    with an empty title, subject, semester or note type it only alerts that
    fields are missing. *)
Theorem handleUpload_refuses_without_writing :
  forall (env : Ambient) (form : Upload.Form) (w : World),
    (session w = Absent ->
     Upload.handleUpload env form w
     = (Returned tt, withUi (Alert "Please login to upload notes") w))
    /\ (forall us s,
           session w = Holds s ->
           AuthService.getUsers w = (Returned us, w) ->
           find (fun x => String.eqb (User.id x) (Session.userId s)) us = None ->
           Upload.handleUpload env form w
           = (Returned tt,
              withUi (Alert "Please login to upload notes") (snd (AuthService.logout w)))
           /\ session (snd (AuthService.logout w)) = Absent
           /\ users (snd (AuthService.logout w)) = users w
           /\ page (snd (AuthService.logout w)) = page w
           /\ href (snd (AuthService.logout w))
              = (if String.eqb (pathname w) "/index.html" || endsWith (pathname w) "/"
                 then href w else Some "../index.html"))
    /\ (forall us s u,
           users w = Holds us -> session w = Holds s ->
           find (fun x => String.eqb (User.id x) (Session.userId s)) us = Some u ->
           Upload.file form = None \/ Upload.title form = "" \/ Upload.subject form = ""
           \/ Upload.semester form = "" \/ Upload.noteType form = "" ->
           Upload.handleUpload env form w
           = (Returned tt,
              withUi (Alert "Please fill in all required fields and select a file") w)).
Proof.
  intros env form w. split; [|split].
  - intro Hs. unfold Upload.handleUpload, AuthService.getCurrentUser.
    js_run. reflexivity.
  - intros us s Hs Hg Hf.
    split; [|split; [apply logout_session|split; [apply logout_users|split]]].
    + unfold Upload.handleUpload, AuthService.getCurrentUser.
      unfold bind at 1. unfold bind at 1.
      unfold AuthService.getSession at 1. rewrite Hs.
      unfold bind at 1. rewrite Hg. rewrite Hf.
      unfold bind, ret. rewrite logout_eq. reflexivity.
    + unfold AuthService.logout. destruct (negb _ && negb _); reflexivity.
    + unfold AuthService.logout. cbn [pathname withSession].
      destruct (String.eqb (pathname w) "/index.html"); cbn [negb andb orb]; [reflexivity|].
      destruct (endsWith (pathname w) "/"); reflexivity.
  - intros us s u Hu Hs Hf Hmiss.
    apply handleUpload_incomplete with (us := us) (s := s) (u := u); try assumption.
    unfold complete.
    destruct Hmiss as [-> | [-> | [-> | [-> | ->]]]]; [reflexivity| | | |];
      destruct (Upload.file form); try reflexivity;
      cbn [truthy]; rewrite ?andb_false_r; reflexivity.
Qed.

Lemma handleUpload_refuses_without_writing_witness :
  Upload.handleUpload Sample.env2 Sample.lectureForm Sample.registered
  = (Returned tt, withUi (Alert "Please login to upload notes") Sample.registered)
  /\ (Upload.handleUpload Sample.env2 Sample.lectureForm Sample.dangling
      = (Returned tt,
         withUi (Alert "Please login to upload notes")
           (snd (AuthService.logout Sample.dangling)))
      /\ session (snd (AuthService.logout Sample.dangling)) = Absent
      /\ users (snd (AuthService.logout Sample.dangling)) = users Sample.dangling
      /\ page (snd (AuthService.logout Sample.dangling)) = page Sample.dangling
      /\ href (snd (AuthService.logout Sample.dangling)) = Some "../index.html")
  /\ Upload.handleUpload Sample.env2 Scenario.emptyForm Sample.loggedIn
     = (Returned tt,
        withUi (Alert "Please fill in all required fields and select a file")
          Sample.loggedIn).
Proof.
  split; [|split].
  - apply (proj1 (handleUpload_refuses_without_writing Sample.env2 Sample.lectureForm
                    Sample.registered)).
    vm_compute. reflexivity.
  - apply (proj1 (proj2 (handleUpload_refuses_without_writing Sample.env2
                           Sample.lectureForm Sample.dangling))
             [Sample.bobRecord]
             (AuthService.newSession Sample.env1 Sample.aliceRecord false)).
    + vm_compute. reflexivity.
    + vm_compute. reflexivity.
    + vm_compute. reflexivity.
  - apply (proj2 (proj2 (handleUpload_refuses_without_writing Sample.env2
                           Scenario.emptyForm Sample.loggedIn))
             (collection Sample.loggedIn)
             (AuthService.newSession Sample.env1 Sample.aliceRecord false)
             Sample.aliceRecord).
    + vm_compute. reflexivity.
    + vm_compute. reflexivity.
    + vm_compute. reflexivity.
    + right; right; left. reflexivity.
Defined.

Lemma getCurrentUser_thrown_unreadable (w w' : World) (e : Exception) :
  AuthService.getCurrentUser w = (Thrown e, w') ->
  w' = w /\ (session w = Unreadable \/ users w = Unreadable).
Proof.
  unfold AuthService.getCurrentUser.
  destruct (session w) as [|s|] eqn:Hs; js_run.
  - discriminate.
  - destruct (users w) as [|us|] eqn:Hu; js_run.
    + cbn [find]. rewrite logout_eq. discriminate.
    + destruct (find _ us); [discriminate|]. rewrite logout_eq. discriminate.
    + intros [= _ <-]. split; [reflexivity | right; reflexivity].
  - intros [= _ <-]. split; [reflexivity | left; reflexivity].
Qed.

Lemma handleUpload_frame (env : Ambient) (form : Upload.Form) (w : World) :
  map withoutNotes (collection (snd (Upload.handleUpload env form w)))
  = map withoutNotes (collection w)
  /\ (fst (Upload.handleUpload env form w) = Returned tt
      \/ session w = Unreadable \/ users w = Unreadable).
Proof.
  destruct (getCurrentUser_cases w) as [[e H]|[[w' [H Hu]]|[us [s [u [Hu [Hs [Hf _]]]]]]]].
  - destruct (getCurrentUser_thrown_unreadable _ _ _ H) as [_ Hbad].
    assert (Upload.handleUpload env form w = (Thrown e, w)) as ->.
    { unfold Upload.handleUpload. unfold bind at 1. rewrite H. reflexivity. }
    cbn [snd fst]. split; [reflexivity|]. right. exact Hbad.
  - assert (Upload.handleUpload env form w
            = (Returned tt, withUi (Alert "Please login to upload notes") w')) as ->.
    { unfold Upload.handleUpload. unfold bind at 1. rewrite H. reflexivity. }
    cbn [snd fst].
    assert (collection (withUi (Alert "Please login to upload notes") w') = collection w)
      as -> by (apply collection_same_users; exact Hu).
    split; [reflexivity|]. left. reflexivity.
  - destruct (complete form) eqn:Hc.
    + destruct (complete_fields form Hc) as [f [Hfile [Ht [Hsub [Hsem Hty]]]]].
      destruct (handleUpload_complete env w us s u form f Hu Hs Hf Hfile Ht Hsub Hsem Hty)
        as [i [_ [_ ->]]].
      unfold collection. rewrite Hu. cbn [snd fst users withUi withUsers].
      split; [apply map_alterAt; intro x; reflexivity|].
      left. reflexivity.
    + rewrite (handleUpload_incomplete env form w us s u Hu Hs Hf Hc).
      cbn [snd fst]. split; [reflexivity|]. left. reflexivity.
Qed.

(** X22.  Whatever is submitted, the handler leaves every stored record in
    place with every field but the notes as it was: the id, the name, the
    email, the hash, the salt, the creation time, the college, the branch,
    the year, the update time and the two marks of a reset.  An upload can
    change nothing but notes.  It throws only when a storage item is
    unreadable. *)
Theorem handleUpload_touches_only_notes :
  forall (env : Ambient) (form : Upload.Form) (w : World),
    map withoutNotes (collection (snd (Upload.handleUpload env form w)))
    = map withoutNotes (collection w)
    /\ (fst (Upload.handleUpload env form w) = Returned tt
        \/ session w = Unreadable \/ users w = Unreadable).
Proof.
  intros env form w. apply handleUpload_frame.
Qed.

Lemma find_alterAt_found (p : User.t -> bool) (f : User.t -> User.t)
  (us : list User.t) (u : User.t) (i : nat) :
  (forall x, p (f x) = p x) ->
  find p us = Some u -> findIndex p us = Some i ->
  find p (alterAt i f us) = Some (f u).
Proof.
  intros Hp Hf Hi. rewrite (mutateFound_alterAt p f us i Hi).
  apply find_mutateFound; assumption.
Qed.

Lemma pushNote_lectures (noteType title : string) (n : Notes.t) :
  Notes.lectures (Upload.pushNote noteType title n)
  = (Notes.lectures n ++ if String.eqb noteType "lecture" then [title] else [])%list.
Proof.
  unfold Upload.pushNote. destruct (String.eqb noteType "lecture"); cbn.
  - reflexivity.
  - destruct (String.eqb noteType "pyq"); cbn; rewrite app_nil_r; reflexivity.
Qed.

Lemma pushNote_pyqs (noteType title : string) (n : Notes.t) :
  Notes.pyqs (Upload.pushNote noteType title n)
  = (Notes.pyqs n ++ if String.eqb noteType "pyq" then [title] else [])%list.
Proof.
  unfold Upload.pushNote. destruct (String.eqb noteType "lecture") eqn:Hl; cbn.
  - apply String.eqb_eq in Hl. subst noteType. cbn. rewrite app_nil_r. reflexivity.
  - destruct (String.eqb noteType "pyq"); cbn; rewrite ?app_nil_r; reflexivity.
Qed.

(** One submission by a logged-in user: the user stays logged in, and the
    notes of the record grow by the title when the submission is
    complete. *)
Lemma upload_step (env : Ambient) (form : Upload.Form) (w : World)
  (us : list User.t) (s : Session.t) (u : User.t) :
  users w = Holds us -> session w = Holds s ->
  find (fun x => String.eqb (User.id x) (Session.userId s)) us = Some u ->
  exists us' u',
    users (snd (Upload.handleUpload env form w)) = Holds us'
    /\ session (snd (Upload.handleUpload env form w)) = Holds s
    /\ find (fun x => String.eqb (User.id x) (Session.userId s)) us' = Some u'
    /\ Upload.lecturesOf u'
       = (Upload.lecturesOf u ++ titlesOf "lecture" (filter complete [form]))%list
    /\ Upload.pyqsOf u'
       = (Upload.pyqsOf u ++ titlesOf "pyq" (filter complete [form]))%list.
Proof.
  intros Hu Hs Hf. cbn [filter]. destruct (complete form) eqn:Hc.
  - destruct (complete_fields form Hc) as [f [Hfile [Ht [Hsub [Hsem Hty]]]]].
    destruct (handleUpload_complete env w us s u form f Hu Hs Hf Hfile Ht Hsub Hsem Hty)
      as [i [Hi [_ ->]]].
    cbn [snd]. do 2 eexists. split; [reflexivity|]. split; [exact Hs|].
    split; [apply find_alterAt_found; [intro x; reflexivity | exact Hf | exact Hi]|].
    unfold Upload.lecturesOf, Upload.pyqsOf, titlesOf.
    cbn [Upload.notesOf AuthService.setNotes User.notes filter map].
    rewrite pushNote_lectures, pushNote_pyqs.
    split; [destruct (String.eqb (Upload.noteType form) "lecture")
           | destruct (String.eqb (Upload.noteType form) "pyq")]; reflexivity.
  - rewrite (handleUpload_incomplete env form w us s u Hu Hs Hf Hc). cbn [snd].
    exists us, u. split; [exact Hu|]. split; [exact Hs|]. split; [exact Hf|].
    unfold titlesOf. cbn. rewrite !app_nil_r. split; reflexivity.
Qed.

Lemma titlesOf_cons (noteType : string) (form : Upload.Form) (rest : list Upload.Form) :
  titlesOf noteType (filter complete (form :: rest))
  = (titlesOf noteType (filter complete [form])
     ++ titlesOf noteType (filter complete rest))%list.
Proof.
  unfold titlesOf. cbn [filter]. destruct (complete form); [|reflexivity].
  cbn [filter]. destruct (String.eqb (Upload.noteType form) noteType); reflexivity.
Qed.

(** Submissions handled one after the other, in terms of the record that
    the lookup by the id of the session finds. *)
Lemma uploads_append_at_found_record :
  forall (env : Ambient) (forms : list Upload.Form) (w : World)
         (us : list User.t) (s : Session.t) (u : User.t),
    users w = Holds us ->
    session w = Holds s ->
    find (fun x => String.eqb (User.id x) (Session.userId s)) us = Some u ->
    exists us' u',
      users (uploadAll env forms w) = Holds us'
      /\ session (uploadAll env forms w) = Holds s
      /\ find (fun x => String.eqb (User.id x) (Session.userId s)) us' = Some u'
      /\ Upload.lecturesOf u'
         = (Upload.lecturesOf u ++ titlesOf "lecture" (filter complete forms))%list
      /\ Upload.pyqsOf u'
         = (Upload.pyqsOf u ++ titlesOf "pyq" (filter complete forms))%list.
Proof.
  intros env forms. induction forms as [|form rest IH]; intros w us s u Hu Hs Hf.
  - exists us, u. cbn [uploadAll filter]. unfold titlesOf. cbn. rewrite !app_nil_r.
    repeat split; assumption.
  - destruct (upload_step env form w us s u Hu Hs Hf)
      as [us1 [u1 [Hu1 [Hs1 [Hf1 [Hl1 Hp1]]]]]].
    destruct (IH _ us1 s u1 Hu1 Hs1 Hf1) as [us' [u' [Hu' [Hs' [Hf' [Hl' Hp']]]]]].
    exists us', u'. cbn [uploadAll].
    split; [exact Hu'|]. split; [exact Hs'|]. split; [exact Hf'|].
    rewrite (titlesOf_cons "lecture" form rest), (titlesOf_cons "pyq" form rest).
    rewrite Hl', Hp', Hl1, Hp1, <- !app_assoc. split; reflexivity.
Qed.

Lemma uploadAll_frame (env : Ambient) (forms : list Upload.Form) (w : World) :
  map withoutNotes (collection (uploadAll env forms w)) = map withoutNotes (collection w).
Proof.
  revert w. induction forms as [|form rest IH]; intro w; cbn [uploadAll]; [reflexivity|].
  rewrite IH. apply handleUpload_frame.
Qed.

Lemma withoutNotes_id (x y : User.t) :
  withoutNotes x = withoutNotes y -> User.id x = User.id y.
Proof. unfold withoutNotes. intro H. congruence. Qed.

Lemma withoutNotes_ids (l l' : list User.t) :
  map withoutNotes l = map withoutNotes l' -> map User.id l = map User.id l'.
Proof.
  revert l'. induction l as [|x r IH]; intros [|y r']; cbn; try discriminate.
  - reflexivity.
  - intro H.
    assert (map withoutNotes r = map withoutNotes r') as Hr by congruence.
    assert (withoutNotes x = withoutNotes y) as Hxy by congruence.
    rewrite (withoutNotes_id x y Hxy), (IH r' Hr). reflexivity.
Qed.

(** X23.  Submissions of a logged-in user handled one after the other,
    where the stored ids are pairwise distinct and [u] is the record of
    that user (the record whose id the session carries): the user stays
    logged in, the ids stay where they are, and the record of the user
    becomes a record [u'] that differs from [u] in the notes only; there
    the titles of the complete submissions of type lecture are appended to
    the lectures in the order of submission, those of type pyq to the
    past-year questions, and incomplete submissions and other types add
    nothing. *)
Theorem uploads_append_titles_in_order :
  forall (env : Ambient) (forms : list Upload.Form) (w : World)
         (us : list User.t) (s : Session.t) (u : User.t),
    users w = Holds us ->
    session w = Holds s ->
    NoDup (map User.id us) ->
    In u us ->
    User.id u = Session.userId s ->
    exists us' u',
      users (uploadAll env forms w) = Holds us'
      /\ session (uploadAll env forms w) = Holds s
      /\ map User.id us' = map User.id us
      /\ In u' us'
      /\ withoutNotes u' = withoutNotes u
      /\ Upload.lecturesOf u'
         = (Upload.lecturesOf u ++ titlesOf "lecture" (filter complete forms))%list
      /\ Upload.pyqsOf u'
         = (Upload.pyqsOf u ++ titlesOf "pyq" (filter complete forms))%list.
Proof.
  intros env forms w us s u Hu Hs Hnd Hin Hid.
  pose proof (find_unique User.id us u (Session.userId s) Hnd Hin Hid) as Hf.
  destruct (uploads_append_at_found_record env forms w us s u Hu Hs Hf)
    as [us' [u' [Hu' [Hs' [Hf' [Hl Hp]]]]]].
  exists us', u'.
  pose proof (uploadAll_frame env forms w) as Hframe.
  unfold collection in Hframe. rewrite Hu', Hu in Hframe.
  destruct (find_some _ _ Hf') as [Hin' Hid']. apply String.eqb_eq in Hid'.
  split; [exact Hu'|]. split; [exact Hs'|].
  split; [apply withoutNotes_ids; exact Hframe|].
  split; [exact Hin'|].
  split; [|split; assumption].
  pose proof (in_map withoutNotes us' u' Hin') as Hm. rewrite Hframe in Hm.
  apply in_map_iff in Hm. destruct Hm as [x [Hx Hxin]].
  assert (x = u) as ->.
  { apply (NoDup_map_injective User.id us x u Hnd Hxin Hin).
    rewrite (withoutNotes_id x u' Hx). congruence. }
  symmetry. exact Hx.
Qed.

Lemma uploads_append_titles_in_order_witness :
  exists us' u',
    users (uploadAll Sample.env2
             [Sample.lectureForm; Sample.assignmentForm; Sample.pyqForm;
              Scenario.emptyForm; Sample.lectureForm] Sample.loggedIn) = Holds us'
    /\ In u' us'
    /\ User.email u' = "alice@example.com"
    /\ Upload.lecturesOf u' = ["Graphs, week 1"; "Graphs, week 1"]
    /\ Upload.pyqsOf u' = ["Endsem 2023"].
Proof.
  destruct (uploads_append_titles_in_order Sample.env2
              [Sample.lectureForm; Sample.assignmentForm; Sample.pyqForm;
               Scenario.emptyForm; Sample.lectureForm] Sample.loggedIn
              [Sample.aliceRecord; Sample.bobRecord]
              (AuthService.newSession Sample.env1 Sample.aliceRecord false)
              Sample.aliceRecord
              ltac:(vm_compute; reflexivity) ltac:(vm_compute; reflexivity)
              sample_ids_distinct
              ltac:(left; reflexivity)
              ltac:(vm_compute; reflexivity))
    as [us' [u' [H1 [_ [_ [H3 [H4 [H5 H6]]]]]]]].
  exists us', u'. split; [exact H1|]. split; [exact H3|].
  split.
  - assert (User.email u' = User.email Sample.aliceRecord) as ->
      by (unfold withoutNotes in H4; congruence).
    vm_compute. reflexivity.
  - split; [rewrite H5 | rewrite H6]; vm_compute; reflexivity.
Defined.

(** ** The account page *)

Lemma trimEnd_idempotent (s : string) : trimEnd (trimEnd s) = trimEnd s.
Proof.
  induction s as [|c r IH]; cbn; [reflexivity|].
  destruct (trimEnd r) as [|d r'] eqn:Hr.
  - destruct (isWhiteSpace c) eqn:Hc; cbn; [reflexivity|]. rewrite Hc. reflexivity.
  - cbn [trimEnd]. cbn [trimEnd] in IH. rewrite IH. reflexivity.
Qed.

Lemma trimEnd_keeps_head (c : ascii) (r : string) :
  isWhiteSpace c = false -> exists r', trimEnd (String c r) = String c r'.
Proof.
  intro Hc. cbn. destruct (trimEnd r); [rewrite Hc|]; eauto.
Qed.

Lemma trim_idempotent (s : string) : trim (trim s) = trim s.
Proof.
  unfold trim.
  assert (trimStart (trimEnd (trimStart s)) = trimEnd (trimStart s)) as ->.
  { induction s as [|c r IH]; [reflexivity|].
    cbn [trimStart]. destruct (isWhiteSpace c) eqn:Hc; [exact IH|].
    destruct (trimEnd_keeps_head c r Hc) as [r' ->]. cbn. rewrite Hc. reflexivity. }
  apply trimEnd_idempotent.
Qed.

Lemma changePassword_messages (env : Ambient) (cur new : string) (w : World) :
  exists r w',
    AuthService.changePassword env cur new w = (Returned r, w')
    /\ (Result.success r = false -> users w' = users w)
    /\ (Result.success r = true -> Result.message r = "Password changed successfully!")
    /\ Result.message r <> "Failed to change password. Please try again.".
Proof.
  assert (forall msg w',
             users w' = users w ->
             msg <> "Failed to change password. Please try again." ->
             exists r w'',
               (Returned (Result.failure msg), w') = (Returned r, w'')
               /\ (Result.success r = false -> users w'' = users w)
               /\ (Result.success r = true ->
                   Result.message r = "Password changed successfully!")
               /\ Result.message r <> "Failed to change password. Please try again.")
    as Hfailure.
  { intros msg w' Hu Hmsg. exists (Result.failure msg), w'.
    split; [reflexivity|]. split; [intros _; exact Hu|].
    split; [discriminate | exact Hmsg]. }
  destruct (getCurrentUser_cases w) as [[e H]|[[w' [H Hu]]|[us [s [u [Hu [Hs [Hf _]]]]]]]].
  - rewrite (changePassword_caught _ _ env cur new e H).
    apply Hfailure; [reflexivity | discriminate].
  - rewrite (changePassword_anonymous _ _ env cur new H).
    apply Hfailure; [exact Hu | discriminate].
  - rewrite (changePassword_cases w us s u Hu Hs Hf).
    destruct (negb (String.eqb _ (User.passwordHash u))).
    { apply Hfailure; [reflexivity | discriminate]. }
    unfold AuthService.validatePassword.
    destruct (String.length new <? 8)%nat;
      cbn [negb AuthService.isValid AuthService.vmessage].
    { apply Hfailure; [reflexivity | discriminate]. }
    destruct (AuthService.strengthTest new);
      cbn [negb AuthService.isValid AuthService.vmessage].
    + do 2 eexists. split; [reflexivity|].
      split; [discriminate|]. split; [reflexivity | discriminate].
    + apply Hfailure; [reflexivity | discriminate].
Qed.

(** X24.  The change-password form of the account page.  When the
    confirmation differs from the new password, or the new password has
    fewer than 8 code units, the page shows its own error and the store is
    not touched.  In every case the stored collection changes only
    together with the success message and the closing of the form, and the
    message of the page's own exception handler is never shown, because
    the service does not throw. *)
Theorem account_page_changePassword :
  forall (env : Ambient) (cur new confirm : string) (p : AccountPage.Page),
    (new <> confirm \/ String.length new < 8 ->
     AccountPage.store (AccountPage.changePassword env cur new confirm p)
     = AccountPage.store p
     /\ exists text,
          AccountPage.messageBox (AccountPage.changePassword env cur new confirm p)
          = Some (text, AccountPage.error))
    /\ (users (AccountPage.store (AccountPage.changePassword env cur new confirm p))
        = users (AccountPage.store p)
        \/ (AccountPage.messageBox (AccountPage.changePassword env cur new confirm p)
            = Some ("Password changed successfully!", AccountPage.success)
            /\ AccountPage.passwordFormOpen
                 (AccountPage.changePassword env cur new confirm p) = false))
    /\ AccountPage.messageBox (AccountPage.changePassword env cur new confirm p)
       <> Some ("Failed to change password. Please try again.", AccountPage.error).
Proof.
  intros env cur new confirm p. unfold AccountPage.changePassword.
  destruct (String.eqb new confirm) eqn:He; cbn [negb].
  2:{ split; [intros _; split; [reflexivity | eexists; reflexivity]|].
      split; [left; reflexivity | discriminate]. }
  destruct (String.length new <? 8)%nat eqn:Hlen.
  { split; [intros _; split; [reflexivity | eexists; reflexivity]|].
    split; [left; reflexivity | discriminate]. }
  apply String.eqb_eq in He. apply Nat.ltb_ge in Hlen.
  split; [intros [H|H]; [congruence | lia]|].
  destruct (changePassword_messages env cur new (AccountPage.store p))
    as [r [w' [-> [Hfail [Hok Hmsg]]]]].
  destruct (Result.success r) eqn:Hs.
  - split.
    + right. cbn. rewrite (Hok eq_refl). split; reflexivity.
    + cbn. rewrite (Hok eq_refl). discriminate.
  - split.
    + left. cbn. apply Hfail. reflexivity.
    + cbn. intros [= H]. apply Hmsg. exact H.
Qed.

Lemma account_page_changePassword_witness :
  AccountPage.store
    (AccountPage.changePassword Sample.env2 "Passw0rdA" "N3wPassword" "N3wPasswor"
       Scenario.accountPage)
  = AccountPage.store Scenario.accountPage
  /\ exists text,
       AccountPage.messageBox
         (AccountPage.changePassword Sample.env2 "Passw0rdA" "N3wPassword" "N3wPasswor"
            Scenario.accountPage)
       = Some (text, AccountPage.error).
Proof.
  apply (proj1 (account_page_changePassword Sample.env2 "Passw0rdA" "N3wPassword"
                  "N3wPasswor" Scenario.accountPage)).
  left. discriminate.
Defined.

(** X25.  The profile form of the account page cannot change the name or
    the email.  Where the stored ids are pairwise distinct and [u] is the
    record of the logged-in user (the record whose id the session
    carries), it stores in the place of [u] a record with the sanitized
    college, branch and year (trimming first changes nothing) and with the
    id, the name, the email, the credentials and the notes of [u], leaves
    every other record as it was, shows the success message and schedules
    the reload. *)
Theorem account_page_updateProfile :
  forall (env : Ambient) (collegeName branchName yearName : string)
         (p : AccountPage.Page) (us : list User.t) (s : Session.t) (u : User.t),
    users (AccountPage.store p) = Holds us ->
    session (AccountPage.store p) = Holds s ->
    NoDup (map User.id us) ->
    In u us ->
    User.id u = Session.userId s ->
    exists i us' u',
      nth_error us i = Some u
      /\ users (AccountPage.store
                  (AccountPage.updateProfile env collegeName branchName yearName p))
         = Holds us'
      /\ nth_error us' i = Some u'
      /\ (forall j, j <> i -> nth_error us' j = nth_error us j)
      /\ User.college u' = AuthService.sanitizeInput collegeName
      /\ User.branch u' = AuthService.sanitizeInput branchName
      /\ User.year u' = AuthService.sanitizeInput yearName
      /\ User.id u' = User.id u
      /\ User.name u' = User.name u
      /\ User.email u' = User.email u
      /\ User.passwordHash u' = User.passwordHash u
      /\ User.salt u' = User.salt u
      /\ User.notes u' = User.notes u
      /\ AccountPage.messageBox
           (AccountPage.updateProfile env collegeName branchName yearName p)
         = Some ("Profile updated successfully!", AccountPage.success)
      /\ AccountPage.reloadPending
           (AccountPage.updateProfile env collegeName branchName yearName p) = true.
Proof.
  intros env collegeName branchName yearName p us s u Hu Hs Hnd Hin Hid.
  pose proof (find_unique User.id us u (Session.userId s) Hnd Hin Hid) as Hf.
  unfold AccountPage.updateProfile.
  destruct (updateProfile_at_found_record env
              {| ProfileData.name := None;
                 ProfileData.college := Some (trim collegeName);
                 ProfileData.branch := Some (trim branchName);
                 ProfileData.year := Some yearName |}
              (AccountPage.store p) us s u Hu Hs Hf) as [i [Hi [-> [Hsame Hother]]]].
  cbn [Result.success Result.ok Result.message].
  exists i. do 2 eexists. split; [exact Hi|].
  split; [reflexivity|]. split; [exact Hsame|]. split; [exact Hother|].
  cbn. unfold AuthService.sanitizeInput. rewrite !trim_idempotent.
  repeat split.
Qed.

Lemma account_page_updateProfile_witness :
  exists i us' u',
    nth_error [Sample.aliceRecord; Sample.bobRecord] i = Some Sample.aliceRecord
    /\ users (AccountPage.store
                (AccountPage.updateProfile Sample.env2 "  MIT " "CS" "2nd Year"
                   Scenario.accountPage))
       = Holds us'
    /\ nth_error us' i = Some u'
    /\ User.college u' = "MIT"
    /\ User.name u' = "Alice"
    /\ AccountPage.reloadPending
         (AccountPage.updateProfile Sample.env2 "  MIT " "CS" "2nd Year"
            Scenario.accountPage) = true.
Proof.
  destruct (account_page_updateProfile Sample.env2 "  MIT " "CS" "2nd Year"
              Scenario.accountPage [Sample.aliceRecord; Sample.bobRecord]
              (AuthService.newSession Sample.env1 Sample.aliceRecord false)
              Sample.aliceRecord
              ltac:(vm_compute; reflexivity) ltac:(vm_compute; reflexivity)
              sample_ids_distinct
              ltac:(left; reflexivity)
              ltac:(vm_compute; reflexivity))
    as [i [us' [u' [H0 [H1 [H2 [_ [H3 [_ [_ [_ [H6 [_ [_ [_ [_ [_ H11]]]]]]]]]]]]]]]]].
  exists i, us', u'. split; [exact H0|]. split; [exact H1|]. split; [exact H2|].
  split; [rewrite H3; vm_compute; reflexivity|].
  split; [rewrite H6; vm_compute; reflexivity | exact H11].
Defined.





